(** * Planche furniture matcher: a shallow embedding of [furniture_matcher.py]

    The matcher published in the implementation plan
    ([match_furniture_for_room], [get_max_dimension_for_slot],
    [query_supabase_for_matching], [rank_candidates] and
    [distribute_budget_across_rooms]) is translated function by function.

    Conventions of the embedding.
    - Python numbers are exact rationals ([Q]); [round(x, n)] is decimal
      rounding, half to even; [int(x)] truncates toward zero.  Binary
      floating-point rounding error is outside the model: only the explicit
      [round] calls of the source round.
    - A Python dict read with [.get] and a JSON [null] become [option];
      truthiness tests ([if c.get("price")]) are written out.
    - Exceptions and the one effect of the matcher, the catalog query, live
      in the monad [Prog]: a program either returns, raises, or asks the
      catalog a question and continues with the rows it answers.
    - The database is not code of the plan.  What it does with a request is
      written down where a statement needs it ([Sql.like], [row_matches],
      [query_supabase_for_matching_on], [sql_answer]) and marked as
      modelled. *)

From Stdlib Require Import List String Ascii Bool ZArith QArith Qabs Qround Lia Lqa.
Import ListNotations.

Set Implicit Arguments.
Open Scope string_scope.
Open Scope Q_scope.

(** ** Python primitives *)

Module Py.

(** Nearest integer, ties to the even neighbour. *)
Definition round_half_even (x : Q) : Z :=
  let fl := Qfloor x in
  match Qcompare (x - inject_Z fl) (1 # 2) with
  | Lt => fl
  | Gt => (fl + 1)%Z
  | Eq => if Z.even fl then fl else (fl + 1)%Z
  end.

(** [round(x, ndigits)] *)
Definition round (x : Q) (ndigits : nat) : Q :=
  let scale := inject_Z (10 ^ Z.of_nat ndigits) in
  inject_Z (round_half_even (x * scale)) / scale.

(** [int(x)] *)
Definition int (x : Q) : Z := Z.quot (Qnum x) (Zpos (Qden x)).

(** [min(a, b)]: the first argument unless the second is strictly smaller. *)
Definition min (a b : Q) : Q := if Qle_bool a b then a else b.

(** [sum(xs)] *)
Definition sum (xs : list Q) : Q := fold_left Qplus xs 0.

(** Truthiness of an optional number: present and non-zero. *)
Definition truthy_num (o : option Q) : bool :=
  match o with
  | Some x => negb (Qeq_bool x 0)
  | None => false
  end.

(** Truthiness of an optional string: present and non-empty. *)
Definition truthy_str (o : option string) : bool :=
  match o with
  | Some s => negb (String.eqb s "")
  | None => false
  end.

Definition truthy_list {A} (o : option (list A)) : bool :=
  match o with
  | Some (_ :: _) => true
  | _ => false
  end.

Definition Qltb (a b : Q) : bool := negb (Qle_bool b a).

(** [x in xs] for strings *)
Definition str_in (x : string) (xs : list string) : bool :=
  existsb (String.eqb x) xs.

(** [d.get(k)] on a dict kept as an association list in insertion order. *)
Fixpoint dict_get {V} (d : list (string * V)) (k : string) : option V :=
  match d with
  | [] => None
  | (k', v) :: d' => if String.eqb k k' then Some v else dict_get d' k
  end.

(** [d.get(k, default)] *)
Definition dict_get_default {V} (d : list (string * V)) (k : string) (dflt : V) : V :=
  match dict_get d k with
  | Some v => v
  | None => dflt
  end.

(** [d[k] = v]: an existing key keeps its position, a new key goes last. *)
Fixpoint dict_set {V} (d : list (string * V)) (k : string) (v : V) : list (string * V) :=
  match d with
  | [] => [(k, v)]
  | (k', v') :: d' =>
      if String.eqb k k' then (k', v) :: d' else (k', v') :: dict_set d' k v
  end.

(** [s.split("_")[0]]: the part of [s] before the first underscore. *)
Fixpoint split_underscore_head (s : string) : string :=
  match s with
  | EmptyString => EmptyString
  | String c s' =>
      if Ascii.eqb c "_"%char then EmptyString
      else String c (split_underscore_head s')
  end.

Definition lower_ascii (c : ascii) : ascii :=
  let n := nat_of_ascii c in
  if andb (Nat.leb 65 n) (Nat.leb n 90) then ascii_of_nat (n + 32) else c.

Fixpoint lower (s : string) : string :=
  match s with
  | EmptyString => EmptyString
  | String c s' => String (lower_ascii c) (lower s')
  end.

Fixpoint contains (needle hay : string) : bool :=
  if String.prefix needle hay then true
  else match hay with
       | EmptyString => false
       | String _ hay' => contains needle hay'
       end.

End Py.

(** ** The pattern operator of the database *)

(** The matcher writes its room and style filters as [ILIKE] patterns
    (l.1281, l.1284).  What a pattern matches is decided by PostgREST and
    PostgreSQL, not by code of the plan. *)
Module Sql.

(** PostgREST reads a [*] in the operand of [like] and [ilike] as [%]. *)
Fixpoint star_to_percent (s : string) : string :=
  match s with
  | EmptyString => EmptyString
  | String c s' =>
      String (if Ascii.eqb c "*"%char then "%"%char else c) (star_to_percent s')
  end.

(** Modelled from the spec: the substring match 4.3 asks of the catalog is
    sent as a pattern, and this is PostgreSQL's [value LIKE pattern]: [%]
    stands for any run of characters, [_] for any one character, a backslash
    takes the character after it literally, every other character stands for
    itself.  Strings are sequences of one-byte characters.  A pattern that
    ends in a lone backslash is refused by the database; here it matches
    nothing. *)
Fixpoint like (pattern : string) : string -> bool :=
  match pattern with
  | EmptyString =>
      fun value => match value with EmptyString => true | String _ _ => false end
  | String c pattern' =>
      if Ascii.eqb c "%"%char then
        fix skip (value : string) : bool :=
          like pattern' value
          || match value with
             | EmptyString => false
             | String _ value' => skip value'
             end
      else if Ascii.eqb c "_"%char then
        fun value =>
          match value with
          | EmptyString => false
          | String _ value' => like pattern' value'
          end
      else if Ascii.eqb c "\"%char then
        match pattern' with
        | EmptyString => fun _ => false
        | String e pattern'' =>
            fun value =>
              match value with
              | EmptyString => false
              | String d value' => Ascii.eqb e d && like pattern'' value'
              end
        end
      else
        fun value =>
          match value with
          | EmptyString => false
          | String d value' => Ascii.eqb c d && like pattern' value'
          end
  end.

(** Modelled from the spec: [value ILIKE pattern], the match of [like] with
    the case of the letters A to Z ignored. *)
Definition ilike (pattern value : string) : bool :=
  like (Py.lower (star_to_percent pattern)) (Py.lower value).

(** The characters with a meaning of their own in a pattern. *)
Definition wildcard (c : ascii) : bool :=
  existsb (Ascii.eqb c) ["%"; "_"; "\"; "*"]%char.

(** A text without wildcards: as a pattern it matches itself only. *)
Definition plain (s : string) : bool :=
  forallb (fun c => negb (wildcard c)) (list_ascii_of_string s).

End Sql.

(** ** Texts pasted into filter strings *)

Module Postgrest.

(** The characters PostgREST gives a meaning of its own inside the filter
    strings of [or_] (l.1278, l.1284): separators, brackets, the double
    quote and the backslash. *)
Definition reserved (c : ascii) : bool :=
  existsb (Ascii.eqb c)
    [","%char; "."%char; ":"%char; "("%char; ")"%char; "{"%char; "}"%char;
     "\"%char; ascii_of_nat 34].

(** Blanks: PostgREST skips them after the opening bracket of a list. *)
Definition blank (c : ascii) : bool :=
  existsb (Ascii.eqb c) [" "%char; ascii_of_nat 9; ascii_of_nat 10; ascii_of_nat 13].

(** A text PostgREST reads as one value, the text itself: not empty, free of
    reserved characters, and with no blank at either end. *)
Definition literal (s : string) : bool :=
  match list_ascii_of_string s with
  | [] => false
  | first :: _ =>
      negb (blank first)
      && negb (blank (last (list_ascii_of_string s) first))
      && forallb (fun c => negb (reserved c)) (list_ascii_of_string s)
  end.

End Postgrest.

(** ** Data model *)

(** One row of the [products] table, restricted to the columns the matcher
    reads.  Every column but [name] is nullable. *)
Record Product : Type := mkProduct {
  p_id : string;
  p_name : string;
  p_price : option Q;
  p_currency : option string;
  p_category : option string;
  p_subcategory : option string;
  p_room_type : option string;
  p_style : option string;
  p_width_cm : option Q;
  p_height_cm : option Q;
  p_depth_cm : option Q;
  p_dimensions_source : option string;
  p_proportion_w_h : option Q;
  p_proportion_w_d : option Q;
  p_visual_description : option string;
  p_luxury_score : option Q;
  p_image_usable : option bool;
  p_primary_material : option string;
  p_color : option string;
  p_r2_main_image_key : option string;
  p_in_stock : option bool;
  p_rating : option Q;
  p_product_url : option string;
  p_source_domain : option string
}.

(** An entry of [usable_walls] in the room analysis. *)
Record Wall : Type := mkWall {
  wall_name : string;
  free_length_cm : option Q;
  suitable_for : option (list string)
}.

(** A room of the room analysis. *)
Record Room : Type := mkRoom {
  room_id : string;
  room_type : string;
  estimated_width_cm : Q;
  estimated_depth_cm : Q;
  estimated_area_sqm : option Q;
  usable_walls : option (list Wall)
}.

(** [quantity] is an int or a [(min, max)] tuple. *)
Inductive Quantity : Type :=
| Fixed (n : Z)
| Range (lo hi : Z).

Record Slot : Type := mkSlot {
  slot : string;
  categories : list string;
  quantity : Quantity
}.

Record Requirements : Type := mkRequirements {
  required : option (list Slot);
  optional : option (list Slot)
}.

Record TierConfig : Type := mkTier {
  label : string;
  description : string;
  per_sqm_eur : Q * Q;
  preferred_sources : list string;
  max_single_item_pct : Q;
  style_keywords : list string
}.

(** The keyword arguments of [query_supabase_for_matching]. *)
Record QueryArgs : Type := mkQuery {
  q_categories : option (list string);
  q_room : option string;
  q_style : option string;
  q_min_price : option Q;
  q_max_price : option Q;
  q_max_width : option Z;
  q_preferred_sources : option (list string);
  q_require_usable_image : bool;
  q_require_proportions : bool;
  q_limit : nat
}.

(** ** Static configuration *)

Definition BUDGET_TIERS : list (string * TierConfig) :=
  [ ("budget",
     mkTier "Бюджетен / Budget"
            "Functional, affordable furniture from JYSK, IKEA, eMAG"
            (30, 60) ["jysk.bg"; "ikea.bg"; "emag.bg"] 0.35
            ["budget"; "basic"; "functional"; "minimalist"]);
    ("standard",
     mkTier "Стандартен / Standard"
            "Good quality mid-range from Videnov, IKEA, AIKO"
            (60, 150) ["videnov.bg"; "ikea.bg"; "aiko-bg.com"] 0.30
            ["modern"; "scandinavian"; "contemporary"]);
    ("premium",
     mkTier "Премиум / Premium"
            "High-quality designer furniture"
            (150, 350) ["wayfair.co.uk"; "ikea.com"; "videnov.bg"] 0.25
            ["premium"; "designer"; "high-end"]);
    ("luxury",
     mkTier "Луксозен / Luxury"
            "Top-tier luxury furniture, premium materials"
            (350, 1000) ["wayfair.co.uk"] 0.25
            ["luxury"; "premium"; "designer"; "exclusive"]) ].

Definition Allocation : Type := list (string * (Q * Q)).

Definition ROOM_BUDGET_ALLOCATION : list (string * Allocation) :=
  [ ("living room",
     [ ("seating", (0.30, 0.40)); ("tables", (0.08, 0.15));
       ("storage", (0.10, 0.20)); ("lighting", (0.05, 0.10));
       ("rugs", (0.05, 0.10)); ("decor", (0.05, 0.10)) ]);
    ("bedroom",
     [ ("bed", (0.35, 0.45)); ("storage", (0.20, 0.30));
       ("nightstands", (0.08, 0.12)); ("lighting", (0.05, 0.10));
       ("rugs", (0.03, 0.08)); ("decor", (0.03, 0.08)) ]);
    ("kitchen",
     [ ("dining_table", (0.25, 0.35)); ("chairs", (0.20, 0.30));
       ("storage", (0.15, 0.25)); ("lighting", (0.05, 0.10));
       ("accessories", (0.05, 0.10)) ]);
    ("dining room",
     [ ("dining_table", (0.30, 0.40)); ("chairs", (0.25, 0.35));
       ("storage", (0.10, 0.20)); ("lighting", (0.05, 0.10));
       ("decor", (0.05, 0.10)) ]);
    ("office",
     [ ("desk", (0.30, 0.40)); ("chair", (0.20, 0.30));
       ("storage", (0.15, 0.25)); ("lighting", (0.05, 0.10));
       ("accessories", (0.05, 0.10)) ]);
    ("kids room",
     [ ("bed", (0.30, 0.40)); ("desk", (0.15, 0.20));
       ("storage", (0.20, 0.30)); ("lighting", (0.05, 0.10));
       ("decor", (0.05, 0.10)) ]) ].

Definition ROOM_FURNITURE_REQUIREMENTS : list (string * Requirements) :=
  [ ("living room",
     mkRequirements
       (Some [ mkSlot "sofa" ["sofa"; "corner sofa"; "sofa bed"] (Fixed 1);
               mkSlot "coffee_table" ["coffee table"; "table"] (Fixed 1) ])
       (Some [ mkSlot "tv_unit" ["TV stand"; "wall unit"; "shelving"] (Fixed 1);
               mkSlot "armchair" ["armchair"; "chair"] (Range 0 2);
               mkSlot "bookcase" ["bookcase"; "shelf unit"; "shelving"] (Range 0 1);
               mkSlot "floor_lamp" ["lamp"; "floor lamp"] (Range 0 2);
               mkSlot "rug" ["rug"; "carpet"] (Range 0 1);
               mkSlot "side_table" ["side table"; "table"] (Range 0 2) ]));
    ("bedroom",
     mkRequirements
       (Some [ mkSlot "bed" ["bed"; "double bed"] (Fixed 1);
               mkSlot "wardrobe" ["wardrobe"; "cabinet"] (Fixed 1) ])
       (Some [ mkSlot "nightstand" ["nightstand"; "bedside table"] (Range 0 2);
               mkSlot "dresser" ["dresser"; "chest of drawers"] (Range 0 1);
               mkSlot "mirror" ["mirror"] (Range 0 1);
               mkSlot "lamp" ["lamp"; "table lamp"] (Range 0 2);
               mkSlot "rug" ["rug"] (Range 0 1) ]));
    ("kitchen",
     mkRequirements
       (Some [ mkSlot "dining_table" ["dining table"; "kitchen table"; "table"] (Fixed 1);
               mkSlot "chairs" ["dining chair"; "chair"] (Range 2 6) ])
       (Some [ mkSlot "storage" ["cabinet"; "shelf unit"] (Range 0 1) ]));
    ("office",
     mkRequirements
       (Some [ mkSlot "desk" ["desk"; "office desk"] (Fixed 1);
               mkSlot "chair" ["office chair"; "chair"] (Fixed 1) ])
       (Some [ mkSlot "bookcase" ["bookcase"; "shelf unit"] (Range 0 2);
               mkSlot "lamp" ["desk lamp"; "lamp"] (Range 0 1) ])) ].

Definition ROOM_BUDGET_WEIGHT : list (string * Q) :=
  [ ("living room", 0.30); ("bedroom", 0.25); ("kitchen", 0.20);
    ("dining room", 0.10); ("office", 0.08); ("kids room", 0.05);
    ("bathroom", 0.02) ].

(** ** Effects: exceptions and the catalog query *)

Inductive exn : Type :=
| KeyError (key : string)
| ZeroDivisionError
| TypeError
| IndexError.

(** A program returns, raises, or queries the catalog and goes on with the
    rows it is given. *)
Inductive Prog (A : Type) : Type :=
| Ret (a : A)
| Raise (e : exn)
| Query (q : QueryArgs) (k : list Product -> Prog A).

Arguments Ret {A} a.
Arguments Raise {A} e.
Arguments Query {A} q k.

Fixpoint bind {A B} (m : Prog A) (f : A -> Prog B) : Prog B :=
  match m with
  | Ret a => f a
  | Raise e => Raise e
  | Query q k => Query q (fun rows => bind (k rows) f)
  end.

Notation "x <- m ;; k" := (bind m (fun x => k))
  (at level 61, m at next level, right associativity).

(** [for x in xs: st = body(x, st)] *)
Fixpoint for_each {X S} (xs : list X) (body : X -> S -> Prog S) (st : S) : Prog S :=
  match xs with
  | [] => Ret st
  | x :: xs' => st' <- body x st ;; for_each xs' body st'
  end.

(** The outcome of a completed call. *)
Inductive result (A : Type) : Type :=
| Ok (a : A)
| Err (e : exn).

Arguments Ok {A} a.
Arguments Err {A} e.

(** The catalog as the matcher sees it: an answer to every query. *)
Definition Catalog : Type := QueryArgs -> list Product.

(** Running a program against a catalog. *)
Fixpoint run {A} (cat : Catalog) (m : Prog A) : result A :=
  match m with
  | Ret a => Ok a
  | Raise e => Err e
  | Query q k => run cat (k (cat q))
  end.

(** The queries a run issues, in order, each with the rows it received. *)
Fixpoint trace {A} (cat : Catalog) (m : Prog A) : list (QueryArgs * list Product) :=
  match m with
  | Ret _ => []
  | Raise _ => []
  | Query q k => (q, cat q) :: trace cat (k (cat q))
  end.

(** [a / b] *)
Definition div (a b : Q) : Prog Q :=
  if Qeq_bool b 0 then Raise ZeroDivisionError else Ret (a / b).

(** ** Sorting *)

(** [xs.sort(key=...)] is stable: elements with equal keys keep their order.
    [leb a b] says that [a] may stand before [b]. *)
Section StableSort.
Context {A : Type} (leb : A -> A -> bool).

Fixpoint insert_sorted (x : A) (l : list A) : list A :=
  match l with
  | [] => [x]
  | y :: l' => if leb x y then x :: l else y :: insert_sorted x l'
  end.

Definition stable_sort (l : list A) : list A :=
  fold_right insert_sorted [] l.
End StableSort.

(** ** The catalog query *)

Definition opt_str_in (o : option string) (xs : list string) : bool :=
  match o with
  | Some s => Py.str_in s xs
  | None => false
  end.

(** Modelled from the spec: the rows the catalog of 4.3 lets through, for the
    filter chain [query_supabase_for_matching] builds (l.1273-1305), as one
    predicate on a row; the conditions under which a filter is added
    ([if categories:], [if max_width:], ...) are those of the source.  A
    comparison with a NULL column is not true.  The room and style texts are
    pasted into the patterns [%room%] and [%style%].  The category list and
    the style are pasted into [or_] filter strings, which PostgREST reads
    value by value as long as no value holds one of its reserved characters
    ([Postgrest.reserved]): the categories of the plan hold none (lemma
    [plan_categories_literal]), and statements about other texts assume
    [Postgrest.literal] of them. *)
Definition row_matches (a : QueryArgs) (p : Product) : bool :=
  (if Py.truthy_list (q_categories a)
   then let cats := match q_categories a with Some l => l | None => [] end in
        opt_str_in (p_category p) cats || opt_str_in (p_subcategory p) cats
   else true)
  && (if Py.truthy_str (q_room a)
      then match q_room a, p_room_type p with
           | Some r, Some v => Sql.ilike ("%" ++ r ++ "%") v
           | _, _ => false
           end
      else true)
  && (if Py.truthy_str (q_style a)
      then match q_style a, p_style p with
           | Some s, Some v => Sql.ilike ("%" ++ s ++ "%") v
           | _, None => true
           | None, _ => false
           end
      else true)
  && match q_min_price a with
     | Some lo => match p_price p with
                  | Some x => Qle_bool lo x
                  | None => false
                  end
     | None => true
     end
  && match q_max_price a with
     | Some hi => match p_price p with
                  | Some x => Qle_bool x hi
                  | None => false
                  end
     | None => true
     end
  && match q_max_width a with
     | Some w => if (w =? 0)%Z then true
                 else match p_width_cm p with
                      | Some x => Qle_bool x (inject_Z w)
                      | None => true
                      end
     | None => true
     end
  && (if q_require_usable_image a
      then match p_image_usable p with Some true => true | _ => false end
           && match p_r2_main_image_key p with Some _ => true | None => false end
      else true)
  && (if q_require_proportions a
      then match p_proportion_w_h p with Some _ => true | None => false end
      else true)
  && match p_in_stock p with Some true => true | _ => false end
  && (if Py.truthy_list (q_preferred_sources a)
      then opt_str_in (p_source_domain p)
             (match q_preferred_sources a with Some l => l | None => [] end)
      else true).

(** [ORDER BY rating DESC NULLS LAST] *)
Definition rating_before (a b : Product) : bool :=
  match p_rating a, p_rating b with
  | Some x, Some y => Qle_bool y x
  | Some _, None => true
  | None, Some _ => false
  | None, None => true
  end.

(** Modelled from the spec: the answer the catalog of 4.3 gives to the
    request [query_supabase_for_matching] sends, on a snapshot of the
    [products] table: the rows that pass the filters, ordered by rating
    (l.1307), cut at [limit] (l.1308).  [ORDER BY rating] leaves the order of
    equally rated rows to the database; this catalog gives them in table
    order, and [sql_answer] describes every order the database may choose. *)
Definition query_supabase_for_matching_on (products : list Product) : Catalog :=
  fun a =>
    firstn (q_limit a)
           (stable_sort rating_before (filter (row_matches a) products)).

(** Inside the matcher the call is the catalog effect. *)
Definition query_supabase_for_matching (a : QueryArgs) : Prog (list Product) :=
  Query a Ret.

(** ** Ranking *)

(** The body of the scoring loop of [rank_candidates]. *)
Definition score (c : Product) (target_price : Q) (tier : string) : Z :=
  let price_points :=
    if Py.truthy_num (p_price c) && negb (Qeq_bool target_price 0) then
      let price_ratio := match p_price c with Some x => x | None => 0 end / target_price in
      ((if Qle_bool 0.6 price_ratio && Qle_bool price_ratio 1.1 then 30
        else if Qle_bool 0.4 price_ratio && Qle_bool price_ratio 1.3 then 15
        else 0)
       + (if String.eqb tier "luxury" && Py.Qltb 0.8 price_ratio then 10 else 0))%Z
    else 0%Z in
  let image_points :=
    if Py.truthy_str (p_r2_main_image_key c) then 25%Z else 0%Z in
  let dimension_points :=
    if opt_str_in (p_dimensions_source c) ["website_verified"; "ai_estimated"] then 20%Z
    else if Py.truthy_num (p_width_cm c) then 10%Z
    else 0%Z in
  let description_points :=
    if Py.truthy_str (p_visual_description c) then 15%Z else 0%Z in
  let proportion_points :=
    if Py.truthy_num (p_proportion_w_h c) then 15%Z else 0%Z in
  let luxury_points :=
    if Py.truthy_num (p_luxury_score c) then
      let l := match p_luxury_score c with Some x => x | None => 0 end in
      if String.eqb tier "luxury" && Py.Qltb 0.7 l then 15%Z
      else if String.eqb tier "budget" && Py.Qltb l 0.3 then 10%Z
      else if Py.str_in tier ["standard"; "premium"] && Qle_bool 0.3 l && Qle_bool l 0.7
           then 10%Z
      else 0%Z
    else 0%Z in
  let rating_points :=
    if Py.truthy_num (p_rating c)
       && Qle_bool 4.0 (match p_rating c with Some x => x | None => 0 end)
    then 10%Z else 0%Z in
  (price_points + image_points + dimension_points + description_points
   + proportion_points + luxury_points + rating_points)%Z.

(** [scored.sort(key=lambda x: -x[0])] *)
Definition sort_scored (scored : list (Z * Product)) : list (Z * Product) :=
  stable_sort (fun a b => (- fst a <=? - fst b)%Z) scored.

Definition rank_candidates (candidates : list Product) (target_price : Q)
    (tier : string) : Prog Product :=
  let scored := map (fun c => (score c target_price tier, c)) candidates in
  match sort_scored scored with
  | (_, c) :: _ => Ret c
  | [] => match candidates with
          | c :: _ => Ret c
          | [] => Raise IndexError
          end
  end.

(** ** Spatial limit *)

Fixpoint first_suitable_wall (slot_name : string) (walls : list Wall) : option Wall :=
  match walls with
  | [] => None
  | w :: walls' =>
      if Py.str_in slot_name (match suitable_for w with Some l => l | None => [] end)
      then Some w
      else first_suitable_wall slot_name walls'
  end.

Definition get_max_dimension_for_slot (slot_name : string) (room : Room) : Z :=
  let room_width := estimated_width_cm room in
  let room_depth := estimated_depth_cm room in
  let walls := match usable_walls room with Some l => l | None => [] end in
  match first_suitable_wall slot_name walls with
  | Some w =>
      Py.int (match free_length_cm w with
              | Some x => x
              | None => room_width * 0.6
              end)
  | None =>
      let limits :=
        [ ("sofa", room_width * 0.75);
          ("coffee_table", room_width * 0.35);
          ("bed", Py.min (room_width * 0.7) 220);
          ("wardrobe", room_width * 0.6);
          ("desk", Py.min (room_width * 0.5) 180);
          ("dining_table", Py.min (room_width * 0.6) (room_depth * 0.5));
          ("tv_unit", room_width * 0.5);
          ("bookcase", room_width * 0.4);
          ("nightstand", 60);
          ("dresser", room_width * 0.4);
          ("lamp", 50);
          ("rug", room_width * 0.7);
          ("chair", 80);
          ("armchair", 100);
          ("side_table", 60);
          ("mirror", room_width * 0.3) ] in
      Py.int (Py.dict_get_default limits slot_name (room_width * 0.5))
  end.

(** ** The matcher *)

(** [get_image_url]: the public URL of an R2 key; the f-string prints a
    missing key as [None]. *)
Definition get_image_url (R2_PUBLIC_URL : string) (r2_key : option string) : string :=
  R2_PUBLIC_URL ++ "/" ++ match r2_key with Some k => k | None => "None" end.

Section Matcher.

(** [get_placement_for_slot] is called by the matcher but defined nowhere in
    the plan, and [R2_PUBLIC_URL] is deployment configuration: both are
    parameters. *)
Context {Placement : Type}.
Variable get_placement_for_slot : string -> Room -> Placement.
Variable R2_PUBLIC_URL : string.

(** An element of [selected_products]. *)
Record Selected : Type := mkSelected {
  sel_slot : string;
  sel_product : Product;
  sel_quantity : Z;
  sel_placement : Placement
}.

Record RenderImage : Type := mkRenderImage {
  ri_slot : string;
  ri_r2_key : option string;
  ri_r2_url : string;
  ri_visual_description : option string;
  ri_width_cm : option Q;
  ri_height_cm : option Q;
  ri_depth_cm : option Q;
  ri_proportion_w_h : option Q;
  ri_proportion_w_d : option Q;
  ri_color : option string;
  ri_primary_material : option string
}.

Record BuyLink : Type := mkBuyLink {
  bl_name : string;
  bl_price : option Q;
  bl_currency : option string;
  bl_url : option string;
  bl_source : option string;
  bl_image_url : string
}.

(** The dict [match_furniture_for_room] returns. *)
Record MatchResult : Type := mkMatchResult {
  mr_room : Room;
  mr_tier : string;
  mr_style : option string;
  budget_total : Q;
  budget_spent : Q;
  budget_remaining : Q;
  budget_utilization_pct : Q;
  products : list Selected;
  product_count : nat;
  product_images_for_render : list RenderImage;
  buy_links : list BuyLink
}.

(** The three local variables the two loops update. *)
Record MState : Type := mkState {
  selected_products : list Selected;
  remaining_budget : Q;
  total_spent : Q
}.

(** One unit of a slot: append the pick and move its price from the
    remaining budget to the spent total. *)
Definition purchase (slot_name : string) (best : Product) (room : Room)
    (st : MState) : Prog MState :=
  let selected :=
    (selected_products st
     ++ [mkSelected slot_name best 1 (get_placement_for_slot slot_name room)])%list in
  match p_price best with
  | None => Raise TypeError
  | Some price =>
      Ret (mkState selected (remaining_budget st - price) (total_spent st + price))
  end.

Definition slot_quantity (s : Slot) : Z :=
  match quantity s with
  | Fixed n => n
  | Range _ hi => hi
  end.

Definition required_alloc (allocations : Allocation) (slot_name : string) : Q * Q :=
  Py.dict_get_default allocations (Py.split_underscore_head slot_name)
    (Py.dict_get_default allocations slot_name (0.15, 0.25)).

(** The query of a required slot. *)
Definition required_query (room : Room) (style : option string)
    (tier_config : TierConfig) (s : Slot) (per_item_budget : Q) : QueryArgs :=
  {| q_categories := Some (categories s);
     q_room := Some (room_type room);
     q_style := style;
     q_min_price := Some (per_item_budget * 0.3);
     q_max_price := Some per_item_budget;
     q_max_width := Some (get_max_dimension_for_slot (slot s) room);
     q_preferred_sources := Some (preferred_sources tier_config);
     q_require_usable_image := true;
     q_require_proportions := true;
     q_limit := 5 |}.

(** Body of the loop of step 1. *)
Definition required_slot (room : Room) (style : option string) (tier : string)
    (tier_config : TierConfig) (allocations : Allocation)
    (s : Slot) (st : MState) : Prog MState :=
  let slot_name := slot s in
  let quantity := slot_quantity s in
  let alloc := required_alloc allocations slot_name in
  let slot_budget := remaining_budget st * snd alloc in
  per_item_budget <- div slot_budget (inject_Z quantity) ;;
  candidates <- query_supabase_for_matching
                  (required_query room style tier_config s per_item_budget) ;;
  match candidates with
  | [] => Ret st
  | _ :: _ =>
      best <- rank_candidates candidates per_item_budget tier ;;
      for_each (seq 0 (Z.to_nat quantity))
               (fun _ => purchase slot_name best room) st
  end.

Definition optional_slot_budget (budget_eur : Q) (allocations : Allocation)
    (s : Slot) (st : MState) : Q :=
  let alloc := Py.dict_get_default allocations (slot s) (0.03, 0.08) in
  Py.min (remaining_budget st * 0.4) (budget_eur * snd alloc).

(** The query of an optional slot. *)
Definition optional_query (room : Room) (style : option string)
    (tier_config : TierConfig) (s : Slot) (slot_budget : Q) : QueryArgs :=
  {| q_categories := Some (categories s);
     q_room := None;
     q_style := style;
     q_min_price := None;
     q_max_price := Some slot_budget;
     q_max_width := Some (get_max_dimension_for_slot (slot s) room);
     q_preferred_sources := Some (preferred_sources tier_config);
     q_require_usable_image := true;
     q_require_proportions := false;
     q_limit := 3 |}.

(** Body of the loop of step 2, after the [break] test. *)
Definition optional_slot (room : Room) (budget_eur : Q) (style : option string)
    (tier : string) (tier_config : TierConfig) (allocations : Allocation)
    (s : Slot) (st : MState) : Prog MState :=
  let slot_name := slot s in
  let slot_budget := optional_slot_budget budget_eur allocations s st in
  if Py.Qltb slot_budget 15 then Ret st
  else
    candidates <- query_supabase_for_matching
                    (optional_query room style tier_config s slot_budget) ;;
    match candidates with
    | [] => Ret st
    | _ :: _ =>
        best <- rank_candidates candidates (slot_budget * 0.7) tier ;;
        purchase slot_name best room st
    end.

(** Step 1: every required slot, in table order. *)
Definition fill_required (room : Room) (style : option string) (tier : string)
    (tier_config : TierConfig) (allocations : Allocation)
    (slots : list Slot) (st : MState) : Prog MState :=
  for_each slots (required_slot room style tier tier_config allocations) st.

(** Step 2: optional slots in table order; the loop is left as soon as the
    remaining budget is not positive. *)
Fixpoint fill_optional (room : Room) (budget_eur : Q) (style : option string)
    (tier : string) (tier_config : TierConfig) (allocations : Allocation)
    (slots : list Slot) (st : MState) : Prog MState :=
  match slots with
  | [] => Ret st
  | s :: slots' =>
      if Qle_bool (remaining_budget st) 0 then Ret st
      else
        st' <- optional_slot room budget_eur style tier tier_config allocations s st ;;
        fill_optional room budget_eur style tier tier_config allocations slots' st'
  end.

Definition render_image (p : Selected) : RenderImage :=
  let c := sel_product p in
  {| ri_slot := sel_slot p;
     ri_r2_key := p_r2_main_image_key c;
     ri_r2_url := get_image_url R2_PUBLIC_URL (p_r2_main_image_key c);
     ri_visual_description := p_visual_description c;
     ri_width_cm := p_width_cm c;
     ri_height_cm := p_height_cm c;
     ri_depth_cm := p_depth_cm c;
     ri_proportion_w_h := p_proportion_w_h c;
     ri_proportion_w_d := p_proportion_w_d c;
     ri_color := p_color c;
     ri_primary_material := p_primary_material c |}.

Definition buy_link (p : Selected) : BuyLink :=
  let c := sel_product p in
  {| bl_name := p_name c;
     bl_price := p_price c;
     bl_currency := p_currency c;
     bl_url := p_product_url c;
     bl_source := p_source_domain c;
     bl_image_url := get_image_url R2_PUBLIC_URL (p_r2_main_image_key c) |}.

(** Step 3: the returned dict. *)
Definition build_result (room : Room) (budget_eur : Q) (tier : string)
    (style : option string) (st : MState) : Prog MatchResult :=
  utilization <- div (total_spent st) budget_eur ;;
  Ret {| mr_room := room;
         mr_tier := tier;
         mr_style := style;
         budget_total := budget_eur;
         budget_spent := Py.round (total_spent st) 2;
         budget_remaining := Py.round (remaining_budget st) 2;
         budget_utilization_pct := Py.round (utilization * 100) 1;
         products := selected_products st;
         product_count := List.length (selected_products st);
         product_images_for_render :=
           map render_image
               (filter (fun p => Py.truthy_str (p_r2_main_image_key (sel_product p)))
                       (selected_products st));
         buy_links := map buy_link (selected_products st) |}.

(** The state the two loops leave behind. *)
Definition match_loops (room : Room) (budget_eur : Q) (tier : string)
    (style : option string) : Prog MState :=
  match Py.dict_get BUDGET_TIERS tier with
  | None => Raise (KeyError tier)
  | Some tier_config =>
      let allocations :=
        Py.dict_get_default ROOM_BUDGET_ALLOCATION (room_type room) [] in
      let requirements :=
        Py.dict_get_default ROOM_FURNITURE_REQUIREMENTS (room_type room)
          (mkRequirements None None) in
      let st0 := mkState [] budget_eur 0 in
      st1 <- fill_required room style tier tier_config allocations
               (match required requirements with Some l => l | None => [] end) st0 ;;
      fill_optional room budget_eur style tier tier_config allocations
        (match optional requirements with Some l => l | None => [] end) st1
  end.

Definition match_furniture_for_room (room : Room) (budget_eur : Q) (tier : string)
    (style : option string) : Prog MatchResult :=
  st <- match_loops room budget_eur tier style ;;
  build_result room budget_eur tier style st.

End Matcher.

(** ** Multi-room budget distribution *)

(** The loop that fills [weights]: a room id seen again overwrites its
    entry. *)
Fixpoint room_weights (rooms : list Room) (weights : list (string * Q))
  : list (string * Q) :=
  match rooms with
  | [] => weights
  | room :: rooms' =>
      let base := Py.dict_get_default ROOM_BUDGET_WEIGHT (room_type room) 0.05 in
      let area := match estimated_area_sqm room with Some a => a | None => 15 end in
      room_weights rooms' (Py.dict_set weights (room_id room) (base * (area / 15)))
  end.

(** The dict comprehension of the return statement. *)
Fixpoint shares (weights : list (string * Q)) (total_weight total_budget : Q)
  : Prog (list (string * Q)) :=
  match weights with
  | [] => Ret []
  | (rid, w) :: weights' =>
      frac <- div w total_weight ;;
      rest <- shares weights' total_weight total_budget ;;
      Ret ((rid, Py.round (frac * total_budget) 2) :: rest)
  end.

Definition distribute_budget_across_rooms (rooms : list Room) (total_budget : Q)
  : Prog (list (string * Q)) :=
  let weights := room_weights rooms [] in
  let total_weight := Py.sum (map snd weights) in
  shares weights total_weight total_budget.

(** * Further code of the plan and of the frontend

    Besides the matcher, the plan publishes the R2 client, the Supabase
    client, the vision enrichment and the API, and the frontend shows the
    result of a design.  The parts of them that compute are embedded here
    with the conventions of the matcher: numbers, also JavaScript's, are
    exact rationals; what the network, the database or a library answers is
    an argument or a section variable of the function that asks. *)

From Stdlib Require Import Sorted Permutation DecimalString.

(** ** The design page of the frontend

    [generate_room_design] hands the budget fields of the matcher's result
    on to the client, which shows them in [BudgetBar]. *)

(** The dict [generate_room_design] returns once an image was generated. *)
Record DesignResult : Type := mkDesignResult {
  design_id : string;
  render_url : string;
  sketch_url : string;
  design_products : list BuyLink;
  design_budget_spent : Q;
  design_budget_remaining : Q
}.

(** The [return] statement at the end of [generate_room_design]. *)
Definition design_result {Placement : Type} (id render sketch : string)
    (matched_products : @MatchResult Placement) : DesignResult :=
  {| design_id := id;
     render_url := render;
     sketch_url := sketch;
     design_products := buy_links matched_products;
     design_budget_spent := budget_spent matched_products;
     design_budget_remaining := budget_remaining matched_products |}.

Module Js.

(** [Math.min(a, b)] on finite numbers. *)
Definition Math_min (a b : Q) : Q := if Qle_bool a b then a else b.

End Js.

(** What [BudgetBar] computes before it renders. *)
Record BudgetBarView : Type := mkBudgetBarView {
  remaining : Q;
  pct : Q;
  clampedPct : Q;
  barColor : string
}.

(** [BudgetBar.tsx] *)
Definition BudgetBar (budgetSpent budgetTotal : Q) : BudgetBarView :=
  let remaining := budgetTotal - budgetSpent in
  let pct :=
    if Py.Qltb 0 budgetTotal then (budgetSpent / budgetTotal) * 100 else 0 in
  let clampedPct := Js.Math_min pct 100 in
  let barColor :=
    if Py.Qltb 100 pct then "bg-red-500"
    else if Qle_bool 80 pct then "bg-yellow-500"
    else "bg-green-500" in
  {| remaining := remaining;
     pct := pct;
     clampedPct := clampedPct;
     barColor := barColor |}.

(** The budget bar of [pages/design/[id].tsx]: the total is computed from
    the two amounts of the design. *)
Definition design_page_budget_bar (designResult : DesignResult) : BudgetBarView :=
  let budgetTotal :=
    design_budget_spent designResult + design_budget_remaining designResult in
  BudgetBar (design_budget_spent designResult) budgetTotal.

(** ** The R2 client: [upload_product_images] *)

(** [f"{i:03d}"] *)
Definition format_03d (i : nat) : string :=
  let digits := NilEmpty.string_of_uint (Nat.to_uint i) in
  match String.length digits with
  | 1%nat => "00" ++ digits
  | 2%nat => "0" ++ digits
  | _ => digits
  end.

(** What [requests.get] answers: the status, the [content-type] header if
    there is one, and the body. *)
Record Response : Type := mkResponse {
  status_code : Z;
  content_type : option string;
  content : string
}.

(** The bucket: key to body and content type. *)
Definition Bucket : Type := list (string * (string * string)).

Section R2Client.

Variable R2_PUBLIC_URL : string.

(** The network.  [requests.get(url, timeout=15)] answers or raises;
    [s3.put_object] under a key goes through or raises. *)
Variable requests_get : string -> option Response.
Variable put_object_succeeds : string -> bool.

(** [upload_image]: the bucket after the upload and the public URL, or
    nothing when [put_object] raised. *)
Definition upload_image (bucket : Bucket) (image_bytes r2_key content_type : string)
  : option (Bucket * string) :=
  if put_object_succeeds r2_key
  then Some (Py.dict_set bucket r2_key (image_bytes, content_type),
             R2_PUBLIC_URL ++ "/" ++ r2_key)
  else None.

(** [f"products/{domain}/{product_id}/{i:03d}.{ext}"] *)
Definition product_image_key (domain product_id : string) (i : nat) (ext : string)
  : string :=
  "products/" ++ domain ++ "/" ++ product_id ++ "/" ++ format_03d i ++ "." ++ ext.

(** The body of the loop of [upload_product_images]; an exception raised
    inside the [try] leaves bucket and keys as they were. *)
Definition upload_product_image (product_id domain : string) (i : nat) (url : string)
    (state : Bucket * list string) : Bucket * list string :=
  let (bucket, r2_keys) := state in
  match requests_get url with
  | None => state
  | Some resp =>
      if (status_code resp =? 200)%Z then
        let ct := match content_type resp with Some c => c | None => "" end in
        let ext := if Py.contains "png" ct then "png"
                   else if Py.contains "webp" ct then "webp"
                   else "jpg" in
        let r2_key := product_image_key domain product_id i ext in
        match upload_image bucket (content resp) r2_key
                (if String.eqb ct "" then "image/jpeg" else ct) with
        | Some (bucket', _) => (bucket', (r2_keys ++ [r2_key])%list)
        | None => state
        end
      else state
  end.

(** [for i, url in enumerate(...)] from index [i] on. *)
Fixpoint upload_loop (product_id domain : string) (i : nat) (urls : list string)
    (state : Bucket * list string) : Bucket * list string :=
  match urls with
  | [] => state
  | url :: urls' =>
      upload_loop product_id domain (S i) urls'
        (upload_product_image product_id domain i url state)
  end.

(** [upload_product_images]: the bucket it leaves and the keys it returns. *)
Definition upload_product_images (product_id domain : string)
    (image_urls : list string) (bucket : Bucket) : Bucket * list string :=
  upload_loop product_id domain 0 (firstn 10 image_urls) (bucket, []).

End R2Client.

(** ** Vision enrichment: the updates [enrich_product] writes

    The part of [enrich_product] after [json.loads]: it reads the answer of
    the vision model and the product row, both JSON values, and builds the
    dict [updates].  Getting the image and calling the model come before it
    and are not part of this embedding. *)

Module Enrichment.

#[local] Unset Elimination Schemes.

(** What [json.loads] returns, and what a row of [products] holds. *)
Inductive Json : Type :=
| JNull
| JBool (b : bool)
| JNum (x : Q)
| JStr (s : string)
| JArr (items : list Json)
| JObj (fields : list (string * Json)).

#[local] Set Elimination Schemes.

Inductive error : Type :=
| KeyError (key : string)
| AttributeError
| TypeError
| ValueError.

Inductive outcome (A : Type) : Type :=
| Returns (a : A)
| Raises (e : error).

Arguments Returns {A} a.
Arguments Raises {A} e.

Definition and_then {A B} (m : outcome A) (f : A -> outcome B) : outcome B :=
  match m with
  | Returns a => f a
  | Raises e => Raises e
  end.

Notation "x <~ m ;; k" := (and_then m (fun x => k))
  (at level 61, m at next level, right associativity).

(** Python truthiness of a JSON value. *)
Definition truthy (v : Json) : bool :=
  match v with
  | JNull => false
  | JBool b => b
  | JNum x => negb (Qeq_bool x 0)
  | JStr s => negb (String.eqb s "")
  | JArr items => match items with [] => false | _ :: _ => true end
  | JObj fields => match fields with [] => false | _ :: _ => true end
  end.

(** [v.get(k, dflt)]: only a dict has [get]. *)
Definition get_default (v : Json) (k : string) (dflt : Json) : outcome Json :=
  match v with
  | JObj fields => Returns (Py.dict_get_default fields k dflt)
  | _ => Raises AttributeError
  end.

(** [v.get(k)] *)
Definition get (v : Json) (k : string) : outcome Json := get_default v k JNull.

(** [v[k]] for a string [k]. *)
Definition item (v : Json) (k : string) : outcome Json :=
  match v with
  | JObj fields =>
      match Py.dict_get fields k with
      | Some x => Returns x
      | None => Raises (KeyError k)
      end
  | _ => Raises TypeError
  end.

(** [product.get(k)] on the row, which is a dict. *)
Definition row_get (product : list (string * Json)) (k : string) : Json :=
  Py.dict_get_default product k JNull.

(** [v > c] for a float [c]: numbers and booleans compare, the rest raises. *)
Definition greater (v : Json) (c : Q) : outcome bool :=
  match v with
  | JNum x => Returns (Py.Qltb c x)
  | JBool b => Returns (Py.Qltb c (if b then 1 else 0))
  | _ => Raises TypeError
  end.

(** [a == b]: numbers and booleans by value, strings, lists and dicts by
    content, [None] only with [None]. *)
Fixpoint py_eq (a b : Json) {struct a} : bool :=
  match a, b with
  | JNull, JNull => true
  | JBool x, JBool y => Bool.eqb x y
  | JBool x, JNum y => Qeq_bool (if x then 1 else 0) y
  | JNum x, JBool y => Qeq_bool x (if y then 1 else 0)
  | JNum x, JNum y => Qeq_bool x y
  | JStr s, JStr t => String.eqb s t
  | JArr l, JArr m =>
      (fix items_eq (l m : list Json) : bool :=
         match l, m with
         | [], [] => true
         | x :: l', y :: m' => py_eq x y && items_eq l' m'
         | _, _ => false
         end) l m
  | JObj f, JObj g =>
      Nat.eqb (List.length f) (List.length g)
      && (fix fields_eq (f : list (string * Json)) : bool :=
            match f with
            | [] => true
            | (k, v) :: f' =>
                match Py.dict_get g k with
                | Some v' => py_eq v v'
                | None => false
                end && fields_eq f'
            end) f
  | _, _ => false
  end.

Section Updates.

(** [json.dumps] *)
Variable json_dumps : Json -> string.

Definition Updates : Type := list (string * Json).

(** Dimensions: use the estimate of the model if the site gave none. *)
Definition dimensions_updates (product : list (string * Json)) (vision_data : Json)
    (updates : Updates) : outcome Updates :=
  section <~ get vision_data "dimensions_verification" ;;
  if truthy section then
    dv <~ item vision_data "dimensions_verification" ;;
    if negb (truthy (row_get product "width_cm")) then
      estimate <~ get dv "estimated_width_cm" ;;
      if truthy estimate then
        width <~ item dv "estimated_width_cm" ;;
        let updates := Py.dict_set updates "width_cm" width in
        height <~ get dv "estimated_height_cm" ;;
        let updates := Py.dict_set updates "height_cm" height in
        depth <~ get dv "estimated_depth_cm" ;;
        let updates := Py.dict_set updates "depth_cm" depth in
        let updates := Py.dict_set updates "dimensions_source" (JStr "ai_estimated") in
        confidence <~ get_default dv "confidence" (JStr "estimated_low") ;;
        Returns (Py.dict_set updates "dimensions_confidence" confidence)
      else Returns updates
    else
      verified <~ get dv "verified" ;;
      let updates :=
        Py.dict_set updates "dimensions_source"
          (JStr (if truthy verified then "website_verified" else "website")) in
      confidence <~ get_default dv "confidence" (JStr "verified") ;;
      Returns (Py.dict_set updates "dimensions_confidence" confidence)
  else Returns updates.

(** Proportion ratios. *)
Definition proportion_updates (vision_data : Json) (updates : Updates)
  : outcome Updates :=
  section <~ get vision_data "proportion_ratios" ;;
  if truthy section then
    pr <~ item vision_data "proportion_ratios" ;;
    w_h <~ get pr "width_to_height_ratio" ;;
    let updates := Py.dict_set updates "proportion_w_h" w_h in
    w_d <~ get pr "width_to_depth_ratio" ;;
    Returns (Py.dict_set updates "proportion_w_d" w_d)
  else Returns updates.

(** Visual description. *)
Definition description_updates (vision_data : Json) (updates : Updates)
  : outcome Updates :=
  section <~ get vision_data "visual_description" ;;
  if truthy section then
    text <~ item vision_data "visual_description" ;;
    Returns (Py.dict_set updates "visual_description" text)
  else Returns updates.

(** Materials. *)
Definition material_updates (product : list (string * Json)) (vision_data : Json)
    (updates : Updates) : outcome Updates :=
  section <~ get vision_data "material_analysis" ;;
  if truthy section then
    ma <~ item vision_data "material_analysis" ;;
    primary <~ get ma "primary_material" ;;
    updates <~ (if truthy primary && negb (truthy (row_get product "primary_material"))
                then v <~ item ma "primary_material" ;;
                     Returns (Py.dict_set updates "primary_material" v)
                else Returns updates) ;;
    fabric <~ get ma "fabric_type" ;;
    updates <~ (if truthy fabric
                then v <~ item ma "fabric_type" ;;
                     Returns (Py.dict_set updates "upholstery" v)
                else Returns updates) ;;
    finish <~ get ma "finish" ;;
    if truthy finish && negb (truthy (row_get product "finish"))
    then v <~ item ma "finish" ;;
         Returns (Py.dict_set updates "finish" v)
    else Returns updates
  else Returns updates.

(** Colour. *)
Definition color_updates (product : list (string * Json)) (vision_data : Json)
    (updates : Updates) : outcome Updates :=
  section <~ get vision_data "color_analysis" ;;
  if truthy section then
    ca <~ item vision_data "color_analysis" ;;
    updates <~ (if negb (truthy (row_get product "color"))
                then v <~ get ca "primary_color" ;;
                     Returns (Py.dict_set updates "color" v)
                else Returns updates) ;;
    hex <~ get ca "color_hex" ;;
    let updates := Py.dict_set updates "color_hex" hex in
    tone <~ get ca "color_tone" ;;
    Returns (Py.dict_set updates "color_tone" tone)
  else Returns updates.

(** Style and luxury score. *)
Definition style_updates (vision_data : Json) (updates : Updates) : outcome Updates :=
  section <~ get vision_data "style_classification" ;;
  if truthy section then
    sc <~ item vision_data "style_classification" ;;
    confidence <~ get_default sc "style_confidence" (JNum 0) ;;
    confident <~ greater confidence 0.6 ;;
    updates <~ (if confident
                then v <~ item sc "style" ;;
                     Returns (Py.dict_set updates "style" v)
                else Returns updates) ;;
    luxury <~ get_default sc "luxury_score" (JNum 0) ;;
    Returns (Py.dict_set updates "luxury_score" luxury)
  else Returns updates.

(** Category verification. *)
Definition category_updates (product : list (string * Json)) (vision_data : Json)
    (updates : Updates) : outcome Updates :=
  section <~ get vision_data "category_verification" ;;
  if truthy section then
    cv <~ item vision_data "category_verification" ;;
    detected <~ get cv "detected_category" ;;
    updates <~ (if negb (py_eq detected (row_get product "category"))
                then v <~ item cv "detected_category" ;;
                     let updates := Py.dict_set updates "ai_category" v in
                     sub <~ get cv "detected_subcategory" ;;
                     Returns (Py.dict_set updates "ai_subcategory" sub)
                else Returns updates) ;;
    rooms <~ get_default cv "suitable_rooms" (JArr []) ;;
    Returns (Py.dict_set updates "suitable_rooms" (JStr (json_dumps rooms)))
  else Returns updates.

(** Image quality. *)
Definition image_quality_updates (vision_data : Json) (updates : Updates)
  : outcome Updates :=
  section <~ get vision_data "image_quality" ;;
  if truthy section then
    iq <~ item vision_data "image_quality" ;;
    image_type <~ get iq "image_type" ;;
    let updates := Py.dict_set updates "image_type" image_type in
    usable <~ get_default iq "usable_for_reference" (JBool false) ;;
    Returns (Py.dict_set updates "image_usable" usable)
  else Returns updates.

(** The dict [updates] as [enrich_product] has built it when it writes to
    Supabase. *)
Definition vision_updates (product : list (string * Json)) (vision_data : Json)
  : outcome Updates :=
  updates <~ dimensions_updates product vision_data [] ;;
  updates <~ proportion_updates vision_data updates ;;
  updates <~ description_updates vision_data updates ;;
  updates <~ material_updates product vision_data updates ;;
  updates <~ color_updates product vision_data updates ;;
  updates <~ style_updates vision_data updates ;;
  updates <~ category_updates product vision_data updates ;;
  updates <~ image_quality_updates vision_data updates ;;
  let updates := Py.dict_set updates "vision_data" (JStr (json_dumps vision_data)) in
  let updates := Py.dict_set updates "vision_enriched" (JBool true) in
  Returns (Py.dict_set updates "vision_enriched_at" (JStr "now()")).

(** The row after [supabase.table("products").update(updates)]. *)
Definition updated_row (product : list (string * Json)) (updates : Updates)
  : list (string * Json) :=
  fold_left (fun row entry => Py.dict_set row (fst entry) (snd entry)) updates product.

(** The end of [enrich_product]: the write under [if updates:], keyed by
    [product["id"]], and the dict it returns; the row is given back as it
    stands afterwards. *)
Definition enrich_product_from_vision (product : list (string * Json))
    (vision_data : Json) : outcome (Json * Updates * list (string * Json)) :=
  updates <~ vision_updates product vision_data ;;
  row <~ (if truthy (JObj updates)
          then id <~ item (JObj product) "id" ;;
               Returns (updated_row product updates)
          else Returns product) ;;
  id <~ item (JObj product) "id" ;;
  Returns (id, updates, row).

End Updates.

End Enrichment.

(** ** The Supabase client: [save_product] *)

Module Supabase.

Import Enrichment.

(** A row of [price_history]. *)
Record PriceChange : Type := mkPriceChange {
  change_product_id : string;
  old_price : Q;
  new_price : Q
}.

Section SaveProduct.

(** [hashlib.sha256(s.encode()).hexdigest()], the text an f-string puts for
    a value, and [float] of a string ([None] where it raises
    [ValueError]). *)
Variable sha256_hexdigest : string -> string.
Variable py_str : Json -> string.
Variable float_of_string : string -> option Q.

(** [float(v)] *)
Definition float (v : Json) : outcome Q :=
  match v with
  | JNum x => Returns x
  | JBool b => Returns (if b then 1 else 0)
  | JStr s => match float_of_string s with
              | Some x => Returns x
              | None => Raises ValueError
              end
  | _ => Raises TypeError
  end.

(** The stable id of a product of [domain]. *)
Definition generated_id (product : list (string * Json)) (domain : string) : string :=
  let id_string :=
    domain ++ ":" ++ py_str (Py.dict_get_default product "sku" (JStr ""))
    ++ ":" ++ py_str (Py.dict_get_default product "name" (JStr "")) in
  substring 0 16 (sha256_hexdigest id_string).

(** The price tracking: [existing] is the answer of the select by id. *)
Definition price_change (existing : list (list (string * Json)))
    (product : list (string * Json)) (product_id : string)
  : outcome (option PriceChange) :=
  match existing with
  | [] => Returns None
  | first :: _ =>
      let old_price := row_get first "price" in
      let new_price := row_get product "price" in
      if truthy old_price && truthy new_price then
        o <~ float old_price ;;
        n <~ float new_price ;;
        if negb (Qeq_bool o n) then
          o' <~ float old_price ;;
          n' <~ float new_price ;;
          Returns (Some (mkPriceChange product_id o' n'))
        else Returns None
      else Returns None
  end.

(** The dict literal that is upserted: three fields, then every field of
    the product that is not [None], a later key replacing an earlier one in
    its place. *)
Definition upsert_row (product : list (string * Json)) (domain product_id : string)
  : list (string * Json) :=
  fold_left (fun row entry => Py.dict_set row (fst entry) (snd entry))
            (filter (fun entry => match snd entry with JNull => false | _ => true end)
                    product)
            [ ("id", JStr product_id); ("source_domain", JStr domain);
              ("updated_at", JStr "now()") ].

(** [save_product]: the id it returns, the row of [price_history] it
    inserts, if any, and the row it upserts. *)
Definition save_product (existing : list (list (string * Json)))
    (product : list (string * Json)) (domain : string)
  : outcome (string * option PriceChange * list (string * Json)) :=
  let product_id := generated_id product domain in
  change <~ price_change existing product product_id ;;
  Returns (product_id, change, upsert_row product domain product_id).

End SaveProduct.

End Supabase.

(** ** The API *)

(** A row of [designs], as far as [/api/swap] reads it. *)
Record DesignRow : Type := mkDesignRow {
  design_row_id : string;
  design_row_budget_remaining : option Q
}.

(** An element of the list of alternatives. *)
Record Alternative : Type := mkAlternative {
  alt_id : string;
  alt_name : string;
  alt_price : option Q;
  alt_image_url : string;
  alt_visual_description : option string
}.

(** The dict [/api/stats] returns. *)
Record Stats : Type := mkStats {
  total_products : Z;
  vision_enriched : Z;
  usable_for_render : Z;
  enrichment_pct : Q
}.

Section Api.

Context {Placement : Type}.
Variable get_placement_for_slot : string -> Room -> Placement.
Variable R2_PUBLIC_URL : string.

(** [get_current_product_price] is called by [swap_product] but defined
    nowhere in the plan. *)
Variable get_current_product_price : DesignRow -> string -> Q.

(** [next((r for r in rooms if r["id"] == room_id), rooms[0])]: the default
    is evaluated before the search. *)
Definition select_room (rooms : list Room) (requested : string) : Prog Room :=
  match rooms with
  | [] => Raise IndexError
  | first :: _ =>
      Ret (match find (fun r => String.eqb (room_id r) requested) rooms with
           | Some r => r
           | None => first
           end)
  end.

(** [furnish_room] from the analysed rooms to the matched products, the
    input of the render. *)
Definition furnish_room_matching (rooms : list Room) (requested : string)
    (budget : Q) (tier style : string) : Prog MatchResult :=
  room <- select_room rooms requested ;;
  match_furniture_for_room get_placement_for_slot R2_PUBLIC_URL room budget tier
    (Some style).

(** The query of [swap_product] when no product is given. *)
Definition swap_query (slot : string) (cap : Q) : QueryArgs :=
  {| q_categories := Some [slot];
     q_room := None;
     q_style := None;
     q_min_price := None;
     q_max_price := Some cap;
     q_max_width := None;
     q_preferred_sources := None;
     q_require_usable_image := true;
     q_require_proportions := false;
     q_limit := 5 |}.

(** [swap_product] without a [product_id]: the alternatives for a slot. *)
Definition swap_product_alternatives (design : DesignRow) (slot : string)
    (max_price : option Q) : Prog (list Alternative) :=
  cap <- (if Py.truthy_num max_price
          then Ret (match max_price with Some x => x | None => 0 end)
          else match design_row_budget_remaining design with
               | Some remaining => Ret (remaining + get_current_product_price design slot)
               | None => Raise TypeError
               end) ;;
  alternatives <- query_supabase_for_matching (swap_query slot cap) ;;
  Ret (map (fun a =>
              {| alt_id := p_id a;
                 alt_name := p_name a;
                 alt_price := p_price a;
                 alt_image_url := get_image_url R2_PUBLIC_URL (p_r2_main_image_key a);
                 alt_visual_description := p_visual_description a |})
           alternatives).

(** [stats] from the three counts it queries. *)
Definition stats (total enriched usable : Z) : Prog Stats :=
  ratio <- div (inject_Z enriched) (inject_Z (Z.max total 1)) ;;
  Ret {| total_products := total;
         vision_enriched := enriched;
         usable_for_render := usable;
         enrichment_pct := Py.round (ratio * 100) 1 |}.

End Api.

(** * Vocabulary of the statements *)

(** ** Outcomes of programs *)

(** [post cat m Q]: whenever [m] returns against [cat], the value satisfies
    [Q]. *)
Definition post {A} (cat : Catalog) (m : Prog A) (Q : A -> Prop) : Prop :=
  forall a, run cat m = Ok a -> Q a.

(** [queries cat m T]: every query [m] issues against [cat] satisfies [T]. *)
Definition queries {A} (cat : Catalog) (m : Prog A) (T : QueryArgs -> Prop) : Prop :=
  Forall (fun ev => T (fst ev)) (trace cat m).

(** [post_if cat E m Q]: whenever [m] returns against [cat] and every query
    it issued, with the rows it was answered, satisfies [E], the value
    satisfies [Q]. *)
Definition post_if {A} (cat : Catalog) (E : QueryArgs -> list Product -> Prop)
    (m : Prog A) (Q : A -> Prop) : Prop :=
  forall a,
    run cat m = Ok a ->
    Forall (fun ev => E (fst ev) (snd ev)) (trace cat m) ->
    Q a.

(** ** The catalog contract *)

(** Rows answered to a query with a [max_price] carry a price, and it is not
    above [max_price]. *)
Definition honours_max_price (cat : Catalog) : Prop :=
  forall q p hi,
    In p (cat q) -> q_max_price q = Some hi ->
    exists x, p_price p = Some x /\ x <= hi.

(** Rows answered to a query with a [min_price] carry a price, and it is not
    below [min_price]. *)
Definition honours_min_price (cat : Catalog) : Prop :=
  forall q p lo,
    In p (cat q) -> q_min_price q = Some lo ->
    exists x, p_price p = Some x /\ lo <= x.

(** Prices are positive. *)
Definition positive_prices (cat : Catalog) : Prop :=
  forall q p x, In p (cat q) -> p_price p = Some x -> 0 < x.

(** Every row with a price has a positive one. *)
Definition positive_price (p : Product) : bool :=
  match p_price p with
  | Some x => Py.Qltb 0 x
  | None => true
  end.

(** ** Purchases *)

Definition price_of (c : Product) : Q :=
  match p_price c with
  | Some x => x
  | None => 0
  end.

Section Purchases.

Context {Placement : Type}.
Variable place : string -> Room -> Placement.

(** The state one purchase of [best] leaves. *)
Definition bought (slot_name : string) (best : Product) (room : Room)
    (st : MState) : MState :=
  mkState (selected_products st
           ++ [mkSelected slot_name best 1 (place slot_name room)])%list
          (remaining_budget st - price_of best)
          (total_spent st + price_of best).

Fixpoint bought_n (n : nat) (slot_name : string) (best : Product) (room : Room)
    (st : MState) : MState :=
  match n with
  | O => st
  | S n' => bought_n n' slot_name best room (bought slot_name best room st)
  end.

(** The money the entries of a product list stand for. *)
Definition prices_sum (l : list (@Selected Placement)) : Q :=
  fold_right (fun e acc => price_of (sel_product e) + acc) 0 l.

End Purchases.

(** ** The slot plan of a room *)

(** The three lookups at the head of [match_furniture_for_room]. *)
Definition room_allocations (room : Room) : Allocation :=
  Py.dict_get_default ROOM_BUDGET_ALLOCATION (room_type room) [].

Definition room_requirements (room : Room) : Requirements :=
  Py.dict_get_default ROOM_FURNITURE_REQUIREMENTS (room_type room)
    (mkRequirements None None).

Definition room_required (room : Room) : list Slot :=
  match required (room_requirements room) with Some l => l | None => [] end.

Definition room_optional (room : Room) : list Slot :=
  match optional (room_requirements room) with Some l => l | None => [] end.

(** ** Checks on the static tables *)

(** A required slot is provisioned sanely: at least one unit, and a share of
    the remaining budget strictly between 0 and 1. *)
Definition required_slot_ok (allocations : Allocation) (s : Slot) : bool :=
  (1 <=? slot_quantity s)%Z
  && Py.Qltb 0 (snd (required_alloc allocations (slot s)))
  && Py.Qltb (snd (required_alloc allocations (slot s))) 1.

Definition required_slots_ok : bool :=
  forallb
    (fun entry =>
       forallb
         (required_slot_ok
            (Py.dict_get_default ROOM_BUDGET_ALLOCATION (fst entry) []))
         (match required (snd entry) with Some l => l | None => [] end))
    ROOM_FURNITURE_REQUIREMENTS.

(** Within a room type, two required slots of one name have the same
    categories, and no optional slot has the name of a required one. *)
Definition slot_names_ok : bool :=
  forallb
    (fun entry =>
       let req := match required (snd entry) with Some l => l | None => [] end in
       let opt := match optional (snd entry) with Some l => l | None => [] end in
       forallb
         (fun s =>
            forallb (fun s' => negb (String.eqb (slot s) (slot s'))
                               || (if list_eq_dec string_dec (categories s) (categories s')
                                   then true else false))
                    req
            && negb (Py.str_in (slot s) (map slot opt)))
         req)
    ROOM_FURNITURE_REQUIREMENTS.

(** ** Budget discipline *)

(** Every entry of [l] was appended while the remaining budget was positive:
    when an entry is bought the entries before it are exactly the purchases
    made so far, and the remaining budget is the budget less their prices. *)
Definition purchased_on_positive_budget {Placement : Type} (budget_eur : Q)
    (l : list (@Selected Placement)) : Prop :=
  forall pre e post,
    l = (pre ++ e :: post)%list -> 0 < budget_eur - prices_sum pre.

(** The invariant of the two loops. *)
Definition budget_invariant {Placement : Type} (budget_eur : Q)
    (st : @MState Placement) : Prop :=
  remaining_budget st == budget_eur - prices_sum (selected_products st)
  /\ total_spent st == prices_sum (selected_products st)
  /\ purchased_on_positive_budget budget_eur (selected_products st)
  /\ (selected_products st <> [] -> 0 < remaining_budget st).

(** ** The price window of the specification *)

(** The one window the specification gives every query: the per-item budget
    as [max_price], three tenths of it as [min_price]. *)
Definition per_item_price_window (q : QueryArgs) : Prop :=
  exists per_item_budget lo,
    q_max_price q = Some per_item_budget
    /\ q_min_price q = Some lo
    /\ lo == 0.3 * per_item_budget.

(** ** Unmet slots and the floor of optional slots *)

(** No entry of the list stands for the slot called [name]. *)
Definition slot_absent {Placement : Type} (name : string)
    (l : list (@Selected Placement)) : Prop :=
  forall e, In e l -> sel_slot e <> name.

(** The budget of the optional slot called [name] when [r] remains. *)
Definition optional_budget_when (room : Room) (budget_eur : Q) (name : string)
    (r : Q) : Q :=
  Py.min (r * 0.4)
         (budget_eur
          * snd (Py.dict_get_default (room_allocations room) name (0.03, 0.08))).

(** Every entry for an optional slot was bought on a slot budget of at least
    15, computed from what remained when it was bought. *)
Definition optional_entries_above_floor {Placement : Type} (room : Room)
    (budget_eur : Q) (l : list (@Selected Placement)) : Prop :=
  forall pre e post,
    l = (pre ++ e :: post)%list ->
    In (sel_slot e) (map slot (room_optional room)) ->
    15 <= optional_budget_when room budget_eur (sel_slot e)
            (budget_eur - prices_sum pre).

(** The invariant of the loops behind the floor: the remaining budget is the
    budget less the prices of the entries, and the optional entries were
    bought above the floor. *)
Definition floor_invariant {Placement : Type} (room : Room) (budget_eur : Q)
    (st : @MState Placement) : Prop :=
  remaining_budget st == budget_eur - prices_sum (selected_products st)
  /\ optional_entries_above_floor room budget_eur (selected_products st).

(** A query on the categories of [s] was answered with no rows. *)
Definition no_candidates_for (s : Slot) (q : QueryArgs) (rows : list Product) : Prop :=
  q_categories q = Some (categories s) -> rows = [].

(** ** Room weights *)

(** The weight [distribute_budget_across_rooms] gives a room. *)
Definition room_weight (room : Room) : Q :=
  Py.dict_get_default ROOM_BUDGET_WEIGHT (room_type room) 0.05
  * (match estimated_area_sqm room with Some a => a | None => 15 end / 15).


(** ** Sample inputs *)

Module Sample.

(** A fully enriched, in-stock row. *)
Definition item (id category : string) (price : Q) (source : string)
    (rating : option Q) : Product :=
  {| p_id := id;
     p_name := id;
     p_price := Some price;
     p_currency := Some "EUR";
     p_category := Some category;
     p_subcategory := None;
     p_room_type := Some "living room, bedroom, kitchen, office";
     p_style := Some "modern";
     p_width_cm := Some 100;
     p_height_cm := Some 80;
     p_depth_cm := Some 60;
     p_dimensions_source := Some "ai_estimated";
     p_proportion_w_h := Some 1.25;
     p_proportion_w_d := Some 1.6;
     p_visual_description := Some "oak, rounded corners";
     p_luxury_score := Some 0.5;
     p_image_usable := Some true;
     p_primary_material := Some "oak";
     p_color := Some "natural";
     p_r2_main_image_key := Some ("products/" ++ id ++ ".jpg");
     p_in_stock := Some true;
     p_rating := rating;
     p_product_url := Some ("https://shop.example/" ++ id);
     p_source_domain := Some source |}.

(** A snapshot of the [products] table. *)
Definition table : list Product :=
  [ item "sofa-1" "sofa" 450 "ikea.bg" (Some 4.5);
    item "sofa-2" "sofa" 480 "videnov.bg" (Some 4.1);
    item "table-1" "coffee table" 150 "ikea.bg" (Some 4.2);
    item "tv-1" "TV stand" 120 "videnov.bg" None;
    item "rug-1" "rug" 40 "ikea.bg" (Some 3);
    item "chair-1" "dining chair" 45 "ikea.bg" (Some 4.0);
    item "dining-1" "dining table" 500 "ikea.bg" (Some 4.4) ].

Definition catalog : Catalog := query_supabase_for_matching_on table.

(** A catalog with no rows. *)
Definition empty_catalog : Catalog := query_supabase_for_matching_on [].

Definition living_room : Room :=
  mkRoom "room_1" "living room" 450 380 (Some 17.1)
    (Some [ mkWall "south" (Some 350) (Some ["sofa"; "shelving"; "TV unit"]);
            mkWall "west" (Some 280) (Some ["bookcase"; "desk"]) ]).

Definition kitchen : Room :=
  mkRoom "room_2" "kitchen" 300 280 (Some 8.4) None.

Definition garage : Room :=
  mkRoom "room_3" "garage" 600 300 (Some 18) None.

(** A placement hint: the name of the first wall fit for the slot. *)
Definition place (slot_name : string) (room : Room) : option string :=
  option_map wall_name
    (first_suitable_wall slot_name
       (match usable_walls room with Some l => l | None => [] end)).

Definition url : string := "https://r2.example".

Definition tv_unit : Slot :=
  mkSlot "tv_unit" ["TV stand"; "wall unit"; "shelving"] (Fixed 1).

Definition standard : TierConfig :=
  mkTier "Стандартен / Standard"
         "Good quality mid-range from Videnov, IKEA, AIKO"
         (60, 150) ["videnov.bg"; "ikea.bg"; "aiko-bg.com"] 0.30
         ["modern"; "scandinavian"; "contemporary"].

Definition match_room (cat : Catalog) (room : Room) (budget_eur : Q)
    (tier : string) (style : option string) : result MatchResult :=
  run cat (match_furniture_for_room place url room budget_eur tier style).

End Sample.

(** ** Sample rooms of one sketch *)

Module SampleRooms.

Definition bedroom (id : string) (area : Q) : Room :=
  mkRoom id "bedroom" 400 375 (Some area) None.

(** The example of the specification: a 12 m2 bedroom and a 20 m2 living
    room. *)
Definition flat : list Room :=
  [ bedroom "r1" 12; mkRoom "r2" "living room" 500 400 (Some 20) None ].

(** Three equal bedrooms. *)
Definition dormitory : list Room :=
  [ bedroom "r1" 15; bedroom "r2" 15; bedroom "r3" 15 ].

End SampleRooms.

(** * Vocabulary of the further properties *)

(** ** What the filters of the catalog query say about a row *)

(** In stock, with an image judged usable and stored under an R2 key. *)
Definition in_stock_with_image (p : Product) : Prop :=
  p_in_stock p = Some true
  /\ p_image_usable p = Some true
  /\ exists key, p_r2_main_image_key p = Some key.

(** The category or the subcategory of the row is one of [cats]. *)
Definition category_among (cats : list string) (p : Product) : Prop :=
  exists c, (p_category p = Some c \/ p_subcategory p = Some c) /\ In c cats.

(** The row was scraped from one of [sources]. *)
Definition source_among (sources : list string) (p : Product) : Prop :=
  exists d, p_source_domain p = Some d /\ In d sources.

(** No wider than [limit] centimetres, as far as the width is known. *)
Definition fits_width (limit : Z) (p : Product) : Prop :=
  forall w, p_width_cm p = Some w -> w <= inject_Z limit.

(** The row is tagged for rooms of type [room]: its [room_type] matches the
    pattern [%room%], case ignored. *)
Definition tagged_for_room (room : string) (p : Product) : Prop :=
  exists v, p_room_type p = Some v /\ Sql.ilike ("%" ++ room ++ "%") v = true.

(** The slots of a room's plan, required ones first. *)
Definition room_plan (room : Room) : list Slot :=
  (room_required room ++ room_optional room)%list.

(** ** Further checks on the static tables *)

(** Every slot names at least one category and every tier at least one
    preferred source, so the matcher's queries always carry both filters. *)
Definition plan_categories_ok : bool :=
  forallb
    (fun entry =>
       forallb (fun s => match categories s with [] => false | _ :: _ => true end)
               ((match required (snd entry) with Some l => l | None => [] end)
                ++ (match optional (snd entry) with Some l => l | None => [] end))%list)
    ROOM_FURNITURE_REQUIREMENTS.

Definition tier_sources_ok : bool :=
  forallb
    (fun entry => match preferred_sources (snd entry) with
                  | [] => false
                  | _ :: _ => true
                  end)
    BUDGET_TIERS.

(** Every room type of the requirements table has a non-empty name. *)
Definition room_names_ok : bool :=
  forallb (fun entry => negb (String.eqb (fst entry) ""))
          ROOM_FURNITURE_REQUIREMENTS.

(** ** The shape of the product list *)

Section Blocks.

Context {Placement : Type}.
Variable place : string -> Room -> Placement.

(** The entries one slot contributes: none, or [n] entries of quantity 1
    for one and the same row. *)
Definition slot_block (room : Room) (n : nat) (s : Slot)
    (block : list (@Selected Placement)) : Prop :=
  block = []
  \/ exists best,
       block = repeat (mkSelected (slot s) best 1 (place (slot s) room)) n.

End Blocks.

(** ** Price caps *)

(** The most one unit of the required slot [s] may cost: the upper share of
    the slot in the whole budget, divided by the number of units. *)
Definition required_unit_cap (room : Room) (budget_eur : Q) (s : Slot) : Q :=
  budget_eur * snd (required_alloc (room_allocations room) (slot s))
  / inject_Z (slot_quantity s).

(** The most the item of the optional slot [s] may cost. *)
Definition optional_item_cap (room : Room) (budget_eur : Q) (s : Slot) : Q :=
  budget_eur
  * snd (Py.dict_get_default (room_allocations room) (slot s) (0.03, 0.08)).

(** ** Order of the rows a query answers *)

(** [rating_before] holds between every row and every later row. *)
Definition rating_sorted (rows : list Product) : Prop :=
  StronglySorted (fun a b => rating_before a b = true) rows.

(** ** What every entry of the product list went through *)

(** The filters the matcher puts on each of its queries, read as facts about
    an entry: the row and its slot. *)
Definition passed_filters {Placement : Type} (table : list Product) (room : Room)
    (tier : string) (e : @Selected Placement) : Prop :=
  let p := sel_product e in
  In p table
  /\ sel_quantity e = 1%Z
  /\ in_stock_with_image p
  /\ (exists cfg, Py.dict_get BUDGET_TIERS tier = Some cfg
                  /\ source_among (preferred_sources cfg) p)
  /\ (exists s, In s (room_plan room)
                /\ slot s = sel_slot e
                /\ category_among (categories s) p
                /\ (get_max_dimension_for_slot (slot s) room <> 0%Z ->
                    fits_width (get_max_dimension_for_slot (slot s) room) p))
  /\ (In (sel_slot e) (map slot (room_required room)) ->
      tagged_for_room (room_type room) p
      /\ exists x, p_proportion_w_h p = Some x).

(** The price of the entry is within the cap of its slot. *)
Definition within_cap {Placement : Type} (room : Room) (budget_eur : Q)
    (e : @Selected Placement) : Prop :=
  exists x s,
    p_price (sel_product e) = Some x
    /\ slot s = sel_slot e
    /\ ((In s (room_required room) /\ x <= required_unit_cap room budget_eur s)
        \/ (In s (room_optional room) /\ x <= optional_item_cap room budget_eur s)).

(** ** Sample queries *)

Module SampleQueries.

(** Up to five sofas for a living room, at most 500 EUR each. *)
Definition sofas : QueryArgs :=
  required_query Sample.living_room (Some "modern") Sample.standard
    (mkSlot "sofa" ["sofa"; "corner sofa"; "sofa bed"] (Fixed 1)) 500.

End SampleQueries.

(** ** Rows that differ in their width only *)

Definition with_width (p : Product) (w : option Q) : Product :=
  {| p_id := p_id p;
     p_name := p_name p;
     p_price := p_price p;
     p_currency := p_currency p;
     p_category := p_category p;
     p_subcategory := p_subcategory p;
     p_room_type := p_room_type p;
     p_style := p_style p;
     p_width_cm := w;
     p_height_cm := p_height_cm p;
     p_depth_cm := p_depth_cm p;
     p_dimensions_source := p_dimensions_source p;
     p_proportion_w_h := p_proportion_w_h p;
     p_proportion_w_d := p_proportion_w_d p;
     p_visual_description := p_visual_description p;
     p_luxury_score := p_luxury_score p;
     p_image_usable := p_image_usable p;
     p_primary_material := p_primary_material p;
     p_color := p_color p;
     p_r2_main_image_key := p_r2_main_image_key p;
     p_in_stock := p_in_stock p;
     p_rating := p_rating p;
     p_product_url := p_product_url p;
     p_source_domain := p_source_domain p |}.

(** The walls of a room, none when the analysis gave none. *)
Definition room_walls (room : Room) : list Wall :=
  match usable_walls room with Some l => l | None => [] end.

(** ** A sample room with a blocked wall *)

Module SampleWalls.

(** A living room whose only wall fit for a sofa has no free length. *)
Definition blocked : Room :=
  mkRoom "room_4" "living room" 450 380 (Some 17.1)
    (Some [ mkWall "north" (Some 0) (Some ["sofa"]) ]).

Definition sofa : Slot := mkSlot "sofa" ["sofa"; "corner sofa"; "sofa bed"] (Fixed 1).

(** A sofa wider than the room. *)
Definition wide_sofa : Product :=
  with_width (Sample.item "sofa-9" "sofa" 450 "ikea.bg" (Some 4.5)) (Some 900).

End SampleWalls.

(** ** Rooms that share an id *)

(** The sum of the weights [distribute_budget_across_rooms] divides by. *)
Definition total_weight (rooms : list Room) : Q :=
  Py.sum (map snd (room_weights rooms [])).


(** Every base weight of the table is positive. *)
Definition base_weights_ok : bool :=
  forallb (fun entry => Py.Qltb 0 (snd entry)) ROOM_BUDGET_WEIGHT.

(** The area the weight of a room is computed from is positive. *)
Definition positive_area (room : Room) : Prop :=
  forall a, estimated_area_sqm room = Some a -> 0 < a.

(** Rooms of one sketch, two of which were given the same id. *)
Module SampleSketch.

Definition rooms : list Room :=
  [ SampleRooms.bedroom "r1" 30; SampleRooms.bedroom "r1" 15;
    SampleRooms.bedroom "r2" 15 ].

(** Rooms the analysis measured no area for. *)
Definition flat_rooms : list Room :=
  [ SampleRooms.bedroom "r1" 0; SampleRooms.bedroom "r2" 0 ].

End SampleSketch.

(** ** Uploads of product images *)

(** The keys returned so far: distinct, numbered below [i], and stored in
    the bucket. *)
Definition uploaded_below (product_id domain : string) (i : nat)
    (state : Bucket * list string) : Prop :=
  NoDup (snd state)
  /\ forall key, In key (snd state) ->
       (exists j ext, (j < i)%nat /\ key = product_image_key domain product_id j ext)
       /\ exists body ct, Py.dict_get (fst state) key = Some (body, ct).

(** The extension [upload_product_images] reads off the content type of a
    response. *)
Definition response_ext (resp : Response) : string :=
  let ct := match content_type resp with Some c => c | None => "" end in
  if Py.contains "png" ct then "png"
  else if Py.contains "webp" ct then "webp"
  else "jpg".

(** A product with three image links, the second of which is dead. *)
Module SampleUpload.

Definition requests_get (url : string) : option Response :=
  if String.eqb url "https://shop.example/dead.jpg" then None
  else if String.eqb url "https://shop.example/missing.jpg"
       then Some (mkResponse 404 (Some "text/html") "not found")
  else Some (mkResponse 200 (Some "image/png") "bytes").

Definition put_object_succeeds (key : string) : bool := true.

Definition image_urls : list string :=
  [ "https://shop.example/a.png"; "https://shop.example/dead.jpg";
    "https://shop.example/missing.jpg"; "https://shop.example/b.png" ].

Definition upload : Bucket * list string :=
  upload_product_images "https://r2.example" requests_get put_object_succeeds
    "abc123" "shop.example" image_urls [].

End SampleUpload.

(** ** What a step of the enrichment may write *)

(** Outside [keys] the dict is as before. *)
Definition writes_only (keys : list string) (before after : Enrichment.Updates) : Prop :=
  forall k, ~ In k keys -> Py.dict_get after k = Py.dict_get before k.

Definition dimension_keys : list string :=
  ["width_cm"; "height_cm"; "depth_cm"; "dimensions_source"; "dimensions_confidence"].

Definition other_keys : list string :=
  ["proportion_w_h"; "proportion_w_d"; "visual_description"; "primary_material";
   "upholstery"; "finish"; "color"; "color_hex"; "color_tone"; "style";
   "luxury_score"; "ai_category"; "ai_subcategory"; "suitable_rooms"; "image_type";
   "image_usable"; "vision_data"; "vision_enriched"; "vision_enriched_at"].

(** ** Sample rows and answers of the vision model *)

Module SampleVision.

Import Enrichment.

Definition json_dumps (v : Json) : string := "<json>".


(** A row without dimensions. *)
Definition unlisted : list (string * Json) :=
  [ ("id", JStr "def456"); ("name", JStr "Sofa"); ("category", JStr "sofa") ].

Definition answer : Json :=
  JObj
    [ ("dimensions_verification",
       JObj [ ("verified", JBool true); ("estimated_width_cm", JNum 230);
              ("estimated_height_cm", JNum 85); ("estimated_depth_cm", JNum 95);
              ("confidence", JStr "estimated_high") ]);
      ("proportion_ratios",
       JObj [ ("width_to_height_ratio", JNum 2.7); ("width_to_depth_ratio", JNum 2.4) ]);
      ("visual_description", JStr "Low three-seat sofa in grey fabric.");
      ("style_classification",
       JObj [ ("style", JStr "scandinavian"); ("style_confidence", JNum 0.8);
              ("luxury_score", JNum 0.4) ]);
      ("category_verification",
       JObj [ ("detected_category", JStr "sofa");
              ("suitable_rooms", JArr [JStr "living room"]) ]);
      ("image_quality",
       JObj [ ("image_type", JStr "product_photo");
              ("usable_for_reference", JBool true) ]) ].

(** An answer whose category section does not name a category. *)
Definition answer_without_category : Json :=
  JObj
    [ ("visual_description", JStr "Low three-seat sofa in grey fabric.");
      ("category_verification",
       JObj [ ("suitable_rooms", JArr [JStr "living room"]) ]) ].

End SampleVision.

(** ** Buy links *)

(** The price a buy link shows. *)
Definition link_price (link : BuyLink) : Q :=
  match bl_price link with
  | Some x => x
  | None => 0
  end.

(** ** Sample requests to the API *)

Module SampleApi.

(** The price of the product now in the slot, as far as the sample design
    goes. *)
Definition current_price (design : DesignRow) (slot : string) : Q := 450.

Definition design : DesignRow := mkDesignRow "d1" (Some 60).

(** The rooms of an analysed sketch. *)
Definition rooms : list Room := [ Sample.living_room; Sample.kitchen ].

End SampleApi.

(** ** Fields of a scraped product *)

(** The field holds a value, not [None]. *)
Definition not_null (entry : string * Enrichment.Json) : bool :=
  match snd entry with
  | Enrichment.JNull => false
  | _ => true
  end.

(** ** Sample products of a scraper *)

Module SampleScrape.

Import Enrichment.

Definition sha256_hexdigest (s : string) : string :=
  "9f86d081884c7d659a2feaa0c55ad015a3bf4f1b2b0b822cd15d6c15b0f00a08".

Definition py_str (v : Json) : string :=
  match v with
  | JStr s => s
  | JNull => "None"
  | _ => "?"
  end.

Definition float_of_string (s : string) : option Q :=
  if String.eqb s "449.00" then Some 449 else None.

(** What the scraper extracted: no colour, and an id of the shop's own. *)
Definition product : list (string * Json) :=
  [ ("sku", JStr "KIVIK-3"); ("name", JStr "Sofa KIVIK"); ("price", JNum 449);
    ("color", JNull); ("id", JStr "shop-4711") ].

(** The row found under the generated id: the price was 499. *)
Definition existing : list (list (string * Json)) :=
  [ [ ("id", JStr "9f86d081884c7d65"); ("price", JNum 499) ] ].

(** The same product after its price was taken off the page. *)
Definition unpriced : list (string * Json) :=
  [ ("sku", JStr "KIVIK-3"); ("name", JStr "Sofa KIVIK"); ("price", JNum 0) ].

End SampleScrape.

(** * Vocabulary: the ranker's table, reached states, answers of the database *)

(** ** The signal table of the ranker *)

(** Modelled from the spec: the additive score of the signal table of 4.4,
    read by its words.  The price signals speak of the ratio of price to
    target, which exists when the row has a price and the target is not 0; a
    field is present when it is not null, whatever its value; the
    description counts when it is not empty; of the luxury alignment the
    luxury tier earns 15 and the other tiers 10, the mid tiers being
    standard and premium. *)
Definition table_score (c : Product) (target_price : Q) (tier : string) : Z :=
  let ratio :=
    match p_price c with
    | Some x => if Qeq_bool target_price 0 then None else Some (x / target_price)
    | None => None
    end in
  let price_proximity :=
    match ratio with
    | Some r => if Qle_bool 0.6 r && Qle_bool r 1.1 then 30%Z
                else if Qle_bool 0.4 r && Qle_bool r 1.3 then 15%Z
                else 0%Z
    | None => 0%Z
    end in
  let luxury_price_bonus :=
    match ratio with
    | Some r => if String.eqb tier "luxury" && Py.Qltb 0.8 r then 10%Z else 0%Z
    | None => 0%Z
    end in
  let reference_image :=
    match p_r2_main_image_key c with Some _ => 25%Z | None => 0%Z end in
  let dimensions :=
    if opt_str_in (p_dimensions_source c) ["website_verified"; "ai_estimated"] then 20%Z
    else match p_width_cm c with Some _ => 10%Z | None => 0%Z end in
  let visual_description :=
    match p_visual_description c with
    | Some d => if String.eqb d "" then 0%Z else 15%Z
    | None => 0%Z
    end in
  let proportion_ratio :=
    match p_proportion_w_h c with Some _ => 15%Z | None => 0%Z end in
  let luxury_alignment :=
    match p_luxury_score c with
    | Some l =>
        if String.eqb tier "luxury" && Py.Qltb 0.7 l then 15%Z
        else if (String.eqb tier "budget" && Py.Qltb l 0.3)
                || (Py.str_in tier ["standard"; "premium"]
                    && Qle_bool 0.3 l && Qle_bool l 0.7)
             then 10%Z
        else 0%Z
    | None => 0%Z
    end in
  let rating :=
    match p_rating c with
    | Some x => if Qle_bool 4.0 x then 10%Z else 0%Z
    | None => 0%Z
    end in
  (price_proximity + luxury_price_bonus + reference_image + dimensions
   + visual_description + proportion_ratio + luxury_alignment + rating)%Z.

(** The fields [rank_candidates] tests by truthiness and the table by
    presence are null or truthy: no empty image key, no width, proportion or
    luxury score of 0. *)
Definition signals_truthy (c : Product) : bool :=
  let null_or_truthy (o : option Q) :=
    match o with Some _ => Py.truthy_num o | None => true end in
  match p_r2_main_image_key c with
  | Some key => negb (String.eqb key "")
  | None => true
  end
  && null_or_truthy (p_width_cm c)
  && null_or_truthy (p_proportion_w_h c)
  && null_or_truthy (p_luxury_score c).

(** Candidates for the ranker. *)
Module SampleRank.

Definition rug : Product := Sample.item "rug-1" "rug" 40 "ikea.bg" (Some 3).
Definition sofa_1 : Product := Sample.item "sofa-1" "sofa" 450 "ikea.bg" (Some 4.5).
Definition sofa_2 : Product := Sample.item "sofa-2" "sofa" 480 "videnov.bg" (Some 4.1).

Definition candidates : list Product := [rug; sofa_1; sofa_2].

(** A row with a price and a category only, and the luxury score given. *)
Definition bare (id : string) (luxury_score : option Q) : Product :=
  {| p_id := id;
     p_name := id;
     p_price := Some 20;
     p_currency := Some "EUR";
     p_category := Some "rug";
     p_subcategory := None;
     p_room_type := None;
     p_style := None;
     p_width_cm := None;
     p_height_cm := None;
     p_depth_cm := None;
     p_dimensions_source := None;
     p_proportion_w_h := None;
     p_proportion_w_d := None;
     p_visual_description := None;
     p_luxury_score := luxury_score;
     p_image_usable := None;
     p_primary_material := None;
     p_color := None;
     p_r2_main_image_key := None;
     p_in_stock := Some true;
     p_rating := None;
     p_product_url := None;
     p_source_domain := None |}.

(** The enrichment has not scored this row. *)
Definition unscored : Product := bare "rug-2" None.

(** The enrichment gave this row the lowest luxury score. *)
Definition plainest : Product := bare "rug-3" (Some 0).

End SampleRank.

(** ** The state in which a slot is reached *)

Section Reached.

Context {Placement : Type}.
Variable place : string -> Room -> Placement.
Variable cat : Catalog.

(** The required loop of a match reaches slot [s] in state [st]: the
    iterations for the slots before [s] have returned [st]. *)
Definition required_slot_reached (room : Room) (budget_eur : Q) (tier : string)
    (style : option string) (tier_config : TierConfig) (s : Slot)
    (st : @MState Placement) : Prop :=
  exists before after,
    room_required room = (before ++ s :: after)%list
    /\ run cat (fill_required place room style tier tier_config
                  (room_allocations room) before (mkState [] budget_eur 0))
       = Ok st.

(** The optional loop reaches slot [s] in state [st]: the required loop has
    returned, the iterations for the optional slots before [s] have returned
    [st], and the loop is not left there, as budget remains. *)
Definition optional_slot_reached (room : Room) (budget_eur : Q) (tier : string)
    (style : option string) (tier_config : TierConfig) (s : Slot)
    (st : @MState Placement) : Prop :=
  exists st1 before after,
    room_optional room = (before ++ s :: after)%list
    /\ run cat (fill_required place room style tier tier_config
                  (room_allocations room) (room_required room)
                  (mkState [] budget_eur 0))
       = Ok st1
    /\ run cat (fill_optional place room budget_eur style tier tier_config
                  (room_allocations room) before st1)
       = Ok st
    /\ 0 < remaining_budget st.

End Reached.

(** ** A table with a free row *)

Module SampleFree.

Definition sofa : Product := Sample.item "sofa-0" "sofa" 0 "ikea.bg" (Some 4.5).

Definition table : list Product := [sofa].

End SampleFree.

(** ** Answers the database may give *)







(** The row without its visual description. *)
Definition undescribed (p : Product) : Product :=
  {| p_id := p_id p;
     p_name := p_name p;
     p_price := p_price p;
     p_currency := p_currency p;
     p_category := p_category p;
     p_subcategory := p_subcategory p;
     p_room_type := p_room_type p;
     p_style := p_style p;
     p_width_cm := p_width_cm p;
     p_height_cm := p_height_cm p;
     p_depth_cm := p_depth_cm p;
     p_dimensions_source := p_dimensions_source p;
     p_proportion_w_h := p_proportion_w_h p;
     p_proportion_w_d := p_proportion_w_d p;
     p_visual_description := None;
     p_luxury_score := p_luxury_score p;
     p_image_usable := p_image_usable p;
     p_primary_material := p_primary_material p;
     p_color := p_color p;
     p_r2_main_image_key := p_r2_main_image_key p;
     p_in_stock := p_in_stock p;
     p_rating := p_rating p;
     p_product_url := p_product_url p;
     p_source_domain := p_source_domain p |}.

(** Tables with equally rated sofas. *)
Module SampleTies.

Definition sofa_a : Product := Sample.item "sofa-a" "sofa" 450 "ikea.bg" (Some 4.5).
Definition sofa_b : Product := Sample.item "sofa-b" "sofa" 450 "ikea.bg" (Some 4.5).

(** Rated like [sofa_a], but not described. *)
Definition sofa_c : Product :=
  undescribed (Sample.item "sofa-c" "sofa" 450 "ikea.bg" (Some 4.5)).

(** Two sofas of one rating and one score. *)
Definition table : list Product := [sofa_a; sofa_b].

(** Two sofas of one rating and different scores. *)
Definition scored_apart : list Product := [sofa_c; sofa_a].

End SampleTies.

(** ** Texts of the plan pasted into filters *)

(** Every category of the requirements table is read by PostgREST as one
    value, and every room type is free of wildcards. *)
Definition plan_categories_literal_ok : bool :=
  forallb
    (fun entry =>
       forallb (fun s => forallb Postgrest.literal (categories s))
               ((match required (snd entry) with Some l => l | None => [] end)
                ++ (match optional (snd entry) with Some l => l | None => [] end))%list)
    ROOM_FURNITURE_REQUIREMENTS.

Definition room_names_plain_ok : bool :=
  forallb (fun entry => Sql.plain (fst entry)) ROOM_FURNITURE_REQUIREMENTS.

(** The query of the slot [s] of the plan, required or optional. *)
Definition query_of_required_slot (room : Room)
    (q : QueryArgs) : Prop :=
  exists s,
    In s (room_required room)
    /\ q_categories q = Some (categories s)
    /\ q_room q = Some (room_type room)
    /\ q_require_proportions q = true.

Definition query_of_optional_slot (room : Room)
    (q : QueryArgs) : Prop :=
  exists s,
    In s (room_optional room)
    /\ q_categories q = Some (categories s)
    /\ q_room q = None
    /\ q_require_proportions q = false.
(** * Reasoning about programs *)

Section ProgFacts.

Variable cat : Catalog.

Lemma run_bind {A B} (m : Prog A) (f : A -> Prog B) :
  run cat (bind m f) =
  match run cat m with
  | Ok a => run cat (f a)
  | Err e => Err e
  end.
Proof.
  induction m as [a | e | q k IH]; simpl; auto.
Qed.

Lemma trace_bind {A B} (m : Prog A) (f : A -> Prog B) :
  trace cat (bind m f) =
  (trace cat m ++ match run cat m with
                  | Ok a => trace cat (f a)
                  | Err _ => []
                  end)%list.
Proof.
  induction m as [a | e | q k IH]; simpl; auto.
  now rewrite IH.
Qed.

Lemma run_bind_ok {A B} (m : Prog A) (f : A -> Prog B) (b : B) :
  run cat (bind m f) = Ok b ->
  exists a, run cat m = Ok a /\ run cat (f a) = Ok b.
Proof.
  rewrite run_bind. destruct (run cat m) as [a | e]; [eauto | discriminate].
Qed.

Lemma post_ret {A} (a : A) (Q : A -> Prop) : Q a -> post cat (Ret a) Q.
Proof. intros H b Hb. simpl in Hb. now inversion Hb; subst. Qed.

Lemma post_raise {A} (e : exn) (Q : A -> Prop) : post cat (Raise e) Q.
Proof. intros b Hb. discriminate. Qed.

Lemma post_bind {A B} (m : Prog A) (f : A -> Prog B) (P : A -> Prop) (Q : B -> Prop) :
  post cat m P -> (forall a, P a -> post cat (f a) Q) -> post cat (bind m f) Q.
Proof.
  intros Hm Hf b Hb. apply run_bind_ok in Hb as (a & Ha & Hb).
  exact (Hf a (Hm a Ha) b Hb).
Qed.

(** A loop keeps what each of its iterations keeps. *)
Lemma post_for_each {X S} (xs : list X) (body : X -> S -> Prog S) (I : S -> Prop) :
  (forall x st, In x xs -> I st -> post cat (body x st) I) ->
  forall st, I st -> post cat (for_each xs body st) I.
Proof.
  induction xs as [| x xs IH]; intros Hbody st Hst; simpl.
  - now apply post_ret.
  - apply post_bind with (P := I).
    + apply Hbody; simpl; auto.
    + intros st' Hst'. apply IH; auto. intros; apply Hbody; simpl; auto.
Qed.

Lemma queries_bind {A B} (m : Prog A) (f : A -> Prog B) (T : QueryArgs -> Prop) :
  queries cat m T -> (forall a, run cat m = Ok a -> queries cat (f a) T) ->
  queries cat (bind m f) T.
Proof.
  unfold queries. intros Hm Hf. rewrite trace_bind. apply Forall_app. split; auto.
  destruct (run cat m); auto.
Qed.

Lemma queries_for_each {X S} (xs : list X) (body : X -> S -> Prog S)
    (T : QueryArgs -> Prop) :
  (forall x st, In x xs -> queries cat (body x st) T) ->
  forall st, queries cat (for_each xs body st) T.
Proof.
  induction xs as [| x xs IH]; intros Hbody st; simpl.
  - constructor.
  - apply queries_bind.
    + apply Hbody; simpl; auto.
    + intros st' _. apply IH. intros; apply Hbody; simpl; auto.
Qed.

End ProgFacts.

(** * The ranker *)

(** The head of the sorted score list is the first entry of maximal score. *)
Lemma sort_scored_head (a : Z * Product) (l : list (Z * Product)) :
  exists pre x post rest,
    a :: l = (pre ++ x :: post)%list
    /\ sort_scored (a :: l) = x :: rest
    /\ (forall y, In y (a :: l) -> (fst y <= fst x)%Z)
    /\ (forall y, In y pre -> (fst y < fst x)%Z).
Proof.
  revert a. induction l as [| b l IH]; intros a.
  - exists [], a, [], []. repeat split; simpl; intros y Hy; try tauto.
    destruct Hy as [<- | []]. lia.
  - destruct (IH b) as (pre & x & post & rest & Hsplit & Hsort & Hmax & Hpre).
    change (sort_scored (a :: b :: l))
      with (insert_sorted (fun u v => (- fst u <=? - fst v)%Z) a (sort_scored (b :: l))).
    rewrite Hsort. simpl insert_sorted.
    destruct (Z.leb_spec (- fst a) (- fst x)) as [Hle | Hlt].
    + exists [], a, (b :: l), (x :: rest). repeat split; simpl; try tauto.
      intros y [<- | Hy]; [lia |]. specialize (Hmax y Hy). lia.
    + exists (a :: pre), x, post, (insert_sorted (fun u v => (- fst u <=? - fst v)%Z) a rest).
      repeat split.
      * simpl. now rewrite Hsplit.
      * intros y [<- | Hy]; [lia | auto].
      * intros y [<- | Hy]; [lia | auto].
Qed.

(** A non-empty candidate list has a winner, and it is the candidate the
    ranker returns. *)
Lemma rank_candidates_first_max (c0 : Product) (l : list Product)
    (target_price : Q) (tier : string) :
  exists pre c post,
    c0 :: l = (pre ++ c :: post)%list
    /\ rank_candidates (c0 :: l) target_price tier = Ret c
    /\ (forall x, In x (c0 :: l) ->
          (score x target_price tier <= score c target_price tier)%Z)
    /\ (forall x, In x pre ->
          (score x target_price tier < score c target_price tier)%Z).
Proof.
  set (tag := fun c => (score c target_price tier, c)).
  destruct (sort_scored_head (tag c0) (map tag l))
    as (pre & x & post & rest & Hsplit & Hsort & Hmax & Hpre).
  change (tag c0 :: map tag l) with (map tag (c0 :: l)) in Hsplit, Hmax.
  apply map_eq_app in Hsplit as (pre' & tl & Hl & Hpre' & Htl).
  destruct tl as [| c post']; [discriminate |].
  simpl in Htl. injection Htl as Hx Hpost.
  exists pre', c, post'. repeat split.
  - exact Hl.
  - unfold rank_candidates. fold tag.
    change (map tag (c0 :: l)) with (tag c0 :: map tag l).
    rewrite Hsort, <- Hx. reflexivity.
  - intros y Hy. specialize (Hmax (tag y) (in_map tag _ _ Hy)).
    rewrite <- Hx in Hmax. exact Hmax.
  - intros y Hy. subst pre. specialize (Hpre (tag y) (in_map tag _ _ Hy)).
    rewrite <- Hx in Hpre. exact Hpre.
Qed.

Lemma rank_candidates_in (c0 : Product) (l : list Product) (target_price : Q)
    (tier : string) :
  exists c, rank_candidates (c0 :: l) target_price tier = Ret c /\ In c (c0 :: l).
Proof.
  destruct (rank_candidates_first_max c0 l target_price tier)
    as (pre & c & post & Hsplit & Hrank & _).
  exists c. split; [exact Hrank |]. rewrite Hsplit. apply in_elt.
Qed.

(** * The two loops, step by step *)

Section MatcherFacts.

Context {Placement : Type}.
Variable place : string -> Room -> Placement.
Variable url : string.
Variable cat : Catalog.

Lemma purchase_priced slot_name best room st price :
  p_price best = Some price ->
  purchase place slot_name best room st = Ret (bought place slot_name best room st).
Proof.
  unfold purchase, bought, price_of. intros ->. reflexivity.
Qed.

Lemma purchase_unpriced slot_name best room st :
  p_price best = None ->
  purchase place slot_name best room st = Raise TypeError.
Proof.
  unfold purchase. intros ->. reflexivity.
Qed.

(** The inner loop of a required slot. *)
Lemma purchases_run slot_name best room n :
  forall i st,
    run cat (for_each (seq i n) (fun _ => purchase place slot_name best room) st) =
    match n, p_price best with
    | O, _ => Ok st
    | S _, None => Err TypeError
    | S _, Some _ => Ok (bought_n place n slot_name best room st)
    end.
Proof.
  induction n as [| n IH]; intros i st; [reflexivity |].
  cbn [seq for_each]. rewrite run_bind.
  destruct (p_price best) as [price |] eqn:Hprice.
  - rewrite (purchase_priced _ _ _ _ Hprice). cbn [run].
    rewrite IH. destruct n; reflexivity.
  - rewrite (purchase_unpriced _ _ _ _ Hprice). reflexivity.
Qed.

Lemma purchases_trace slot_name best room n :
  forall i st,
    trace cat (for_each (seq i n) (fun _ => purchase place slot_name best room) st) = [].
Proof.
  induction n as [| n IH]; intros i st; [reflexivity |].
  cbn [seq for_each]. rewrite trace_bind.
  unfold purchase at 1 2. destruct (p_price best); cbn [trace run app]; auto.
Qed.

Lemma rank_candidates_trace candidates target_price tier :
  trace cat (rank_candidates candidates target_price tier) = [].
Proof.
  unfold rank_candidates.
  destruct (sort_scored _) as [| [? ?] ?]; [destruct candidates |]; reflexivity.
Qed.

(** What a required slot does to the state, when it returns. *)
Lemma required_slot_run room style tier cfg allocs s st st' :
  run cat (required_slot place room style tier cfg allocs s st) = Ok st' ->
  let q := slot_quantity s in
  let per_item :=
    remaining_budget st * snd (required_alloc allocs (slot s)) / inject_Z q in
  let candidates := cat (required_query room style cfg s per_item) in
  ~ inject_Z q == 0
  /\ ((candidates = [] /\ st' = st)
      \/ exists best,
           In best candidates
           /\ rank_candidates candidates per_item tier = Ret best
           /\ (Z.to_nat q = O \/ exists price, p_price best = Some price)
           /\ st' = bought_n place (Z.to_nat q) (slot s) best room st).
Proof.
  intros Hrun q per_item candidates.
  unfold required_slot, div in Hrun. fold q in Hrun.
  destruct (Qeq_bool (inject_Z q) 0) eqn:Hq; [discriminate |].
  split; [now apply Qeq_bool_neq |].
  cbn [bind query_supabase_for_matching run] in Hrun.
  fold per_item candidates in Hrun.
  destruct candidates as [| c0 l] eqn:Hcand.
  - left. cbn in Hrun. now inversion Hrun.
  - right.
    destruct (rank_candidates_in c0 l per_item tier) as (best & Hrank & Hin).
    rewrite run_bind, Hrank in Hrun. cbn [run] in Hrun.
    rewrite purchases_run in Hrun.
    exists best. repeat split; auto.
    + destruct (Z.to_nat q); [now left | right].
      destruct (p_price best); [eauto | discriminate].
    + destruct (Z.to_nat q) eqn:Hn; [now inversion Hrun |].
      destruct (p_price best); [now inversion Hrun | discriminate].
Qed.

(** The queries of a required slot: one, unless the division raises. *)
Lemma required_slot_trace room style tier cfg allocs s st :
  let q := slot_quantity s in
  let per_item :=
    remaining_budget st * snd (required_alloc allocs (slot s)) / inject_Z q in
  trace cat (required_slot place room style tier cfg allocs s st) =
  if Qeq_bool (inject_Z q) 0 then []
  else [(required_query room style cfg s per_item,
         cat (required_query room style cfg s per_item))].
Proof.
  intros q per_item. unfold required_slot, div. fold q.
  destruct (Qeq_bool (inject_Z q) 0); [reflexivity |].
  cbn [bind query_supabase_for_matching trace run]. fold per_item.
  f_equal.
  destruct (cat (required_query room style cfg s per_item)) as [| c0 l]; [reflexivity |].
  rewrite trace_bind, rank_candidates_trace.
  destruct (run cat _); [apply purchases_trace | reflexivity].
Qed.

(** What an optional slot does to the state, when it returns. *)
Lemma optional_slot_run room budget_eur style tier cfg allocs s st st' :
  run cat (optional_slot place room budget_eur style tier cfg allocs s st) = Ok st' ->
  let slot_budget := optional_slot_budget budget_eur allocs s st in
  let candidates := cat (optional_query room style cfg s slot_budget) in
  (slot_budget < 15 /\ st' = st)
  \/ (15 <= slot_budget
      /\ ((candidates = [] /\ st' = st)
          \/ exists best price,
               In best candidates
               /\ rank_candidates candidates (slot_budget * 0.7) tier = Ret best
               /\ p_price best = Some price
               /\ st' = bought place (slot s) best room st)).
Proof.
  intros Hrun slot_budget candidates.
  unfold optional_slot in Hrun. fold slot_budget in Hrun.
  unfold Py.Qltb in Hrun.
  destruct (Qle_bool 15 slot_budget) eqn:Hfloor; cbn [negb] in Hrun.
  - right. split; [now apply Qle_bool_iff |].
    cbn [bind query_supabase_for_matching run] in Hrun.
    fold candidates in Hrun.
    destruct candidates as [| c0 l] eqn:Hcand.
    + left. cbn in Hrun. now inversion Hrun.
    + right.
      destruct (rank_candidates_in c0 l (slot_budget * 0.7) tier)
        as (best & Hrank & Hin).
      rewrite run_bind, Hrank in Hrun. cbn [run] in Hrun.
      destruct (p_price best) as [price |] eqn:Hprice.
      * rewrite (purchase_priced _ _ _ _ Hprice) in Hrun.
        exists best, price. repeat split; auto. now inversion Hrun.
      * rewrite (purchase_unpriced _ _ _ _ Hprice) in Hrun. discriminate.
  - left. split.
    + apply Qnot_le_lt. intros H. apply Qle_bool_iff in H. congruence.
    + cbn in Hrun. now inversion Hrun.
Qed.

Lemma optional_slot_trace room budget_eur style tier cfg allocs s st :
  let slot_budget := optional_slot_budget budget_eur allocs s st in
  trace cat (optional_slot place room budget_eur style tier cfg allocs s st) =
  if Py.Qltb slot_budget 15 then []
  else [(optional_query room style cfg s slot_budget,
         cat (optional_query room style cfg s slot_budget))].
Proof.
  intros slot_budget. unfold optional_slot. fold slot_budget.
  destruct (Py.Qltb slot_budget 15); [reflexivity |].
  cbn [bind query_supabase_for_matching trace run]. f_equal.
  destruct (cat (optional_query room style cfg s slot_budget)) as [| c0 l];
    [reflexivity |].
  rewrite trace_bind, rank_candidates_trace.
  destruct (run cat _); [| reflexivity].
  unfold purchase. destruct (p_price a); reflexivity.
Qed.

End MatcherFacts.

(** * Rounding *)

Lemma round_half_even_error (x : Q) :
  Qabs (inject_Z (Py.round_half_even x) - x) <= 1 # 2.
Proof.
  unfold Py.round_half_even.
  pose proof (Qfloor_le x) as Hlo.
  pose proof (Qlt_floor x) as Hhi.
  rewrite inject_Z_plus in Hhi. change (inject_Z 1) with 1 in Hhi.
  apply Qabs_Qle_condition.
  destruct (Qcompare (x - inject_Z (Qfloor x)) (1 # 2)) eqn:Hcmp.
  - apply Qeq_alt in Hcmp.
    destruct (Z.even (Qfloor x)); [| rewrite inject_Z_plus; change (inject_Z 1) with 1];
      split; lra.
  - apply Qlt_alt in Hcmp. split; lra.
  - apply Qgt_alt in Hcmp. rewrite inject_Z_plus. change (inject_Z 1) with 1.
    split; lra.
Qed.

(** [round(x, 2)] moves [x] by at most half a cent. *)
Lemma round2_error (x : Q) : Qabs (Py.round x 2 - x) <= 0.005.
Proof.
  unfold Py.round. change (inject_Z (10 ^ Z.of_nat 2)) with 100.
  pose proof (round_half_even_error (x * 100)) as H.
  apply Qabs_Qle_condition in H as [H1 H2].
  apply Qabs_Qle_condition.
  unfold Qdiv. change (/ 100) with (1 # 100).
  split; lra.
Qed.

#[global] Instance round_half_even_comp : Proper (Qeq ==> eq) Py.round_half_even.
Proof.
  intros x y Hxy. unfold Py.round_half_even.
  rewrite (Qfloor_comp _ _ Hxy).
  assert (Hd : x - inject_Z (Qfloor y) == y - inject_Z (Qfloor y)) by (rewrite Hxy; reflexivity).
  rewrite (Qcompare_comp _ _ Hd (1 # 2) (1 # 2) (Qeq_refl _)). reflexivity.
Qed.

#[global] Instance round_comp : Proper (Qeq ==> eq ==> eq) Py.round.
Proof.
  intros x y Hxy n ? <-. unfold Py.round.
  assert (H : x * inject_Z (10 ^ Z.of_nat n) == y * inject_Z (10 ^ Z.of_nat n))
    by (rewrite Hxy; reflexivity).
  now rewrite (round_half_even_comp H).
Qed.

(** * The shape of a match *)

Section MatchShape.

Context {Placement : Type}.
Variable place : string -> Room -> Placement.
Variable url : string.
Variable cat : Catalog.

Lemma match_loops_unfold room budget_eur tier style :
  match_loops place room budget_eur tier style =
  match Py.dict_get BUDGET_TIERS tier with
  | None => Raise (KeyError tier)
  | Some cfg =>
      st1 <- fill_required place room style tier cfg (room_allocations room)
               (room_required room) (mkState [] budget_eur 0) ;;
      fill_optional place room budget_eur style tier cfg (room_allocations room)
        (room_optional room) st1
  end.
Proof. reflexivity. Qed.

(** The optional loop keeps what its iterations keep; an iteration only
    runs on a positive remaining budget. *)
Lemma post_fill_optional room budget_eur style tier cfg allocs slots
    (I : MState -> Prop) :
  (forall s st, In s slots -> I st -> 0 < remaining_budget st ->
                post cat (optional_slot place room budget_eur style tier cfg allocs s st) I) ->
  forall st, I st ->
    post cat (fill_optional place room budget_eur style tier cfg allocs slots st) I.
Proof.
  induction slots as [| s slots IH]; intros Hbody st Hst; cbn [fill_optional].
  - now apply post_ret.
  - destruct (Qle_bool (remaining_budget st) 0) eqn:Hbreak.
    + now apply post_ret.
    + apply post_bind with (P := I).
      * apply Hbody; simpl; auto.
        apply Qnot_le_lt. intros H. apply Qle_bool_iff in H. congruence.
      * intros st' Hst'. apply IH; auto. intros; apply Hbody; simpl; auto.
Qed.

(** An invariant of both loop bodies holds of the state the loops leave. *)
Lemma post_match_loops room budget_eur tier style (I : MState -> Prop) :
  I (mkState [] budget_eur 0) ->
  (forall cfg s st,
      Py.dict_get BUDGET_TIERS tier = Some cfg ->
      In s (room_required room) -> I st ->
      post cat (required_slot place room style tier cfg (room_allocations room) s st) I) ->
  (forall cfg s st,
      Py.dict_get BUDGET_TIERS tier = Some cfg ->
      In s (room_optional room) -> I st -> 0 < remaining_budget st ->
      post cat (optional_slot place room budget_eur style tier cfg
                  (room_allocations room) s st) I) ->
  post cat (match_loops place room budget_eur tier style) I.
Proof.
  intros H0 Hreq Hopt. rewrite match_loops_unfold.
  destruct (Py.dict_get BUDGET_TIERS tier) as [cfg |] eqn:Htier;
    [| apply post_raise].
  apply post_bind with (P := I).
  - unfold fill_required.
    apply post_for_each; [intros s st Hs Hst; eapply Hreq; eauto | exact H0].
  - intros st1 Hst1.
    apply post_fill_optional; [intros s st Hs Hst Hpos; eapply Hopt; eauto | exact Hst1].
Qed.

(** A returned result is built from the state the loops left, and the
    budget was not zero. *)
Lemma match_result_inv room budget_eur tier style r :
  run cat (match_furniture_for_room place url room budget_eur tier style) = Ok r ->
  exists st,
    run cat (match_loops place room budget_eur tier style) = Ok st
    /\ ~ budget_eur == 0
    /\ r = {| mr_room := room;
              mr_tier := tier;
              mr_style := style;
              budget_total := budget_eur;
              budget_spent := Py.round (total_spent st) 2;
              budget_remaining := Py.round (remaining_budget st) 2;
              budget_utilization_pct :=
                Py.round (total_spent st / budget_eur * 100) 1;
              products := selected_products st;
              product_count := List.length (selected_products st);
              product_images_for_render :=
                map (render_image url)
                    (filter (fun p => Py.truthy_str
                                        (p_r2_main_image_key (sel_product p)))
                            (selected_products st));
              buy_links := map (buy_link url) (selected_products st) |}.
Proof.
  unfold match_furniture_for_room. intros Hrun.
  apply run_bind_ok in Hrun as (st & Hst & Hrun).
  exists st. split; [exact Hst |].
  unfold build_result, div in Hrun.
  destruct (Qeq_bool budget_eur 0) eqn:Hz; [discriminate |].
  split; [now apply Qeq_bool_neq |].
  cbn in Hrun. now inversion Hrun.
Qed.

(** Building the result succeeds exactly when the budget is not zero. *)
Lemma match_returns room budget_eur tier style st :
  run cat (match_loops place room budget_eur tier style) = Ok st ->
  ~ budget_eur == 0 ->
  exists r,
    run cat (match_furniture_for_room place url room budget_eur tier style) = Ok r.
Proof.
  intros Hst Hz. unfold match_furniture_for_room.
  rewrite run_bind, Hst. unfold build_result, div.
  destruct (Qeq_bool budget_eur 0) eqn:Hq.
  - apply Qeq_bool_iff in Hq. contradiction.
  - cbn. eauto.
Qed.

(** At a budget of zero no result is built: the division that computes
    [budget_utilization_pct] raises, unless the loops raised before. *)
Lemma zero_budget_never_returns room tier style :
  exists e,
    run cat (match_furniture_for_room place url room 0 tier style) = Err e.
Proof.
  unfold match_furniture_for_room. rewrite run_bind.
  destruct (run cat (match_loops place room 0 tier style)) as [st | e]; [| eauto].
  exists ZeroDivisionError. reflexivity.
Qed.

(** ** Accounting *)

Lemma bought_n_accounts n slot_name best room st budget_eur :
  total_spent st + remaining_budget st == budget_eur ->
  total_spent (bought_n place n slot_name best room st)
  + remaining_budget (bought_n place n slot_name best room st) == budget_eur.
Proof.
  revert st. induction n as [| n IH]; intros st Hst; cbn [bought_n]; auto.
  apply IH. cbn. lra.
Qed.

(** What is spent and what remains add up to the budget when the loops
    end. *)
Lemma match_loops_accounts room budget_eur tier style :
  post cat (match_loops place room budget_eur tier style)
       (fun st => total_spent st + remaining_budget st == budget_eur).
Proof.
  apply post_match_loops.
  - cbn. lra.
  - intros cfg s st _ _ Hst st' Hrun.
    apply required_slot_run in Hrun as [_ [[_ ->] | (best & _ & _ & _ & ->)]]; auto.
    now apply bought_n_accounts.
  - intros cfg s st _ _ Hst _ st' Hrun.
    apply optional_slot_run
      in Hrun as [[_ ->] | [_ [[_ ->] | (best & price & _ & _ & _ & ->)]]]; auto.
    change (bought place (slot s) best room st)
      with (bought_n place 1 (slot s) best room st).
    now apply bought_n_accounts.
Qed.

End MatchShape.


(** * The static tables *)

Lemma dict_get_In {V} (d : list (string * V)) (k : string) (v : V) :
  Py.dict_get d k = Some v -> In (k, v) d.
Proof.
  induction d as [| [k' v'] d IH]; simpl; [discriminate |].
  destruct (String.eqb_spec k k') as [-> | _].
  - intros H. inversion H. now left.
  - intros H. right. auto.
Qed.

Lemma room_requirements_unknown room :
  Py.dict_get ROOM_FURNITURE_REQUIREMENTS (room_type room) = None ->
  room_required room = [] /\ room_optional room = [].
Proof.
  unfold room_required, room_optional, room_requirements, Py.dict_get_default.
  intros ->. split; reflexivity.
Qed.

Lemma required_slots_ok_true : required_slots_ok = true.
Proof. vm_compute. reflexivity. Qed.

(** Every required slot of every room type has a positive quantity and a
    share of the remaining budget strictly between 0 and 1. *)
Lemma required_slot_facts room s :
  In s (room_required room) ->
  (1 <= slot_quantity s)%Z
  /\ 0 < snd (required_alloc (room_allocations room) (slot s))
  /\ snd (required_alloc (room_allocations room) (slot s)) < 1.
Proof.
  unfold room_required, room_requirements, room_allocations.
  unfold Py.dict_get_default at 1.
  destruct (Py.dict_get ROOM_FURNITURE_REQUIREMENTS (room_type room))
    as [reqs |] eqn:Hget; [| intros []].
  apply dict_get_In in Hget. intros Hs.
  pose proof required_slots_ok_true as Hok. unfold required_slots_ok in Hok.
  rewrite forallb_forall in Hok. specialize (Hok _ Hget). cbn [fst snd] in Hok.
  rewrite forallb_forall in Hok. specialize (Hok _ Hs).
  unfold required_slot_ok, Py.Qltb in Hok.
  apply andb_prop in Hok as [Hok H1]. apply andb_prop in Hok as [Hq H0].
  repeat split.
  - now apply Z.leb_le.
  - apply Qnot_le_lt. intros H. apply Qle_bool_iff in H. rewrite H in H0. discriminate.
  - apply Qnot_le_lt. intros H. apply Qle_bool_iff in H. rewrite H in H1. discriminate.
Qed.

Lemma inject_Z_positive (z : Z) : (1 <= z)%Z -> 1 <= inject_Z z.
Proof.
  intros H. change 1 with (inject_Z 1). now rewrite <- Zle_Qle.
Qed.

(** * Returning *)

Section Returning.

Context {Placement : Type}.
Variable place : string -> Room -> Placement.
Variable url : string.
Variable cat : Catalog.
Hypothesis Hcat : honours_max_price cat.

Lemma required_slot_returns room style tier cfg allocs s st :
  (1 <= slot_quantity s)%Z ->
  exists st', run cat (required_slot place room style tier cfg allocs s st) = Ok st'.
Proof.
  intros Hq. unfold required_slot, div.
  destruct (Qeq_bool (inject_Z (slot_quantity s)) 0) eqn:Hz.
  - apply Qeq_bool_iff in Hz. apply inject_Z_positive in Hq. lra.
  - cbn [bind query_supabase_for_matching run].
    set (per_item := remaining_budget st * _ / _).
    destruct (cat (required_query room style cfg s per_item)) as [| c0 l] eqn:Hcand;
      [cbn; eauto |].
    destruct (rank_candidates_in c0 l per_item tier) as (best & Hrank & Hin).
    rewrite run_bind, Hrank. cbn [run]. rewrite purchases_run.
    rewrite <- Hcand in Hin.
    destruct (Hcat _ _ Hin eq_refl) as (x & Hx & _). rewrite Hx.
    destruct (Z.to_nat (slot_quantity s)); eauto.
Qed.

Lemma optional_slot_returns room budget_eur style tier cfg allocs s st :
  exists st',
    run cat (optional_slot place room budget_eur style tier cfg allocs s st) = Ok st'.
Proof.
  unfold optional_slot.
  set (slot_budget := optional_slot_budget budget_eur allocs s st).
  destruct (Py.Qltb slot_budget 15); [cbn; eauto |].
  cbn [bind query_supabase_for_matching run].
  destruct (cat (optional_query room style cfg s slot_budget)) as [| c0 l] eqn:Hcand;
    [cbn; eauto |].
  destruct (rank_candidates_in c0 l (slot_budget * 0.7) tier) as (best & Hrank & Hin).
  rewrite run_bind, Hrank. cbn [run].
  rewrite <- Hcand in Hin.
  destruct (Hcat _ _ Hin eq_refl) as (x & Hx & _).
  rewrite (@purchase_priced _ place _ _ _ _ _ Hx). cbn. eauto.
Qed.

Lemma for_each_returns {X S} (xs : list X) (body : X -> S -> Prog S) :
  (forall x st, In x xs -> exists st', run cat (body x st) = Ok st') ->
  forall st, exists st', run cat (for_each xs body st) = Ok st'.
Proof.
  induction xs as [| x xs IH]; intros Hbody st; cbn [for_each]; [cbn; eauto |].
  destruct (Hbody x st (or_introl eq_refl)) as (st1 & H1).
  rewrite run_bind, H1. apply IH. intros; apply Hbody; simpl; auto.
Qed.

Lemma fill_optional_returns room budget_eur style tier cfg allocs slots :
  forall st, exists st',
    run cat (fill_optional place room budget_eur style tier cfg allocs slots st) = Ok st'.
Proof.
  induction slots as [| s slots IH]; intros st; cbn [fill_optional]; [cbn; eauto |].
  destruct (Qle_bool (remaining_budget st) 0); [cbn; eauto |].
  destruct (optional_slot_returns room budget_eur style tier cfg allocs s st)
    as (st1 & H1).
  rewrite run_bind, H1. apply IH.
Qed.

(** With a known tier, a non-zero budget and a catalog that honours
    [max_price], the matcher returns a result. *)
Lemma match_furniture_for_room_returns room budget_eur tier style cfg :
  Py.dict_get BUDGET_TIERS tier = Some cfg ->
  ~ budget_eur == 0 ->
  exists r,
    run cat (match_furniture_for_room place url room budget_eur tier style) = Ok r.
Proof.
  intros Htier Hz.
  assert (exists st, run cat (match_loops place room budget_eur tier style) = Ok st)
    as (st & Hst).
  { rewrite match_loops_unfold, Htier.
    destruct (for_each_returns (room_required room)
                (required_slot place room style tier cfg (room_allocations room)))
      with (st := @mkState Placement [] budget_eur 0) as (st1 & H1).
    - intros s st Hs. apply required_slot_returns.
      now apply required_slot_facts in Hs.
    - unfold fill_required. rewrite run_bind, H1. apply fill_optional_returns. }
  eapply match_returns; eauto.
Qed.

End Returning.


(** * The catalog on a table snapshot *)

Lemma insert_sorted_In {A} (leb : A -> A -> bool) (x y : A) (l : list A) :
  In y (insert_sorted leb x l) -> y = x \/ In y l.
Proof.
  induction l as [| z l IH]; simpl.
  - intros [<- | []]. now left.
  - destruct (leb x z); simpl.
    + intros [<- | H]; auto.
    + intros [<- | H]; auto. destruct (IH H); auto.
Qed.

Lemma stable_sort_In {A} (leb : A -> A -> bool) (y : A) (l : list A) :
  In y (stable_sort leb l) -> In y l.
Proof.
  induction l as [| x l IH]; simpl; auto.
  intros H. apply insert_sorted_In in H as [-> | H]; auto.
Qed.

Lemma firstn_subset {A} (n : nat) (l : list A) (x : A) :
  In x (firstn n l) -> In x l.
Proof.
  intros H. rewrite <- (firstn_skipn n l). apply in_or_app. now left.
Qed.

(** A row answered to a query is a row of the table that passes the
    filters. *)
Lemma query_on_table_In (table : list Product) (a : QueryArgs) (p : Product) :
  In p (query_supabase_for_matching_on table a) ->
  In p table /\ row_matches a p = true.
Proof.
  unfold query_supabase_for_matching_on. intros H.
  apply firstn_subset in H. apply stable_sort_In in H.
  now apply filter_In in H.
Qed.

(** A row that is not in stock passes no query. *)
Lemma row_matches_out_of_stock (a : QueryArgs) (p : Product) :
  p_in_stock p <> Some true -> row_matches a p = false.
Proof.
  intros Hstock. unfold row_matches.
  destruct (p_in_stock p) as [[|] |]; [congruence | |];
    rewrite andb_false_r; reflexivity.
Qed.

Lemma query_on_table_honours_max_price (table : list Product) :
  honours_max_price (query_supabase_for_matching_on table).
Proof.
  intros a p hi Hin Hmax. apply query_on_table_In in Hin as [_ Hrow].
  unfold row_matches in Hrow. rewrite Hmax in Hrow.
  repeat (apply andb_prop in Hrow as [Hrow ?]).
  destruct (p_price p) as [x |]; [| discriminate].
  exists x. split; [reflexivity |]. now apply Qle_bool_iff.
Qed.

Lemma query_on_table_honours_min_price (table : list Product) :
  honours_min_price (query_supabase_for_matching_on table).
Proof.
  intros a p lo Hin Hmin. apply query_on_table_In in Hin as [_ Hrow].
  unfold row_matches in Hrow. rewrite Hmin in Hrow.
  repeat (apply andb_prop in Hrow as [Hrow ?]).
  destruct (p_price p) as [x |]; [| discriminate].
  exists x. split; [reflexivity |]. now apply Qle_bool_iff.
Qed.

Lemma query_on_table_positive_prices (table : list Product) :
  forallb positive_price table = true ->
  positive_prices (query_supabase_for_matching_on table).
Proof.
  intros Hall a p x Hin Hx. apply query_on_table_In in Hin as [Hin _].
  rewrite forallb_forall in Hall. specialize (Hall _ Hin).
  unfold positive_price, Py.Qltb in Hall. rewrite Hx in Hall.
  apply Qnot_le_lt. intros H. apply Qle_bool_iff in H. rewrite H in Hall. discriminate.
Qed.


(** * Budget discipline *)

Lemma min_le_l (a b : Q) : Py.min a b <= a.
Proof.
  unfold Py.min. destruct (Qle_bool a b) eqn:H; [lra |].
  destruct (Qlt_le_dec b a) as [Hlt | Hle]; [lra |].
  apply Qle_bool_iff in Hle. congruence.
Qed.

Lemma inject_Z_of_nat_succ (n : nat) :
  inject_Z (Z.of_nat (S n)) == inject_Z (Z.of_nat n) + 1.
Proof.
  rewrite Nat2Z.inj_succ. unfold Z.succ. rewrite inject_Z_plus. reflexivity.
Qed.

Lemma inject_Z_of_nat_nonneg (n : nat) : 0 <= inject_Z (Z.of_nat n).
Proof.
  change 0 with (inject_Z 0). rewrite <- Zle_Qle. lia.
Qed.

Section BudgetDiscipline.

Context {Placement : Type}.
Variable place : string -> Room -> Placement.
Variable url : string.
Variable cat : Catalog.
Hypothesis Hmax : honours_max_price cat.
Hypothesis Hmin : honours_min_price cat.

Lemma prices_sum_app (l l' : list (@Selected Placement)) :
  prices_sum (l ++ l') == prices_sum l + prices_sum l'.
Proof.
  induction l as [| e l IH].
  - change (prices_sum ([] ++ l')) with (prices_sum l').
    change (prices_sum (@nil (@Selected Placement))) with 0. ring.
  - change (prices_sum ((e :: l) ++ l'))
      with (price_of (sel_product e) + prices_sum (l ++ l')).
    change (prices_sum (e :: l)) with (price_of (sel_product e) + prices_sum l).
    rewrite IH. ring.
Qed.

Lemma snoc_split {A} (l pre post : list A) (e e' : A) :
  (l ++ [e] = pre ++ e' :: post)%list ->
  (post = [] /\ pre = l /\ e' = e)
  \/ exists post', post = (post' ++ [e])%list /\ l = (pre ++ e' :: post')%list.
Proof.
  destruct (exists_last (l := e' :: post)) as (body & z & Hbody); [discriminate |].
  intros H. rewrite Hbody, app_assoc in H.
  apply app_inj_tail in H as [Hl <-].
  destruct post as [| y post].
  - left. destruct body as [| ? [| ? ?]]; try discriminate.
    cbn in Hbody. inversion Hbody; subst. rewrite app_nil_r. auto.
  - right. destruct body as [| b body]; [destruct post; discriminate |].
    cbn in Hbody. inversion Hbody; subst. exists body. split; auto.
Qed.

(** A purchase made on a positive remaining budget that leaves a positive
    remaining budget keeps the invariant. *)
Lemma bought_invariant budget_eur slot_name best room (st : @MState Placement) :
  budget_invariant budget_eur st ->
  0 < remaining_budget st ->
  0 < remaining_budget st - price_of best ->
  budget_invariant budget_eur (bought place slot_name best room st).
Proof.
  intros (Hrem & Hspent & Hpre & _) Hr Hr'.
  unfold budget_invariant, bought.
  cbn [selected_products remaining_budget total_spent].
  assert (Hsum : prices_sum
                   (selected_products st
                    ++ [mkSelected slot_name best 1 (place slot_name room)])
                 == prices_sum (selected_products st) + price_of best).
  { rewrite prices_sum_app. cbn. lra. }
  repeat split.
  - rewrite Hsum. lra.
  - rewrite Hsum. lra.
  - intros pre e post Hsplit.
    apply snoc_split in Hsplit as [(_ & -> & _) | (post' & _ & Hl)].
    + lra.
    + eapply Hpre; eauto.
  - intros _. exact Hr'.
Qed.

(** [n] purchases, each at no more than [m], of which [n] cost less than
    what remains, are all made on a positive remaining budget, keep the
    invariant and leave a positive remaining budget. *)
Lemma bought_n_invariant budget_eur slot_name best room m n :
  forall st : @MState Placement,
    budget_invariant budget_eur st ->
    price_of best <= m ->
    0 <= m ->
    0 < remaining_budget st ->
    inject_Z (Z.of_nat n) * m < remaining_budget st ->
    budget_invariant budget_eur (bought_n place n slot_name best room st)
    /\ 0 < remaining_budget (bought_n place n slot_name best room st).
Proof.
  induction n as [| n IH]; intros st Hinv Hp Hm Hr Hn; cbn [bought_n]; [auto |].
  rewrite inject_Z_of_nat_succ in Hn.
  pose proof (inject_Z_of_nat_nonneg n) as Hn0.
  assert (Hr' : 0 < remaining_budget st - price_of best) by nra.
  apply IH; auto.
  - now apply bought_invariant.
  - cbn [bought remaining_budget]. lra.
Qed.

(** Under the invariant the remaining budget is zero only if the budget
    is. *)
Lemma remaining_zero budget_eur (st : @MState Placement) :
  budget_invariant budget_eur st ->
  remaining_budget st == 0 -> budget_eur == 0.
Proof.
  intros (Hrem & _ & _ & Hne) Hz.
  destruct (selected_products st) as [| e l] eqn:Hsel.
  - change (prices_sum (@nil (@Selected Placement))) with 0 in Hrem. lra.
  - assert (0 < remaining_budget st) by (apply Hne; discriminate). lra.
Qed.

Lemma required_slot_invariant room budget_eur style tier cfg s st :
  ~ budget_eur == 0 \/ positive_prices cat ->
  In s (room_required room) ->
  budget_invariant budget_eur st ->
  post cat (required_slot place room style tier cfg (room_allocations room) s st)
       (budget_invariant budget_eur).
Proof.
  intros Hzero Hs Hinv st' Hrun.
  apply required_slot_facts in Hs as (Hq & Ha0 & Ha1).
  apply required_slot_run in Hrun as [Hz [[_ ->] | (best & Hin & _ & _ & ->)]]; auto.
  pose proof (remaining_zero Hinv) as Hrz.
  set (a := snd (required_alloc (room_allocations room) (slot s))) in *.
  set (r := remaining_budget st) in *.
  destruct (Hmax _ _ Hin eq_refl) as (x & Hx & Hle).
  destruct (Hmin _ _ Hin eq_refl) as (x' & Hx' & Hge).
  rewrite Hx in Hx'. inversion Hx'; subst x'. clear Hx'.
  assert (Hprice : price_of best = x) by (unfold price_of; now rewrite Hx).
  pose proof (inject_Z_positive Hq) as Hq1.
  pose proof (Qmult_div_r (r * a) _ Hz) as Hdiv.
  set (per_item := r * a / inject_Z (slot_quantity s)) in *.
  assert (Hr : 0 < r).
  { destruct (Qlt_le_dec 0 r) as [Hr | Hr]; [exact Hr | exfalso].
    destruct (Qlt_le_dec r 0) as [Hneg | Hnonneg].
    - assert (per_item < 0) by nra. lra.
    - assert (Hr0 : r == 0) by lra.
      destruct Hzero as [Hb | Hpos]; [now apply Hb, Hrz |].
      assert (0 < x) by (eapply Hpos; eauto).
      assert (per_item <= 0) by nra. lra. }
  assert (Hper : 0 <= per_item) by nra.
  apply bought_n_invariant with (m := per_item); auto.
  - rewrite Hprice. exact Hle.
  - rewrite Z2Nat.id by lia. fold r. nra.
Qed.

Lemma optional_slot_invariant room budget_eur style tier cfg allocs s st :
  budget_invariant budget_eur st ->
  0 < remaining_budget st ->
  post cat (optional_slot place room budget_eur style tier cfg allocs s st)
       (budget_invariant budget_eur).
Proof.
  intros Hinv Hr st' Hrun.
  apply optional_slot_run
    in Hrun as [[_ ->] | [_ [[_ ->] | (best & price & Hin & _ & Hx & ->)]]]; auto.
  destruct (Hmax _ _ Hin eq_refl) as (x & Hx' & Hle).
  rewrite Hx in Hx'. inversion Hx'; subst x.
  assert (Hprice : price_of best = price) by (unfold price_of; now rewrite Hx).
  pose proof (min_le_l (remaining_budget st * 0.4)
                (budget_eur
                 * snd (Py.dict_get_default allocs (slot s) (0.03, 0.08)))) as Hmin'.
  unfold optional_slot_budget in Hle.
  apply bought_invariant; auto. rewrite Hprice. lra.
Qed.

(** The invariant holds when the loops end. *)
Lemma match_loops_invariant room budget_eur tier style :
  ~ budget_eur == 0 \/ positive_prices cat ->
  post cat (match_loops place room budget_eur tier style)
       (budget_invariant budget_eur).
Proof.
  intros Hzero. apply post_match_loops.
  - unfold budget_invariant. cbn. repeat split; try lra.
    + intros pre e post H. destruct pre; discriminate.
    + congruence.
  - intros cfg s st _ Hs Hinv. now apply required_slot_invariant.
  - intros cfg s st _ _ Hinv Hr. now apply optional_slot_invariant.
Qed.

End BudgetDiscipline.


(** * No purchase without budget *)

(** Against a catalog that applies the price window of the queries, every
    entry of [selected_products] is appended while the remaining budget is
    positive: in the required loop a non-positive remaining budget gives a
    price window that no row can meet, and the units of a slot together
    cost no more than its share of what remains; the optional loop is left
    when nothing remains, and one optional item costs at most four tenths of
    what remains.  The loops of a run with a zero budget need positive
    prices for this; such a run builds no result. *)
Lemma budget_discipline :
  forall (Placement : Type) (place : string -> Room -> Placement) (url : string)
         (cat : Catalog) (room : Room) (budget_eur : Q) (tier : string)
         (style : option string),
    honours_max_price cat ->
    honours_min_price cat ->
    (forall st,
        ~ budget_eur == 0 \/ positive_prices cat ->
        run cat (match_loops place room budget_eur tier style) = Ok st ->
        remaining_budget st == budget_eur - prices_sum (selected_products st)
        /\ purchased_on_positive_budget budget_eur (selected_products st))
    /\ (forall r,
          run cat (match_furniture_for_room place url room budget_eur tier style)
          = Ok r ->
          purchased_on_positive_budget budget_eur (products r)
          /\ (forall pre e,
                products r = (pre ++ [e])%list ->
                budget_spent r
                < budget_total r + price_of (sel_product e) + 0.005)
          /\ (products r <> [] \/ 0 <= budget_eur ->
              budget_spent r <= budget_total r + 0.005)
          /\ (products r = [] -> budget_spent r == 0)).
Proof.
  intros Placement place url cat room budget_eur tier style Hmax Hmin.
  assert (Hinv : forall st,
             ~ budget_eur == 0 \/ positive_prices cat ->
             run cat (match_loops place room budget_eur tier style) = Ok st ->
             budget_invariant budget_eur st).
  { intros st Hzero Hst. eapply match_loops_invariant; eauto. }
  split.
  - intros st Hzero Hst. destruct (Hinv st Hzero Hst) as (Hrem & _ & Hpre & _). auto.
  - intros r Hrun. apply match_result_inv in Hrun as (st & Hst & Hzero & ->).
    cbn [products budget_spent budget_total].
    destruct (Hinv st (or_introl Hzero) Hst) as (Hrem & Hspent & Hpre & Hne).
    pose proof (round2_error (total_spent st)) as Hround.
    apply Qabs_Qle_condition in Hround as [_ Hround].
    split; [exact Hpre |]. split; [| split].
    + intros pre e Hsplit.
      pose proof (Hpre pre e [] Hsplit) as Hbefore.
      rewrite Hsplit, prices_sum_app in Hspent.
      change (prices_sum [e]) with (price_of (sel_product e) + 0) in Hspent.
      lra.
    + intros [Hsome | Hbudget].
      * specialize (Hne Hsome). lra.
      * destruct (selected_products st) as [| e l] eqn:Hsel.
        -- change (prices_sum (@nil (@Selected Placement))) with 0 in Hspent. lra.
        -- assert (Hr : 0 < remaining_budget st) by (apply Hne; discriminate). lra.
    + intros Hnone. rewrite Hnone in Hspent.
      change (prices_sum (@nil (@Selected Placement))) with 0 in Hspent.
      rewrite Hspent. vm_compute. reflexivity.
Qed.


(** * Reasoning under assumptions on the answers *)

Section AnswerFacts.

Variable cat : Catalog.
Variable E : QueryArgs -> list Product -> Prop.

Lemma post_if_ret {A} (a : A) (Q : A -> Prop) : Q a -> post_if cat E (Ret a) Q.
Proof. intros H b Hb _. simpl in Hb. now inversion Hb; subst. Qed.

Lemma post_if_raise {A} (e : exn) (Q : A -> Prop) : post_if cat E (Raise e) Q.
Proof. intros b Hb. discriminate. Qed.

Lemma post_if_bind {A B} (m : Prog A) (f : A -> Prog B) (P : A -> Prop) (Q : B -> Prop) :
  post_if cat E m P -> (forall a, P a -> post_if cat E (f a) Q) ->
  post_if cat E (bind m f) Q.
Proof.
  intros Hm Hf b Hb Htr. rewrite trace_bind in Htr.
  apply Forall_app in Htr as [Htr1 Htr2].
  apply run_bind_ok in Hb as (a & Ha & Hb). rewrite Ha in Htr2.
  exact (Hf a (Hm a Ha Htr1) b Hb Htr2).
Qed.

Lemma post_if_for_each {X S} (xs : list X) (body : X -> S -> Prog S) (I : S -> Prop) :
  (forall x st, In x xs -> I st -> post_if cat E (body x st) I) ->
  forall st, I st -> post_if cat E (for_each xs body st) I.
Proof.
  induction xs as [| x xs IH]; intros Hbody st Hst; simpl.
  - now apply post_if_ret.
  - apply post_if_bind with (P := I).
    + apply Hbody; simpl; auto.
    + intros st' Hst'. apply IH; auto. intros; apply Hbody; simpl; auto.
Qed.

End AnswerFacts.

Section MatchShapeIf.

Context {Placement : Type}.
Variable place : string -> Room -> Placement.
Variable url : string.
Variable cat : Catalog.
Variable E : QueryArgs -> list Product -> Prop.

Lemma post_if_fill_optional room budget_eur style tier cfg allocs slots
    (I : MState -> Prop) :
  (forall s st, In s slots -> I st -> 0 < remaining_budget st ->
                post_if cat E
                  (optional_slot place room budget_eur style tier cfg allocs s st) I) ->
  forall st, I st ->
    post_if cat E
      (fill_optional place room budget_eur style tier cfg allocs slots st) I.
Proof.
  induction slots as [| s slots IH]; intros Hbody st Hst; cbn [fill_optional].
  - now apply post_if_ret.
  - destruct (Qle_bool (remaining_budget st) 0) eqn:Hbreak.
    + now apply post_if_ret.
    + apply post_if_bind with (P := I).
      * apply Hbody; simpl; auto.
        apply Qnot_le_lt. intros H. apply Qle_bool_iff in H. congruence.
      * intros st' Hst'. apply IH; auto. intros; apply Hbody; simpl; auto.
Qed.

Lemma post_if_match_loops room budget_eur tier style (I : MState -> Prop) :
  I (mkState [] budget_eur 0) ->
  (forall cfg s st,
      Py.dict_get BUDGET_TIERS tier = Some cfg ->
      In s (room_required room) -> I st ->
      post_if cat E
        (required_slot place room style tier cfg (room_allocations room) s st) I) ->
  (forall cfg s st,
      Py.dict_get BUDGET_TIERS tier = Some cfg ->
      In s (room_optional room) -> I st -> 0 < remaining_budget st ->
      post_if cat E
        (optional_slot place room budget_eur style tier cfg
           (room_allocations room) s st) I) ->
  post_if cat E (match_loops place room budget_eur tier style) I.
Proof.
  intros H0 Hreq Hopt. rewrite match_loops_unfold.
  destruct (Py.dict_get BUDGET_TIERS tier) as [cfg |] eqn:Htier;
    [| apply post_if_raise].
  apply post_if_bind with (P := I).
  - unfold fill_required.
    apply post_if_for_each; [intros s st Hs Hst; eapply Hreq; eauto | exact H0].
  - intros st1 Hst1.
    apply post_if_fill_optional;
      [intros s st Hs Hst Hpos; eapply Hopt; eauto | exact Hst1].
Qed.

Lemma build_result_trace room budget_eur tier style (st : @MState Placement) :
  trace cat (build_result url room budget_eur tier style st) = [].
Proof.
  unfold build_result, div. destruct (Qeq_bool budget_eur 0); reflexivity.
Qed.

Lemma match_trace room budget_eur tier style :
  trace cat (match_furniture_for_room place url room budget_eur tier style)
  = trace cat (match_loops place room budget_eur tier style).
Proof.
  unfold match_furniture_for_room. rewrite trace_bind.
  destruct (run cat _); [rewrite build_result_trace |]; apply app_nil_r.
Qed.

End MatchShapeIf.


(** * The queries of a match *)

Section MatchQueries.

Context {Placement : Type}.
Variable place : string -> Room -> Placement.
Variable url : string.
Variable cat : Catalog.

Lemma queries_fill_optional room budget_eur style tier cfg allocs slots
    (T : QueryArgs -> Prop) :
  (forall s st, In s slots -> 0 < remaining_budget st ->
                queries cat
                  (optional_slot place room budget_eur style tier cfg allocs s st) T) ->
  forall st,
    queries cat (fill_optional place room budget_eur style tier cfg allocs slots st) T.
Proof.
  induction slots as [| s slots IH]; intros Hbody st; cbn [fill_optional].
  - constructor.
  - destruct (Qle_bool (remaining_budget st) 0) eqn:Hbreak; [constructor |].
    apply queries_bind.
    + apply Hbody; simpl; auto.
      apply Qnot_le_lt. intros H. apply Qle_bool_iff in H. congruence.
    + intros st' _. apply IH. intros; apply Hbody; simpl; auto.
Qed.

End MatchQueries.


(** * Slot names *)

Lemma slot_names_ok_true : slot_names_ok = true.
Proof. vm_compute. reflexivity. Qed.

Lemma str_in_In (x : string) (xs : list string) :
  In x xs -> Py.str_in x xs = true.
Proof.
  intros H. unfold Py.str_in. apply existsb_exists.
  exists x. split; [exact H | apply String.eqb_refl].
Qed.

(** Within a room, required slots of one name share their categories, and
    no optional slot bears the name of a required slot. *)
Lemma required_slot_names room s :
  In s (room_required room) ->
  (forall s', In s' (room_required room) -> slot s = slot s' ->
              categories s = categories s')
  /\ ~ In (slot s) (map slot (room_optional room)).
Proof.
  unfold room_required, room_optional, room_requirements.
  unfold Py.dict_get_default.
  destruct (Py.dict_get ROOM_FURNITURE_REQUIREMENTS (room_type room))
    as [reqs |] eqn:Hget; [| intros []].
  apply dict_get_In in Hget. intros Hs.
  pose proof slot_names_ok_true as Hok. unfold slot_names_ok in Hok.
  rewrite forallb_forall in Hok. specialize (Hok _ Hget). cbn [fst snd] in Hok.
  rewrite forallb_forall in Hok. specialize (Hok _ Hs).
  apply andb_prop in Hok as [Hsame Hdisj]. split.
  - intros s' Hs' Hname. rewrite forallb_forall in Hsame. specialize (Hsame _ Hs').
    rewrite Hname, String.eqb_refl in Hsame. cbn in Hsame.
    destruct (list_eq_dec string_dec (categories s) (categories s')); [auto | discriminate].
  - intros Hin. apply str_in_In in Hin. rewrite Hin in Hdisj. discriminate.
Qed.

Section Entries.

Context {Placement : Type}.
Variable place : string -> Room -> Placement.

Lemma bought_n_entries n slot_name best room :
  forall (st : @MState Placement) e,
    In e (selected_products (bought_n place n slot_name best room st)) ->
    In e (selected_products st) \/ sel_slot e = slot_name.
Proof.
  induction n as [| n IH]; intros st e He; cbn [bought_n] in He; [now left |].
  apply IH in He as [He | He]; [| now right].
  cbn [bought selected_products] in He.
  apply in_app_or in He as [He | [<- | []]]; [now left | now right].
Qed.

Lemma bought_n_absent n slot_name best room name (st : @MState Placement) :
  slot_name <> name ->
  slot_absent name (selected_products st) ->
  slot_absent name (selected_products (bought_n place n slot_name best room st)).
Proof.
  intros Hname Hst e He.
  apply bought_n_entries in He as [He | ->]; auto.
Qed.

Lemma bought_n_remaining budget_eur n slot_name best room :
  forall st : @MState Placement,
    remaining_budget st == budget_eur - prices_sum (selected_products st) ->
    remaining_budget (bought_n place n slot_name best room st)
    == budget_eur
       - prices_sum (selected_products (bought_n place n slot_name best room st)).
Proof.
  induction n as [| n IH]; intros st Hst; cbn [bought_n]; [exact Hst |].
  apply IH. cbn [bought selected_products remaining_budget].
  rewrite prices_sum_app.
  change (prices_sum [mkSelected slot_name best 1 (place slot_name room)])
    with (price_of best + 0).
  rewrite Hst. ring.
Qed.

End Entries.


(** * Required slots without candidates *)

Section Unmet.

Context {Placement : Type}.
Variable place : string -> Room -> Placement.
Variable url : string.
Variable cat : Catalog.

Lemma required_slot_absent room style tier cfg s s' st :
  In s (room_required room) ->
  In s' (room_required room) ->
  slot_absent (slot s) (selected_products st) ->
  post_if cat (no_candidates_for s)
    (required_slot place room style tier cfg (room_allocations room) s' st)
    (fun st' => slot_absent (slot s) (selected_products st')).
Proof.
  intros Hs Hs' Hst st' Hrun Htr.
  rewrite required_slot_trace in Htr.
  apply required_slot_run in Hrun as [Hz [[_ ->] | (best & Hin & _ & _ & ->)]]; auto.
  destruct (Qeq_bool _ 0) eqn:Hq; [apply Qeq_bool_iff in Hq; contradiction |].
  apply Forall_inv in Htr. unfold no_candidates_for in Htr.
  cbn [fst snd required_query q_categories] in Htr.
  destruct (string_dec (slot s') (slot s)) as [Hname | Hname].
  - destruct (required_slot_names room s' Hs') as [Hsame _].
    rewrite (Hsame s Hs Hname) in Htr.
    rewrite (Htr eq_refl) in Hin. destruct Hin.
  - now apply bought_n_absent.
Qed.

Lemma optional_slot_absent room budget_eur style tier cfg s s' st :
  In s (room_required room) ->
  In s' (room_optional room) ->
  slot_absent (slot s) (selected_products st) ->
  post_if cat (no_candidates_for s)
    (optional_slot place room budget_eur style tier cfg (room_allocations room) s' st)
    (fun st' => slot_absent (slot s) (selected_products st')).
Proof.
  intros Hs Hs' Hst st' Hrun _.
  apply optional_slot_run
    in Hrun as [[_ ->] | [_ [[_ ->] | (best & price & _ & _ & _ & ->)]]]; auto.
  change (bought place (slot s') best room st)
    with (bought_n place 1 (slot s') best room st).
  apply bought_n_absent; auto.
  intros Hname. destruct (required_slot_names room s Hs) as [_ Hdisj].
  apply Hdisj. rewrite <- Hname. now apply in_map.
Qed.

(** A required slot whose queries were all answered with no rows has no
    entry when the loops end. *)
Lemma match_loops_absent room budget_eur tier style s :
  In s (room_required room) ->
  post_if cat (no_candidates_for s)
    (match_loops place room budget_eur tier style)
    (fun st => slot_absent (slot s) (selected_products st)).
Proof.
  intros Hs. apply post_if_match_loops.
  - intros e [].
  - intros cfg s' st _ Hs' Hst. now apply required_slot_absent.
  - intros cfg s' st _ Hs' Hst _. now apply optional_slot_absent.
Qed.

End Unmet.


(** * The floor of optional slots *)

Lemma min_comp (a a' b : Q) : a == a' -> Py.min a b == Py.min a' b.
Proof.
  intros Ha. unfold Py.min.
  destruct (Qle_bool a b) eqn:H1, (Qle_bool a' b) eqn:H2; try lra.
  - apply Qle_bool_iff in H1. rewrite Ha in H1. apply Qle_bool_iff in H1. congruence.
  - apply Qle_bool_iff in H2. rewrite <- Ha in H2. apply Qle_bool_iff in H2. congruence.
Qed.

Section Floor.

Context {Placement : Type}.
Variable place : string -> Room -> Placement.
Variable url : string.
Variable cat : Catalog.

Lemma bought_floor_required room budget_eur slot_name best st :
  ~ In slot_name (map slot (room_optional room)) ->
  floor_invariant room budget_eur st ->
  floor_invariant room budget_eur (bought place slot_name best room st).
Proof.
  intros Hname [Hrem Hfloor]. split.
  - change (bought place slot_name best room st)
      with (bought_n place 1 slot_name best room st).
    now apply bought_n_remaining.
  - intros pre e post Hsplit Hopt. cbn [bought selected_products] in Hsplit.
    apply snoc_split in Hsplit as [(_ & _ & ->) | (post' & _ & Hl)].
    + contradiction.
    + eapply Hfloor; eauto.
Qed.

Lemma bought_n_floor_required room budget_eur slot_name best n :
  ~ In slot_name (map slot (room_optional room)) ->
  forall st,
    floor_invariant room budget_eur st ->
    floor_invariant room budget_eur (bought_n place n slot_name best room st).
Proof.
  intros Hname. induction n as [| n IH]; intros st Hst; cbn [bought_n]; auto.
  apply IH. now apply bought_floor_required.
Qed.

Lemma bought_floor_optional room budget_eur s best st :
  15 <= optional_slot_budget budget_eur (room_allocations room) s st ->
  floor_invariant room budget_eur st ->
  floor_invariant room budget_eur (bought place (slot s) best room st).
Proof.
  intros Hfloor15 [Hrem Hfloor]. split.
  - change (bought place (slot s) best room st)
      with (bought_n place 1 (slot s) best room st).
    now apply bought_n_remaining.
  - intros pre e post Hsplit Hopt. cbn [bought selected_products] in Hsplit.
    apply snoc_split in Hsplit as [(_ & -> & ->) | (post' & _ & Hl)].
    + cbn [sel_slot]. unfold optional_budget_when.
      unfold optional_slot_budget in Hfloor15.
      rewrite <- (min_comp (a := remaining_budget st * 0.4)); [exact Hfloor15 |].
      rewrite Hrem. reflexivity.
    + eapply Hfloor; eauto.
Qed.

Lemma match_loops_floor room budget_eur tier style :
  post cat (match_loops place room budget_eur tier style)
       (floor_invariant room budget_eur).
Proof.
  apply post_match_loops.
  - split.
    + cbn. ring.
    + intros pre e post H. destruct pre; discriminate.
  - intros cfg s st _ Hs Hinv st' Hrun.
    apply required_slot_run in Hrun as [_ [[_ ->] | (best & _ & _ & _ & ->)]]; auto.
    apply bought_n_floor_required; auto.
    now apply required_slot_names in Hs.
  - intros cfg s st _ Hs Hinv _ st' Hrun.
    apply optional_slot_run
      in Hrun as [[_ ->] | [Hfloor [[_ ->] | (best & price & _ & _ & _ & ->)]]]; auto.
    now apply bought_floor_optional.
Qed.

End Floor.


(** * Multi-room distribution *)



Lemma sum_from (xs : list Q) : forall acc, fold_left Qplus xs acc == acc + Py.sum xs.
Proof.
  unfold Py.sum. induction xs as [| x xs IH]; intros acc; cbn [fold_left].
  - ring.
  - rewrite IH, (IH (0 + x)). ring.
Qed.

Lemma sum_cons (x : Q) (xs : list Q) : Py.sum (x :: xs) == x + Py.sum xs.
Proof.
  unfold Py.sum at 1. cbn [fold_left]. rewrite sum_from. ring.
Qed.



Lemma shares_run (cat : Catalog) (W T : Q) (weights : list (string * Q)) :
  ~ W == 0 ->
  run cat (shares weights W T)
  = Ok (map (fun entry => (fst entry, Py.round (snd entry / W * T) 2)) weights).
Proof.
  intros HW. induction weights as [| [rid w] weights IH]; cbn [shares map fst snd].
  - reflexivity.
  - unfold div. destruct (Qeq_bool W 0) eqn:Hq;
      [apply Qeq_bool_iff in Hq; contradiction |].
    cbn [bind]. rewrite run_bind, IH. reflexivity.
Qed.

(** * Determinism *)

(** * Further lemmas *)

(** ** Rounding is monotone and fixes the integers *)

Ltac compare_to_order :=
  match goal with
  | H : Qcompare _ _ = Eq |- _ => apply Qeq_alt in H
  | H : Qcompare _ _ = Lt |- _ => apply Qlt_alt in H
  | H : Qcompare _ _ = Gt |- _ => apply Qgt_alt in H
  end.

Lemma round_half_even_mono (x y : Q) :
  x <= y -> (Py.round_half_even x <= Py.round_half_even y)%Z.
Proof.
  intros Hxy. unfold Py.round_half_even.
  pose proof (Qfloor_resp_le _ _ Hxy) as Hf.
  destruct (Z.eq_dec (Qfloor x) (Qfloor y)) as [E | NE].
  - rewrite <- E.
    destruct (Qcompare (x - inject_Z (Qfloor x)) (1 # 2)) eqn:Cx;
      destruct (Qcompare (y - inject_Z (Qfloor x)) (1 # 2)) eqn:Cy;
      try (destruct (Z.even (Qfloor x)); lia); try lia;
      exfalso; repeat compare_to_order; lra.
  - assert (Qfloor x + 1 <= Qfloor y)%Z by lia.
    destruct (Qcompare (x - inject_Z (Qfloor x)) (1 # 2));
      destruct (Qcompare (y - inject_Z (Qfloor y)) (1 # 2));
      try destruct (Z.even (Qfloor x)); try destruct (Z.even (Qfloor y)); lia.
Qed.

Lemma round_half_even_Z (k : Z) : Py.round_half_even (inject_Z k) = k.
Proof.
  unfold Py.round_half_even. rewrite Qfloor_Z.
  destruct (Qcompare (inject_Z k - inject_Z k) (1 # 2)) eqn:C.
  - compare_to_order. exfalso. lra.
  - reflexivity.
  - compare_to_order. exfalso. lra.
Qed.

Lemma round_scale_pos (n : nat) : 0 < inject_Z (10 ^ Z.of_nat n).
Proof.
  change 0 with (inject_Z 0). rewrite <- Zlt_Qlt.
  apply Z.pow_pos_nonneg; lia.
Qed.

Lemma round_mono (x y : Q) (n : nat) : x <= y -> Py.round x n <= Py.round y n.
Proof.
  intros Hxy. unfold Py.round, Qdiv.
  pose proof (round_scale_pos n) as Hs.
  apply Qmult_le_compat_r.
  - rewrite <- Zle_Qle. apply round_half_even_mono.
    apply Qmult_le_compat_r; [assumption | apply Qlt_le_weak; assumption].
  - apply Qlt_le_weak, Qinv_lt_0_compat; assumption.
Qed.

Lemma round_of_Z (k : Z) (n : nat) : Py.round (inject_Z k) n == inject_Z k.
Proof.
  pose proof (round_scale_pos n) as Hs.
  unfold Py.round.
  rewrite <- inject_Z_mult, round_half_even_Z, inject_Z_mult.
  field. intros E. rewrite E in Hs. apply (Qlt_irrefl 0); assumption.
Qed.

Lemma round_nonneg (x : Q) (n : nat) : 0 <= x -> 0 <= Py.round x n.
Proof.
  intros Hx. rewrite <- (round_of_Z 0 n). apply round_mono; assumption.
Qed.

Lemma round_le_Z (x : Q) (k : Z) (n : nat) :
  x <= inject_Z k -> Py.round x n <= inject_Z k.
Proof.
  intros Hx. rewrite <- (round_of_Z k n). apply round_mono; assumption.
Qed.

(** ** What a row that passes the filters looks like *)

Lemma str_in_true (x : string) (xs : list string) :
  Py.str_in x xs = true -> In x xs.
Proof.
  unfold Py.str_in. rewrite existsb_exists. intros [y [Hy E]].
  apply String.eqb_eq in E. subst. assumption.
Qed.

Lemma opt_str_in_true (o : option string) (xs : list string) :
  opt_str_in o xs = true -> exists s, o = Some s /\ In s xs.
Proof.
  destruct o as [s |]; simpl; [| discriminate].
  intros H. exists s. split; [reflexivity | apply str_in_true; assumption].
Qed.

Lemma row_matches_facts (a : QueryArgs) (p : Product) :
  row_matches a p = true ->
  (forall c cs, q_categories a = Some (c :: cs) -> category_among (c :: cs) p)
  /\ (forall r, q_room a = Some r -> r <> "" -> tagged_for_room r p)
  /\ (forall lo, q_min_price a = Some lo -> exists x, p_price p = Some x /\ lo <= x)
  /\ (forall hi, q_max_price a = Some hi -> exists x, p_price p = Some x /\ x <= hi)
  /\ (forall w, q_max_width a = Some w -> w <> 0%Z -> fits_width w p)
  /\ (q_require_usable_image a = true ->
      p_image_usable p = Some true /\ exists key, p_r2_main_image_key p = Some key)
  /\ (q_require_proportions a = true -> exists x, p_proportion_w_h p = Some x)
  /\ p_in_stock p = Some true
  /\ (forall d ds, q_preferred_sources a = Some (d :: ds) -> source_among (d :: ds) p).
Proof.
  unfold row_matches. intros H.
  apply andb_prop in H; destruct H as [H Fsrc].
  apply andb_prop in H; destruct H as [H Fstock].
  apply andb_prop in H; destruct H as [H Fprop].
  apply andb_prop in H; destruct H as [H Fimg].
  apply andb_prop in H; destruct H as [H Fwidth].
  apply andb_prop in H; destruct H as [H Fmax].
  apply andb_prop in H; destruct H as [H Fmin].
  apply andb_prop in H; destruct H as [H Fstyle].
  apply andb_prop in H; destruct H as [Fcat Froom].
  split; [| split; [| split; [| split; [| split; [| split; [| split; [| split]]]]]]].
  - intros c cs E. rewrite E in Fcat. simpl in Fcat.
    apply orb_prop in Fcat. destruct Fcat as [H' | H'];
      apply opt_str_in_true in H'; destruct H' as [s [Hs Hin]];
      exists s; auto.
  - intros r E Hr. rewrite E in Froom. simpl in Froom.
    destruct (String.eqb r "") eqn:Er; [apply String.eqb_eq in Er; contradiction |].
    simpl in Froom. destruct (p_room_type p) as [v |] eqn:Ev; [| discriminate].
    exists v. auto.
  - intros lo E. rewrite E in Fmin.
    destruct (p_price p) as [x |]; [| discriminate].
    exists x. split; [reflexivity | apply Qle_bool_iff; assumption].
  - intros hi E. rewrite E in Fmax.
    destruct (p_price p) as [x |]; [| discriminate].
    exists x. split; [reflexivity | apply Qle_bool_iff; assumption].
  - intros w E Hw x Ex. rewrite E in Fwidth.
    destruct (w =? 0)%Z eqn:Ew; [apply Z.eqb_eq in Ew; contradiction |].
    rewrite Ex in Fwidth. apply Qle_bool_iff; assumption.
  - intros E. rewrite E in Fimg. apply andb_prop in Fimg. destruct Fimg as [Hu Hk].
    split.
    + destruct (p_image_usable p) as [[|] |]; try discriminate; reflexivity.
    + destruct (p_r2_main_image_key p) as [k |]; [exists k; reflexivity | discriminate].
  - intros E. rewrite E in Fprop.
    destruct (p_proportion_w_h p) as [x |]; [exists x; reflexivity | discriminate].
  - destruct (p_in_stock p) as [[|] |]; try discriminate; reflexivity.
  - intros d ds E. rewrite E in Fsrc. simpl in Fsrc.
    apply opt_str_in_true in Fsrc. destruct Fsrc as [s [Hs Hin]].
    exists s. auto.
Qed.

(** ** Checks on the static tables, read per room and per tier *)

Lemma plan_categories_ok_true : plan_categories_ok = true.
Proof. vm_compute. reflexivity. Qed.

Lemma tier_sources_ok_true : tier_sources_ok = true.
Proof. vm_compute. reflexivity. Qed.

Lemma room_names_ok_true : room_names_ok = true.
Proof. vm_compute. reflexivity. Qed.

Lemma dict_get_default_In {V} (d : list (string * V)) (k : string) (dflt v : V) :
  Py.dict_get d k = Some v -> Py.dict_get_default d k dflt = v.
Proof. unfold Py.dict_get_default. intros E. rewrite E. reflexivity. Qed.

Lemma plan_categories (room : Room) (s : Slot) :
  In s (room_plan room) -> exists c cs, categories s = c :: cs.
Proof.
  unfold room_plan, room_required, room_optional, room_requirements,
    Py.dict_get_default.
  destruct (Py.dict_get ROOM_FURNITURE_REQUIREMENTS (room_type room)) as [req |] eqn:E.
  - intros Hin. apply dict_get_In in E.
    pose proof plan_categories_ok_true as Hok. unfold plan_categories_ok in Hok.
    rewrite forallb_forall in Hok. specialize (Hok _ E). simpl in Hok.
    rewrite forallb_forall in Hok. specialize (Hok _ Hin).
    destruct (categories s) as [| c cs]; [discriminate | eauto].
  - simpl. intros [].
Qed.

Lemma tier_sources (tier : string) (cfg : TierConfig) :
  Py.dict_get BUDGET_TIERS tier = Some cfg ->
  exists d ds, preferred_sources cfg = d :: ds.
Proof.
  intros E. apply dict_get_In in E.
  pose proof tier_sources_ok_true as Hok. unfold tier_sources_ok in Hok.
  rewrite forallb_forall in Hok. specialize (Hok _ E). simpl in Hok.
  destruct (preferred_sources cfg) as [| d ds]; [discriminate | eauto].
Qed.

Lemma planned_room_name (room : Room) (s : Slot) :
  In s (room_plan room) -> room_type room <> "".
Proof.
  unfold room_plan, room_required, room_optional, room_requirements,
    Py.dict_get_default.
  destruct (Py.dict_get ROOM_FURNITURE_REQUIREMENTS (room_type room)) as [req |] eqn:E.
  - intros _ Hname. apply dict_get_In in E.
    pose proof room_names_ok_true as Hok. unfold room_names_ok in Hok.
    rewrite forallb_forall in Hok. specialize (Hok _ E). simpl in Hok.
    rewrite Hname in Hok. discriminate.
  - simpl. intros [].
Qed.

(** ** Every entry stands for a row that a query of its slot answered *)

Section EntryFacts.

Context {Placement : Type}.
Variable place : string -> Room -> Placement.
Variable url : string.
Variable cat : Catalog.

Lemma bought_n_selected n slot_name best room :
  forall st : @MState Placement,
    selected_products (bought_n place n slot_name best room st)
    = (selected_products st
       ++ repeat (mkSelected slot_name best 1 (place slot_name room)) n)%list.
Proof.
  induction n as [| n IH]; intros st; simpl.
  - rewrite app_nil_r. reflexivity.
  - rewrite IH. simpl. rewrite <- app_assoc. reflexivity.
Qed.

(** The two loops as two phases, each with its own invariant. *)
Lemma post_match_loops_phases room budget_eur tier style (I1 I2 : MState -> Prop) :
  I1 (mkState [] budget_eur 0) ->
  (forall cfg s st,
      Py.dict_get BUDGET_TIERS tier = Some cfg ->
      In s (room_required room) -> I1 st ->
      post cat (required_slot place room style tier cfg (room_allocations room) s st) I1) ->
  (forall st, I1 st -> I2 st) ->
  (forall cfg s st,
      Py.dict_get BUDGET_TIERS tier = Some cfg ->
      In s (room_optional room) -> I2 st -> 0 < remaining_budget st ->
      post cat (optional_slot place room budget_eur style tier cfg
                  (room_allocations room) s st) I2) ->
  post cat (match_loops place room budget_eur tier style) I2.
Proof.
  intros H0 Hreq H12 Hopt. rewrite match_loops_unfold.
  destruct (Py.dict_get BUDGET_TIERS tier) as [cfg |] eqn:Htier;
    [| apply post_raise].
  apply post_bind with (P := I1).
  - unfold fill_required.
    apply post_for_each; [intros s st Hs Hst; eapply Hreq; eauto | exact H0].
  - intros st1 Hst1.
    apply post_fill_optional;
      [intros s st Hs Hst Hpos; eapply Hopt; eauto | apply H12; exact Hst1].
Qed.

(** A property of single entries that holds of every row answered to a
    query of a slot holds of every entry the loops leave. *)
Lemma match_loops_entries room budget_eur tier style
    (P : @Selected Placement -> Prop) :
  (forall cfg s b best,
      Py.dict_get BUDGET_TIERS tier = Some cfg ->
      In s (room_required room) ->
      In best (cat (required_query room style cfg s b)) ->
      P (mkSelected (slot s) best 1 (place (slot s) room))) ->
  (forall cfg s b best,
      Py.dict_get BUDGET_TIERS tier = Some cfg ->
      In s (room_optional room) ->
      In best (cat (optional_query room style cfg s b)) ->
      P (mkSelected (slot s) best 1 (place (slot s) room))) ->
  post cat (match_loops place room budget_eur tier style)
       (fun st => Forall P (selected_products st)).
Proof.
  intros Hreq Hopt. apply post_match_loops.
  - constructor.
  - intros cfg s st Htier Hs Hst st' Hrun.
    apply required_slot_run in Hrun as [_ [[_ ->] | (best & Hin & _ & _ & ->)]];
      [exact Hst |].
    rewrite bought_n_selected. apply Forall_app. split; [exact Hst |].
    apply Forall_forall. intros e He. apply repeat_spec in He. subst e.
    eapply Hreq; eauto.
  - intros cfg s st Htier Hs Hst _ st' Hrun.
    apply optional_slot_run
      in Hrun as [[_ ->] | [_ [[_ ->] | (best & price & Hin & _ & _ & ->)]]];
      try exact Hst.
    cbn [bought selected_products]. apply Forall_app. split; [exact Hst |].
    constructor; [| constructor]. eapply Hopt; eauto.
Qed.

End EntryFacts.

(** On a snapshot of the table, every entry passed the filters of the query
    of its slot. *)
Lemma match_loops_passed_filters {Placement : Type}
    (place : string -> Room -> Placement) (table : list Product) (room : Room)
    (budget_eur : Q) (tier : string) (style : option string) :
  post (query_supabase_for_matching_on table)
       (match_loops place room budget_eur tier style)
       (fun st => Forall (passed_filters table room tier) (selected_products st)).
Proof.
  apply match_loops_entries.
  - intros cfg s b best Htier Hs Hin.
    apply query_on_table_In in Hin as [Hin Hrow].
    apply row_matches_facts in Hrow
      as (Hcat & Hroom & _ & _ & Hwidth & Himg & Hprop & Hstock & Hsrc).
    assert (Hplan : In s (room_plan room)) by (apply in_or_app; left; exact Hs).
    destruct (plan_categories _ _ Hplan) as (c & cs & Hcs).
    destruct (tier_sources _ Htier) as (d & ds & Hds).
    unfold passed_filters. cbn [sel_product sel_quantity sel_slot].
    split; [exact Hin |]. split; [reflexivity |].
    split; [split; [exact Hstock | apply Himg; reflexivity] |].
    split; [exists cfg; split; [exact Htier |];
            rewrite Hds; apply Hsrc; cbn; rewrite Hds; reflexivity |].
    split.
    + exists s. split; [exact Hplan |]. split; [reflexivity |]. split.
      * rewrite Hcs. apply Hcat. cbn. rewrite Hcs. reflexivity.
      * intros Hw. apply Hwidth; [reflexivity | exact Hw].
    + intros _. split.
      * apply Hroom; [reflexivity | eapply planned_room_name; eauto].
      * apply Hprop. reflexivity.
  - intros cfg s b best Htier Hs Hin.
    apply query_on_table_In in Hin as [Hin Hrow].
    apply row_matches_facts in Hrow
      as (Hcat & _ & _ & _ & Hwidth & Himg & _ & Hstock & Hsrc).
    assert (Hplan : In s (room_plan room)) by (apply in_or_app; right; exact Hs).
    destruct (plan_categories _ _ Hplan) as (c & cs & Hcs).
    destruct (tier_sources _ Htier) as (d & ds & Hds).
    unfold passed_filters. cbn [sel_product sel_quantity sel_slot].
    split; [exact Hin |]. split; [reflexivity |].
    split; [split; [exact Hstock | apply Himg; reflexivity] |].
    split; [exists cfg; split; [exact Htier |];
            rewrite Hds; apply Hsrc; cbn; rewrite Hds; reflexivity |].
    split.
    + exists s. split; [exact Hplan |]. split; [reflexivity |]. split.
      * rewrite Hcs. apply Hcat. cbn. rewrite Hcs. reflexivity.
      * intros Hw. apply Hwidth; [reflexivity | exact Hw].
    + intros Hreq. exfalso.
      apply in_map_iff in Hreq as (s' & Hname & Hs').
      destruct (required_slot_names _ _ Hs') as [_ Hnot].
      apply Hnot. rewrite Hname. apply in_map. exact Hs.
Qed.

(** The entries of a returned result are the entries the loops left. *)
Lemma result_products {Placement : Type} (place : string -> Room -> Placement)
    (url : string) (cat : Catalog) (room : Room) (budget_eur : Q)
    (tier : string) (style : option string) (r : MatchResult) :
  run cat (match_furniture_for_room place url room budget_eur tier style) = Ok r ->
  exists st,
    run cat (match_loops place room budget_eur tier style) = Ok st
    /\ ~ budget_eur == 0
    /\ products r = selected_products st
    /\ budget_spent r = Py.round (total_spent st) 2
    /\ budget_remaining r = Py.round (remaining_budget st) 2
    /\ budget_utilization_pct r = Py.round (total_spent st / budget_eur * 100) 1
    /\ budget_total r = budget_eur.
Proof.
  intros Hrun. apply match_result_inv in Hrun as (st & Hst & Hz & ->).
  exists st. cbn. repeat split; auto.
Qed.

(** ** Price caps *)

Lemma min_le_r (a b : Q) : Py.min a b <= b.
Proof.
  unfold Py.min. destruct (Qle_bool a b) eqn:E.
  - apply Qle_bool_iff. exact E.
  - apply Qle_refl.
Qed.

Section Caps.

Context {Placement : Type}.
Variable place : string -> Room -> Placement.
Variable url : string.
Variable cat : Catalog.
Hypothesis Hmax : honours_max_price cat.
Hypothesis Hmin : honours_min_price cat.

Lemma bought_n_remaining_le n slot_name best room :
  forall st : @MState Placement,
    0 <= price_of best ->
    remaining_budget (bought_n place n slot_name best room st) <= remaining_budget st.
Proof.
  induction n as [| n IH]; intros st Hp; simpl.
  - apply Qle_refl.
  - eapply Qle_trans; [apply IH; exact Hp |]. cbn [bought remaining_budget]. lra.
Qed.

Lemma required_cap_monotone room budget_eur s r :
  In s (room_required room) ->
  r <= budget_eur ->
  r * snd (required_alloc (room_allocations room) (slot s)) / inject_Z (slot_quantity s)
  <= required_unit_cap room budget_eur s.
Proof.
  intros Hs Hr. apply required_slot_facts in Hs as (Hq & Ha0 & _).
  pose proof (inject_Z_positive Hq) as Hq1.
  unfold required_unit_cap, Qdiv.
  apply Qmult_le_compat_r.
  - apply Qmult_le_compat_r; [exact Hr | apply Qlt_le_weak; exact Ha0].
  - apply Qlt_le_weak, Qinv_lt_0_compat. lra.
Qed.

Lemma match_loops_within_caps room budget_eur tier style :
  post cat (match_loops place room budget_eur tier style)
       (fun st => Forall (within_cap room budget_eur) (selected_products st)).
Proof.
  apply post_match_loops_phases
    with (I1 := fun st => remaining_budget st <= budget_eur
                          /\ Forall (within_cap room budget_eur) (selected_products st)).
  - split; [apply Qle_refl | constructor].
  - intros cfg s st _ Hs [Hr Hall] st' Hrun.
    apply required_slot_run in Hrun as [Hz [[_ ->] | (best & Hin & _ & _ & ->)]];
      [split; assumption |].
    destruct (Hmax _ _ Hin eq_refl) as (x & Hx & Hle).
    destruct (Hmin _ _ Hin eq_refl) as (x' & Hx' & Hge).
    rewrite Hx in Hx'. inversion Hx'; subst x'. clear Hx'.
    assert (Hprice : price_of best = x) by (unfold price_of; now rewrite Hx).
    assert (Hx0 : 0 <= x) by lra.
    split.
    + eapply Qle_trans; [apply bought_n_remaining_le; rewrite Hprice; exact Hx0 |].
      exact Hr.
    + rewrite bought_n_selected. apply Forall_app. split; [exact Hall |].
      apply Forall_forall. intros e He. apply repeat_spec in He. subst e.
      exists x, s. cbn [sel_product sel_slot].
      split; [exact Hx |]. split; [reflexivity |]. left. split; [exact Hs |].
      eapply Qle_trans; [exact Hle |]. apply required_cap_monotone; assumption.
  - intros st [_ Hall]. exact Hall.
  - intros cfg s st _ Hs Hall _ st' Hrun.
    apply optional_slot_run
      in Hrun as [[_ ->] | [_ [[_ ->] | (best & price & Hin & _ & Hx & ->)]]];
      try exact Hall.
    destruct (Hmax _ _ Hin eq_refl) as (x & Hx' & Hle).
    rewrite Hx in Hx'. inversion Hx'; subst x. clear Hx'.
    cbn [bought selected_products]. apply Forall_app. split; [exact Hall |].
    constructor; [| constructor].
    exists price, s. cbn [sel_product sel_slot].
    split; [exact Hx |]. split; [reflexivity |]. right. split; [exact Hs |].
    eapply Qle_trans; [exact Hle |]. unfold optional_slot_budget, optional_item_cap.
    apply min_le_r.
Qed.

(** On a positive budget something positive always remains. *)
Lemma match_loops_remaining_positive room budget_eur tier style :
  0 < budget_eur ->
  post cat (match_loops place room budget_eur tier style)
       (fun st => 0 < remaining_budget st
                  /\ total_spent st + remaining_budget st == budget_eur).
Proof.
  intros Hb st Hrun.
  assert (Hne : ~ budget_eur == 0) by (intros E; rewrite E in Hb; apply (Qlt_irrefl 0 Hb)).
  pose proof (@match_loops_invariant _ place cat Hmax Hmin room budget_eur tier style
                (or_introl Hne) st Hrun) as (Hrem & Hspent & _ & Hpos).
  split.
  - destruct (selected_products st) as [| e l] eqn:E.
    + cbn in Hrem. lra.
    + apply Hpos. discriminate.
  - lra.
Qed.

End Caps.

(** ** The product list follows the plan *)

Section PlanShape.

Context {Placement : Type}.
Variable place : string -> Room -> Placement.
Variable url : string.
Variable cat : Catalog.

Lemma fill_required_blocks room style tier cfg allocs slots :
  forall st st',
    run cat (fill_required place room style tier cfg allocs slots st) = Ok st' ->
    exists blocks,
      selected_products st' = (selected_products st ++ List.concat blocks)%list
      /\ Forall2 (fun s b => slot_block place room (Z.to_nat (slot_quantity s)) s b)
                 slots blocks.
Proof.
  unfold fill_required.
  induction slots as [| s slots IH]; intros st st' Hrun; cbn [for_each] in Hrun.
  - inversion Hrun; subst. exists []. split; [| constructor].
    cbn. rewrite app_nil_r. reflexivity.
  - apply run_bind_ok in Hrun as (st1 & H1 & Hrest).
    apply IH in Hrest as (blocks & Hsel & Hall).
    apply required_slot_run in H1 as [_ [[_ ->] | (best & _ & _ & _ & ->)]].
    + exists ([] :: blocks). split; [exact Hsel |].
      constructor; [left; reflexivity | exact Hall].
    + exists (repeat (mkSelected (slot s) best 1 (place (slot s) room))
                     (Z.to_nat (slot_quantity s)) :: blocks).
      split.
      * rewrite Hsel, bought_n_selected. cbn [List.concat]. rewrite app_assoc. reflexivity.
      * constructor; [right; exists best; reflexivity | exact Hall].
Qed.

Lemma no_blocks (room : Room) (n : nat) (slots : list Slot) :
  List.concat (map (fun _ : Slot => @nil (@Selected Placement)) slots) = []
  /\ Forall2 (fun s b => slot_block place room n s b) slots
             (map (fun _ => []) slots).
Proof.
  induction slots as [| s slots [IH1 IH2]]; cbn.
  - split; constructor.
  - split; [exact IH1 |]. constructor; [left; reflexivity | exact IH2].
Qed.

Lemma fill_optional_blocks room budget_eur style tier cfg allocs slots :
  forall st st',
    run cat (fill_optional place room budget_eur style tier cfg allocs slots st)
    = Ok st' ->
    exists blocks,
      selected_products st' = (selected_products st ++ List.concat blocks)%list
      /\ Forall2 (fun s b => slot_block place room 1 s b) slots blocks.
Proof.
  induction slots as [| s slots IH]; intros st st' Hrun; cbn [fill_optional] in Hrun.
  - inversion Hrun; subst. exists []. split; [| constructor].
    cbn. rewrite app_nil_r. reflexivity.
  - destruct (Qle_bool (remaining_budget st) 0).
    + inversion Hrun; subst.
      destruct (no_blocks room 1 (s :: slots)) as [Hnil Hall].
      eexists. split; [| exact Hall]. rewrite Hnil, app_nil_r. reflexivity.
    + apply run_bind_ok in Hrun as (st1 & H1 & Hrest).
      apply IH in Hrest as (blocks & Hsel & Hall).
      apply optional_slot_run
        in H1 as [[_ ->] | [_ [[_ ->] | (best & price & _ & _ & _ & ->)]]].
      * exists ([] :: blocks). split; [exact Hsel |].
        constructor; [left; reflexivity | exact Hall].
      * exists ([] :: blocks). split; [exact Hsel |].
        constructor; [left; reflexivity | exact Hall].
      * exists ([mkSelected (slot s) best 1 (place (slot s) room)] :: blocks).
        split.
        -- rewrite Hsel. cbn [bought selected_products List.concat].
           rewrite <- app_assoc. reflexivity.
        -- constructor; [right; exists best; reflexivity | exact Hall].
Qed.

Lemma match_loops_blocks room budget_eur tier style st :
  run cat (match_loops place room budget_eur tier style) = Ok st ->
  exists required_blocks optional_blocks,
    selected_products st = (List.concat required_blocks ++ List.concat optional_blocks)%list
    /\ Forall2 (fun s b => slot_block place room (Z.to_nat (slot_quantity s)) s b)
               (room_required room) required_blocks
    /\ Forall2 (fun s b => slot_block place room 1 s b)
               (room_optional room) optional_blocks.
Proof.
  rewrite match_loops_unfold.
  destruct (Py.dict_get BUDGET_TIERS tier) as [cfg |]; [| discriminate].
  intros Hrun. apply run_bind_ok in Hrun as (st1 & H1 & H2).
  apply fill_required_blocks in H1 as (rb & Hsel1 & Hrb).
  apply fill_optional_blocks in H2 as (ob & Hsel2 & Hob).
  exists rb, ob. split; [| split; assumption].
  rewrite Hsel2, Hsel1. reflexivity.
Qed.

End PlanShape.

(** ** Sorting *)

Section SortFacts.

Context {A : Type} (leb : A -> A -> bool).



Hypothesis leb_total : forall a b, leb a b = false -> leb b a = true.
Hypothesis leb_trans :
  forall a b c, leb a b = true -> leb b c = true -> leb a c = true.

Lemma insert_sorted_sorted (x : A) (l : list A) :
  StronglySorted (fun a b => leb a b = true) l ->
  StronglySorted (fun a b => leb a b = true) (insert_sorted leb x l).
Proof.
  induction l as [| y l IH]; intros Hs; simpl.
  - constructor; constructor.
  - apply StronglySorted_inv in Hs as [Hl Hy].
    destruct (leb x y) eqn:E.
    + constructor; [constructor; assumption |].
      constructor; [exact E |].
      eapply Forall_impl; [| exact Hy]. intros z Hz. eapply leb_trans; eauto.
    + constructor; [apply IH; exact Hl |].
      apply Forall_forall. intros z Hz.
      apply insert_sorted_In in Hz as [-> | Hz].
      * apply leb_total. exact E.
      * rewrite Forall_forall in Hy. apply Hy. exact Hz.
Qed.

Lemma stable_sort_sorted (l : list A) :
  StronglySorted (fun a b => leb a b = true) (stable_sort leb l).
Proof.
  induction l as [| x l IH]; simpl.
  - constructor.
  - apply insert_sorted_sorted. exact IH.
Qed.

End SortFacts.

Lemma sorted_firstn {A} (R : A -> A -> Prop) (n : nat) (l : list A) :
  StronglySorted R l -> StronglySorted R (firstn n l).
Proof.
  revert n. induction l as [| x l IH]; intros n Hs.
  - rewrite firstn_nil. constructor.
  - destruct n as [| n]; simpl; [constructor |].
    apply StronglySorted_inv in Hs as [Hl Hx].
    constructor; [apply IH; exact Hl |].
    apply Forall_forall. intros y Hy. apply firstn_subset in Hy.
    rewrite Forall_forall in Hx. apply Hx. exact Hy.
Qed.

Lemma sorted_app {A} (R : A -> A -> Prop) (l1 l2 : list A) :
  StronglySorted R (l1 ++ l2) ->
  forall a b, In a l1 -> In b l2 -> R a b.
Proof.
  induction l1 as [| x l1 IH]; intros Hs a b Ha Hb; [destruct Ha |].
  simpl in Hs. apply StronglySorted_inv in Hs as [Hl Hx].
  destruct Ha as [-> | Ha].
  - rewrite Forall_forall in Hx. apply Hx. apply in_or_app. right. exact Hb.
  - eapply IH; eauto.
Qed.

(** ** The order of the rows a query answers *)

Lemma rating_before_total (a b : Product) :
  rating_before a b = false -> rating_before b a = true.
Proof.
  unfold rating_before.
  destruct (p_rating a) as [x |], (p_rating b) as [y |]; try congruence.
  intros H. apply Qle_bool_iff. apply Qlt_le_weak. apply Qnot_le_lt.
  intros Hle. apply Qle_bool_iff in Hle. congruence.
Qed.

Lemma rating_before_trans (a b c : Product) :
  rating_before a b = true -> rating_before b c = true -> rating_before a c = true.
Proof.
  unfold rating_before.
  destruct (p_rating a) as [x |], (p_rating b) as [y |], (p_rating c) as [z |];
    try congruence.
  intros H1 H2. apply Qle_bool_iff in H1. apply Qle_bool_iff in H2.
  apply Qle_bool_iff. eapply Qle_trans; eauto.
Qed.

Lemma rating_before_refl (a : Product) : rating_before a a = true.
Proof.
  unfold rating_before. destruct (p_rating a) as [x |]; [| reflexivity].
  apply Qle_bool_iff. apply Qle_refl.
Qed.

Lemma query_on_table_sorted (table : list Product) (a : QueryArgs) :
  rating_sorted (query_supabase_for_matching_on table a).
Proof.
  unfold rating_sorted, query_supabase_for_matching_on.
  apply sorted_firstn. apply stable_sort_sorted.
  - exact rating_before_total.
  - exact rating_before_trans.
Qed.

(** ** Truncation *)

Lemma int_floor (x : Q) : 0 <= x -> Py.int x = Qfloor x.
Proof.
  intros Hx. unfold Py.int. destruct x as [n d]. cbn [Qnum Qden Qfloor].
  apply Z.quot_div_nonneg; [| lia].
  unfold Qle in Hx. cbn in Hx. lia.
Qed.

Lemma int_between (lo : Z) (x hi : Q) :
  (0 <= lo)%Z -> inject_Z lo <= x -> x <= hi ->
  (lo <= Py.int x)%Z /\ inject_Z (Py.int x) <= hi.
Proof.
  intros Hlo Hx Hhi.
  assert (H0 : 0 <= x).
  { eapply Qle_trans; [| exact Hx]. change 0 with (inject_Z 0).
    rewrite <- Zle_Qle. exact Hlo. }
  rewrite (int_floor H0). split.
  - rewrite <- (Qfloor_Z lo). apply Qfloor_resp_le. exact Hx.
  - eapply Qle_trans; [apply Qfloor_le | exact Hhi].
Qed.

Lemma int_small (x : Q) : 0 <= x -> x < 1 -> Py.int x = 0%Z.
Proof.
  intros H0 H1. rewrite (int_floor H0).
  pose proof (Qfloor_le x) as Hle. pose proof (Qlt_floor x) as Hlt.
  assert (Ha : (Qfloor x < 1)%Z).
  { rewrite Zlt_Qlt. eapply Qle_lt_trans; [exact Hle | exact H1]. }
  assert (Hb : (0 < Qfloor x + 1)%Z).
  { rewrite Zlt_Qlt. eapply Qle_lt_trans; [exact H0 | exact Hlt]. }
  lia.
Qed.

Lemma min_between (lo a b hi : Q) :
  lo <= a -> lo <= b -> a <= hi -> lo <= Py.min a b /\ Py.min a b <= hi.
Proof.
  intros Ha Hb Hhi. pose proof (min_le_l a b) as Hl.
  unfold Py.min in *. destruct (Qle_bool a b); split; lra.
Qed.

(** ** The weights of rooms in general *)

Lemma dict_get_set {V} (d : list (string * V)) (k k' : string) (v : V) :
  Py.dict_get (Py.dict_set d k v) k'
  = if String.eqb k' k then Some v else Py.dict_get d k'.
Proof.
  induction d as [| [k0 v0] d IH]; cbn [Py.dict_set Py.dict_get].
  - reflexivity.
  - destruct (String.eqb_spec k k0) as [-> | Hne]; cbn [Py.dict_get].
    + destruct (String.eqb k' k0); reflexivity.
    + rewrite IH. destruct (String.eqb_spec k' k0) as [-> | Hne'].
      * destruct (String.eqb_spec k0 k) as [E | _]; [congruence | reflexivity].
      * reflexivity.
Qed.

Lemma dict_set_keys {V} (d : list (string * V)) (k k' : string) (v : V) :
  In k' (map fst (Py.dict_set d k v)) <-> k' = k \/ In k' (map fst d).
Proof.
  induction d as [| [k0 v0] d IH]; cbn [Py.dict_set map fst In].
  - intuition.
  - destruct (String.eqb_spec k k0) as [-> | Hne]; cbn [map fst In].
    + intuition.
    + rewrite IH. intuition.
Qed.

Lemma dict_set_NoDup {V} (d : list (string * V)) (k : string) (v : V) :
  NoDup (map fst d) -> NoDup (map fst (Py.dict_set d k v)).
Proof.
  induction d as [| [k0 v0] d IH]; cbn [Py.dict_set map fst]; intros Hnd.
  - constructor; [intros [] | constructor].
  - destruct (String.eqb_spec k k0) as [-> | Hne]; cbn [map fst]; [exact Hnd |].
    inversion Hnd as [| ? ? Hnot Hnd']; subst.
    constructor; [| apply IH; exact Hnd'].
    rewrite dict_set_keys. intros [E | Hin]; [congruence | contradiction].
Qed.

Lemma dict_set_Forall {V} (P : V -> Prop) (d : list (string * V)) (k : string) (v : V) :
  Forall (fun e => P (snd e)) d -> P v ->
  Forall (fun e => P (snd e)) (Py.dict_set d k v).
Proof.
  induction d as [| [k0 v0] d IH]; cbn [Py.dict_set]; intros Hd Hv.
  - constructor; [exact Hv | constructor].
  - inversion Hd as [| ? ? H0 Hd']; subst.
    destruct (String.eqb k k0).
    + constructor; [exact Hv | exact Hd'].
    + constructor; [exact H0 | apply IH; assumption].
Qed.




Lemma room_weights_keys (rooms : list Room) :
  forall acc,
    NoDup (map fst acc) ->
    NoDup (map fst (room_weights rooms acc))
    /\ forall rid,
         In rid (map fst (room_weights rooms acc))
         <-> In rid (map fst acc) \/ In rid (map room_id rooms).
Proof.
  induction rooms as [| room rooms IH]; intros acc Hnd; cbn [room_weights map In].
  - split; [exact Hnd | intuition].
  - destruct (IH (Py.dict_set acc (room_id room)
                    (Py.dict_get_default ROOM_BUDGET_WEIGHT (room_type room) 0.05
                     * (match estimated_area_sqm room with Some a => a | None => 15 end
                        / 15)))
                 (dict_set_NoDup _ _ _ Hnd)) as [Hnd' Hkeys].
    split; [exact Hnd' |].
    intros rid. rewrite Hkeys, dict_set_keys. intuition.
Qed.

Lemma room_weights_Forall (P : Q -> Prop) (rooms : list Room) :
  forall acc,
    Forall (fun e => P (snd e)) acc ->
    Forall (fun room => P (room_weight room)) rooms ->
    Forall (fun e => P (snd e)) (room_weights rooms acc).
Proof.
  induction rooms as [| room rooms IH]; intros acc Hacc Hrooms; cbn [room_weights].
  - exact Hacc.
  - inversion Hrooms as [| ? ? Hr Hrooms']; subst.
    apply IH; [| exact Hrooms'].
    apply dict_set_Forall; [exact Hacc | exact Hr].
Qed.

Lemma room_weights_nonempty (rooms : list Room) :
  rooms <> [] -> room_weights rooms [] <> [].
Proof.
  intros Hne Hnil. destruct rooms as [| room rooms]; [congruence |].
  destruct (room_weights_keys (room :: rooms) [] (NoDup_nil _)) as [_ Hkeys].
  rewrite Hnil in Hkeys. apply (proj2 (Hkeys (room_id room))).
  right. left. reflexivity.
Qed.


(** ** Sums of weights *)

Lemma sum_nonneg (xs : list Q) : Forall (fun x => 0 <= x) xs -> 0 <= Py.sum xs.
Proof.
  induction 1 as [| x xs Hx _ IH].
  - apply Qle_refl.
  - rewrite sum_cons. lra.
Qed.

Lemma sum_member_le (xs : list Q) (x : Q) :
  Forall (fun y => 0 <= y) xs -> In x xs -> x <= Py.sum xs.
Proof.
  induction 1 as [| y xs Hy Hall IH]; intros Hin; [destruct Hin |].
  rewrite sum_cons. pose proof (sum_nonneg Hall) as Hs.
  destruct Hin as [-> | Hin]; [lra | specialize (IH Hin); lra].
Qed.

Lemma sum_positive (xs : list Q) :
  Forall (fun x => 0 < x) xs -> xs <> [] -> 0 < Py.sum xs.
Proof.
  intros Hall Hne. destruct Hall as [| x xs Hx Hall]; [congruence |].
  rewrite sum_cons.
  assert (0 <= Py.sum xs).
  { apply sum_nonneg. eapply Forall_impl; [| exact Hall].
    intros y Hy. apply Qlt_le_weak. exact Hy. }
  lra.
Qed.

Lemma sum_all_zero (xs : list Q) : Forall (fun x => x == 0) xs -> Py.sum xs == 0.
Proof.
  induction 1 as [| x xs Hx _ IH].
  - reflexivity.
  - rewrite sum_cons, Hx, IH. reflexivity.
Qed.

Lemma base_weights_ok_true : base_weights_ok = true.
Proof. vm_compute. reflexivity. Qed.

Lemma base_weight_positive (room : Room) :
  0 < Py.dict_get_default ROOM_BUDGET_WEIGHT (room_type room) 0.05.
Proof.
  unfold Py.dict_get_default.
  destruct (Py.dict_get ROOM_BUDGET_WEIGHT (room_type room)) as [w |] eqn:E.
  - apply dict_get_In in E.
    pose proof base_weights_ok_true as Hok. unfold base_weights_ok in Hok.
    rewrite forallb_forall in Hok. specialize (Hok _ E). cbn [snd] in Hok.
    unfold Py.Qltb in Hok. apply negb_true_iff in Hok.
    apply Qnot_le_lt. intros Hle. apply Qle_bool_iff in Hle. congruence.
  - reflexivity.
Qed.

Lemma room_weight_positive (room : Room) :
  positive_area room -> 0 < room_weight room.
Proof.
  intros Ha. unfold room_weight. pose proof (base_weight_positive room) as Hb.
  set (base := Py.dict_get_default ROOM_BUDGET_WEIGHT (room_type room) 0.05) in *.
  destruct (estimated_area_sqm room) as [a |] eqn:E.
  - specialize (Ha a E). unfold Qdiv. change (/ 15) with (1 # 15). nra.
  - assert (E15 : 15 / 15 == 1) by reflexivity. rewrite E15. lra.
Qed.

(** ** The amounts of the rooms *)


(** ** Keys of product images *)

Lemma append_inv_head (p a b : string) : (p ++ a = p ++ b)%string -> a = b.
Proof.
  induction p as [| c p IH]; simpl; intros H; [exact H |].
  inversion H. apply IH. assumption.
Qed.

Lemma format_03d_small (i : nat) :
  (i < 10)%nat ->
  format_03d i = String "0" (String "0" (String (ascii_of_nat (48 + i)) EmptyString)).
Proof.
  intros Hi.
  do 10 (destruct i as [| i]; [reflexivity |]). lia.
Qed.

Lemma product_image_key_index (domain product_id : string) (i j : nat)
    (ext ext' : string) :
  (i < 10)%nat -> (j < 10)%nat ->
  product_image_key domain product_id i ext
  = product_image_key domain product_id j ext' ->
  i = j.
Proof.
  intros Hi Hj H. unfold product_image_key in H.
  apply (append_inv_head "products/") in H.
  apply append_inv_head in H. apply (append_inv_head "/") in H.
  apply append_inv_head in H. apply (append_inv_head "/") in H.
  rewrite (format_03d_small Hi), (format_03d_small Hj) in H.
  cbn [String.append] in H. inversion H as [Hc].
  apply (f_equal nat_of_ascii) in Hc.
  rewrite !nat_ascii_embedding in Hc by lia. lia.
Qed.

Section UploadFacts.

Variable R2_PUBLIC_URL : string.
Variable requests_get : string -> option Response.
Variable put_object_succeeds : string -> bool.
Variables product_id domain : string.

Lemma upload_product_image_spec (i : nat) (url : string) (state : Bucket * list string) :
  (i < 10)%nat ->
  uploaded_below product_id domain i state ->
  let state' :=
    upload_product_image R2_PUBLIC_URL requests_get put_object_succeeds
      product_id domain i url state in
  uploaded_below product_id domain (S i) state'
  /\ (exists more, snd state' = (snd state ++ more)%list
                   /\ (List.length more <= 1)%nat)
  /\ forall key, ~ In key (snd state') ->
       Py.dict_get (fst state') key = Py.dict_get (fst state) key.
Proof.
  intros Hi [Hnd Hkeys]. destruct state as [bucket keys]. cbn [fst snd] in *.
  assert (Hsame : uploaded_below product_id domain (S i) (bucket, keys)
                  /\ (exists more, keys = (keys ++ more)%list
                                   /\ (List.length more <= 1)%nat)
                  /\ forall key, ~ In key keys ->
                       Py.dict_get bucket key = Py.dict_get bucket key).
  { split; [| split].
    - split; [exact Hnd |]. intros key Hin. cbn [fst snd] in *.
      destruct (Hkeys key Hin) as [(j & ext & Hj & Hk) Hst].
      split; [exists j, ext; split; [lia | exact Hk] | exact Hst].
    - exists []. rewrite app_nil_r. split; [reflexivity | cbn; lia].
    - reflexivity. }
  unfold upload_product_image.
  destruct (requests_get url) as [resp |]; [| exact Hsame].
  destruct (status_code resp =? 200)%Z; [| exact Hsame].
  set (ct := match content_type resp with Some c => c | None => "" end).
  set (ext := if Py.contains "png" ct then "png"
              else if Py.contains "webp" ct then "webp" else "jpg").
  set (r2_key := product_image_key domain product_id i ext).
  unfold upload_image.
  destruct (put_object_succeeds r2_key); [| exact Hsame].
  cbn [fst snd].
  assert (Hfresh : ~ In r2_key keys).
  { intros Hin. destruct (Hkeys _ Hin) as [(j & ext' & Hj & Hk) _].
    apply product_image_key_index in Hk; lia. }
  split; [| split].
  - split.
    + apply NoDup_app_remove_l with (l := []). cbn [app].
      apply NoDup_Add with (a := r2_key) (l := keys); [| constructor; assumption].
      clear. induction keys as [| k ks IH]; cbn; constructor. exact IH.
    + intros key Hin. cbn [fst snd]. rewrite dict_get_set.
      apply in_app_or in Hin as [Hin | [<- | []]].
      * destruct (Hkeys key Hin) as [(j & ext' & Hj & Hk) (body & ct' & Hst)].
        split; [exists j, ext'; split; [lia | exact Hk] |].
        destruct (String.eqb key r2_key); eauto.
      * split; [exists i, ext; split; [lia | reflexivity] |].
        rewrite String.eqb_refl. eauto.
  - exists [r2_key]. split; [reflexivity | cbn; lia].
  - intros key Hout. rewrite dict_get_set.
    destruct (String.eqb_spec key r2_key) as [-> | _]; [| reflexivity].
    exfalso. apply Hout. apply in_or_app. right. left. reflexivity.
Qed.

Lemma upload_loop_spec (urls : list string) :
  forall (i : nat) (state : Bucket * list string),
    (i + List.length urls <= 10)%nat ->
    uploaded_below product_id domain i state ->
    let state' :=
      upload_loop R2_PUBLIC_URL requests_get put_object_succeeds
        product_id domain i urls state in
    uploaded_below product_id domain (i + List.length urls) state'
    /\ (exists more, snd state' = (snd state ++ more)%list
                     /\ (List.length more <= List.length urls)%nat)
    /\ forall key, ~ In key (snd state') ->
         Py.dict_get (fst state') key = Py.dict_get (fst state) key.
Proof.
  induction urls as [| url urls IH]; intros i state Hlen Hst; cbn [upload_loop].
  - rewrite Nat.add_0_r. split; [exact Hst |]. split; [| reflexivity].
    exists []. rewrite app_nil_r. split; [reflexivity | cbn; lia].
  - cbn [List.length] in Hlen |- *.
    destruct (@upload_product_image_spec i url state ltac:(lia) Hst)
      as (Hst1 & (more1 & Hk1 & Hl1) & Hb1).
    destruct (IH (S i) _ ltac:(lia) Hst1) as (Hst2 & (more2 & Hk2 & Hl2) & Hb2).
    split; [replace (i + S (List.length urls))%nat
              with (S i + List.length urls)%nat by lia; exact Hst2 |].
    split.
    + exists (more1 ++ more2)%list. rewrite Hk2, Hk1, app_assoc.
      split; [reflexivity | rewrite length_app; lia].
    + intros key Hout. rewrite Hb2 by exact Hout. apply Hb1.
      intros Hin. apply Hout. rewrite Hk2. apply in_or_app. left. exact Hin.
Qed.

End UploadFacts.

Section UploadCompleteness.

Variable R2_PUBLIC_URL : string.
Variable requests_get : string -> option Response.
Variable put_object_succeeds : string -> bool.
Variables product_id domain : string.

Lemma upload_loop_grows (urls : list string) :
  forall (i : nat) (state : Bucket * list string) (key : string),
    In key (snd state) ->
    In key (snd (upload_loop R2_PUBLIC_URL requests_get put_object_succeeds
                   product_id domain i urls state)).
Proof.
  induction urls as [| url urls IH]; intros i state key Hin; cbn [upload_loop].
  - exact Hin.
  - apply IH. unfold upload_product_image. destruct state as [bucket keys].
    cbn [snd] in Hin.
    destruct (requests_get url) as [resp |]; [| exact Hin].
    destruct (status_code resp =? 200)%Z; [| exact Hin].
    destruct (upload_image _ _ _ _ _ _) as [[bucket' u] |]; [| exact Hin].
    cbn [snd]. apply in_or_app. left. exact Hin.
Qed.

Lemma upload_loop_complete (urls : list string) :
  forall (i j : nat) (state : Bucket * list string) (url : string) (resp : Response),
    nth_error urls j = Some url ->
    requests_get url = Some resp ->
    status_code resp = 200%Z ->
    put_object_succeeds
      (product_image_key domain product_id (i + j) (response_ext resp)) = true ->
    In (product_image_key domain product_id (i + j) (response_ext resp))
       (snd (upload_loop R2_PUBLIC_URL requests_get put_object_succeeds
               product_id domain i urls state)).
Proof.
  induction urls as [| u urls IH]; intros i j state url resp Hnth Hget Hok Hput;
    [destruct j; discriminate |].
  cbn [upload_loop]. destruct j as [| j]; cbn [nth_error] in Hnth.
  - inversion Hnth; subst u. rewrite Nat.add_0_r in *.
    apply upload_loop_grows.
    unfold upload_product_image. destruct state as [bucket keys].
    rewrite Hget, Hok. cbn [Z.eqb Pos.eqb].
    unfold upload_image. unfold response_ext in Hput. rewrite Hput.
    cbn [snd]. apply in_or_app. right. left. reflexivity.
  - replace (i + S j)%nat with (S i + j)%nat in * by lia.
    eapply IH; eauto.
Qed.

Lemma nth_error_firstn_below {A} (n i : nat) (l : list A) :
  (i < n)%nat -> nth_error (firstn n l) i = nth_error l i.
Proof.
  revert i l. induction n as [| n IH]; intros i l Hi; [lia |].
  destruct l as [| x l]; [destruct i; reflexivity |].
  destruct i as [| i]; cbn; [reflexivity |]. apply IH. lia.
Qed.

End UploadCompleteness.

(** ** The updates of the vision enrichment *)

Section EnrichmentFacts.

Import Enrichment.

Variable json_dumps : Json -> string.

Ltac outcome_step :=
  match goal with
  | H : (let _ := _ in _) = Returns _ |- _ => cbv zeta in H
  | H : and_then ?m _ = Returns _ |- _ =>
      let E := fresh "E" in
      destruct m eqn:E; cbn [and_then] in H; [| discriminate H]
  | H : (if ?c then _ else _) = Returns _ |- _ => destruct c eqn:?
  | H : Raises _ = Returns _ |- _ => discriminate H
  | H : Returns _ = Returns _ |- _ => inversion H; subst; clear H
  end.

Ltac solve_writes :=
  let k := fresh "k" in
  let Hk := fresh "Hk" in
  intros k Hk; unfold dimension_keys, other_keys in Hk; rewrite ?dict_get_set;
  repeat match goal with
         | |- context [String.eqb k ?s] =>
             destruct (String.eqb_spec k s) as [-> | ?];
             [exfalso; apply Hk; simpl; tauto |]
         end;
  reflexivity.

Ltac solve_frame :=
  split; [intros; repeat apply dict_set_NoDup; assumption | solve_writes].

Lemma writes_only_trans (keys keys' : list string) (a b c : Updates) :
  writes_only keys a b -> writes_only keys' b c ->
  writes_only (keys ++ keys') a c.
Proof.
  intros Hab Hbc k Hk. rewrite Hbc, Hab; [reflexivity | |];
    intros Hin; apply Hk; apply in_or_app; auto.
Qed.

Lemma dimensions_frame product vision_data u u' :
  dimensions_updates product vision_data u = Returns u' ->
  (NoDup (map fst u) -> NoDup (map fst u'))
  /\ writes_only dimension_keys u u'.
Proof.
  intros H. unfold dimensions_updates in H. repeat outcome_step; solve_frame.
Qed.

Lemma proportion_frame vision_data u u' :
  proportion_updates vision_data u = Returns u' ->
  (NoDup (map fst u) -> NoDup (map fst u'))
  /\ writes_only ["proportion_w_h"; "proportion_w_d"] u u'.
Proof.
  intros H. unfold proportion_updates in H. repeat outcome_step; solve_frame.
Qed.

Lemma description_frame vision_data u u' :
  description_updates vision_data u = Returns u' ->
  (NoDup (map fst u) -> NoDup (map fst u'))
  /\ writes_only ["visual_description"] u u'.
Proof.
  intros H. unfold description_updates in H. repeat outcome_step; solve_frame.
Qed.

Lemma material_frame product vision_data u u' :
  material_updates product vision_data u = Returns u' ->
  (NoDup (map fst u) -> NoDup (map fst u'))
  /\ writes_only ["primary_material"; "upholstery"; "finish"] u u'.
Proof.
  intros H. unfold material_updates in H. repeat outcome_step; solve_frame.
Qed.

Lemma color_frame product vision_data u u' :
  color_updates product vision_data u = Returns u' ->
  (NoDup (map fst u) -> NoDup (map fst u'))
  /\ writes_only ["color"; "color_hex"; "color_tone"] u u'.
Proof.
  intros H. unfold color_updates in H. repeat outcome_step; solve_frame.
Qed.

Lemma style_frame vision_data u u' :
  style_updates vision_data u = Returns u' ->
  (NoDup (map fst u) -> NoDup (map fst u'))
  /\ writes_only ["style"; "luxury_score"] u u'.
Proof.
  intros H. unfold style_updates in H. repeat outcome_step; solve_frame.
Qed.

Lemma category_frame product vision_data u u' :
  category_updates json_dumps product vision_data u = Returns u' ->
  (NoDup (map fst u) -> NoDup (map fst u'))
  /\ writes_only ["ai_category"; "ai_subcategory"; "suitable_rooms"] u u'.
Proof.
  intros H. unfold category_updates in H. repeat outcome_step; solve_frame.
Qed.

Lemma image_quality_frame vision_data u u' :
  image_quality_updates vision_data u = Returns u' ->
  (NoDup (map fst u) -> NoDup (map fst u'))
  /\ writes_only ["image_type"; "image_usable"] u u'.
Proof.
  intros H. unfold image_quality_updates in H. repeat outcome_step; solve_frame.
Qed.

Lemma vision_updates_steps product vision_data u :
  vision_updates json_dumps product vision_data = Returns u ->
  exists u1 u2 u3 u4 u5 u6 u7 u8,
    dimensions_updates product vision_data [] = Returns u1
    /\ proportion_updates vision_data u1 = Returns u2
    /\ description_updates vision_data u2 = Returns u3
    /\ material_updates product vision_data u3 = Returns u4
    /\ color_updates product vision_data u4 = Returns u5
    /\ style_updates vision_data u5 = Returns u6
    /\ category_updates json_dumps product vision_data u6 = Returns u7
    /\ image_quality_updates vision_data u7 = Returns u8
    /\ u = Py.dict_set
             (Py.dict_set
                (Py.dict_set u8 "vision_data" (JStr (json_dumps vision_data)))
                "vision_enriched" (JBool true))
             "vision_enriched_at" (JStr "now()").
Proof.
  intros H. unfold vision_updates in H. repeat outcome_step.
  do 8 eexists. repeat (split; [first [eassumption | reflexivity] |]). reflexivity.
Qed.

(** What the steps after the first leave alone, and that keys stay
    distinct. *)
Lemma vision_updates_frame product vision_data u :
  vision_updates json_dumps product vision_data = Returns u ->
  exists u1 u7 u8,
    dimensions_updates product vision_data [] = Returns u1
    /\ image_quality_updates vision_data u7 = Returns u8
    /\ writes_only other_keys u1 u
    /\ writes_only ["image_type"; "image_usable"] u7 u8
    /\ Py.dict_get u7 "image_usable" = None
    /\ Py.dict_get u "image_usable" = Py.dict_get u8 "image_usable"
    /\ NoDup (map fst u)
    /\ Py.dict_get u "vision_enriched" = Some (JBool true)
    /\ Py.dict_get u "vision_data" = Some (JStr (json_dumps vision_data)).
Proof.
  intros H.
  apply vision_updates_steps in H
    as (u1 & u2 & u3 & u4 & u5 & u6 & u7 & u8
        & H1 & H2 & H3 & H4 & H5 & H6 & H7 & H8 & ->).
  pose proof (dimensions_frame _ _ _ H1) as [N1 W1].
  pose proof (proportion_frame _ _ H2) as [N2 W2].
  pose proof (description_frame _ _ H3) as [N3 W3].
  pose proof (material_frame _ _ _ H4) as [N4 W4].
  pose proof (color_frame _ _ _ H5) as [N5 W5].
  pose proof (style_frame _ _ H6) as [N6 W6].
  pose proof (category_frame _ _ _ H7) as [N7 W7].
  pose proof (image_quality_frame _ _ H8) as [N8 W8].
  exists u1, u7, u8.
  split; [exact H1 |]. split; [exact H8 |]. split; [| split; [exact W8 |]].
  - intros k Hk. unfold other_keys in Hk. rewrite !dict_get_set.
    repeat match goal with
           | |- context [String.eqb k ?s] =>
               destruct (String.eqb_spec k s) as [-> | ?];
               [exfalso; apply Hk; simpl; tauto |]
           end.
    rewrite W8, W7, W6, W5, W4, W3, W2; [reflexivity | | | | | | |];
      intros Hin; apply Hk; simpl in Hin |- *; tauto.
  - split.
    + rewrite W7, W6, W5, W4, W3, W2, W1; [reflexivity | | | | | | |];
        unfold dimension_keys; simpl; intros Hin;
        repeat (destruct Hin as [Hin | Hin]; [discriminate Hin |]); exact Hin.
    + split; [rewrite !dict_get_set; reflexivity |].
      split; [repeat apply dict_set_NoDup; auto 10 using NoDup_nil |].
      split; rewrite !dict_get_set; reflexivity.
Qed.



Lemma dict_get_absent {V} (d : list (string * V)) (k : string) :
  ~ In k (map fst d) -> Py.dict_get d k = None.
Proof.
  induction d as [| [k0 v0] d IH]; cbn [map fst In Py.dict_get]; intros Hk.
  - reflexivity.
  - destruct (String.eqb_spec k k0) as [-> | _]; [exfalso; auto |].
    apply IH. auto.
Qed.

Lemma updated_row_get (updates : Updates) :
  forall (product : list (string * Json)) (k : string),
    NoDup (map fst updates) ->
    Py.dict_get (updated_row product updates) k
    = match Py.dict_get updates k with
      | Some v => Some v
      | None => Py.dict_get product k
      end.
Proof.
  unfold updated_row.
  induction updates as [| [k0 v0] updates IH]; intros product k Hnd;
    cbn [fold_left Py.dict_get fst snd].
  - reflexivity.
  - cbn [map fst] in Hnd. inversion Hnd as [| ? ? Hnot Hnd']; subst.
    rewrite IH by exact Hnd'. rewrite dict_get_set.
    destruct (String.eqb_spec k k0) as [-> | _]; [| reflexivity].
    rewrite dict_get_absent by exact Hnot. reflexivity.
Qed.

Lemma get_then_item (v a a0 : Json) (k : string) :
  get v k = Returns a -> truthy a = true -> item v k = Returns a0 -> a0 = a.
Proof.
  unfold get, get_default, item, Py.dict_get_default.
  destruct v; try discriminate.
  destruct (Py.dict_get fields k); intros Hg Ht Hi.
  - inversion Hg; inversion Hi; subst. reflexivity.
  - inversion Hg; subst. discriminate Ht.
Qed.

Lemma image_usable_written vision_data u7 u8 :
  image_quality_updates vision_data u7 = Returns u8 ->
  Py.dict_get u7 "image_usable" = None ->
  exists section,
    get vision_data "image_quality" = Returns section
    /\ (truthy section = false -> Py.dict_get u8 "image_usable" = None)
    /\ (truthy section = true ->
        exists v,
          get_default section "usable_for_reference" (JBool false) = Returns v
          /\ Py.dict_get u8 "image_usable" = Some v).
Proof.
  intros H Hnone. unfold image_quality_updates in H.
  destruct (get vision_data "image_quality") as [section |] eqn:Eg;
    cbn [and_then] in H; [| discriminate H].
  exists section. split; [reflexivity |].
  destruct (truthy section) eqn:Ht.
  - split; [discriminate |]. intros _.
    destruct (item vision_data "image_quality") as [iq |] eqn:Ei;
      cbn [and_then] in H; [| discriminate H].
    pose proof (get_then_item _ _ Eg Ht Ei) as ->.
    repeat outcome_step.
    eexists. split; [first [eassumption | reflexivity] |].
    rewrite dict_get_set. reflexivity.
  - inversion H; subst. split; [intros _; exact Hnone | discriminate].
Qed.

Lemma category_without_name_raises product vision_data cv u6 :
  get vision_data "category_verification" = Returns (JObj cv) ->
  cv <> [] ->
  Py.dict_get cv "detected_category" = None ->
  py_eq JNull (row_get product "category") = false ->
  category_updates json_dumps product vision_data u6
  = Raises (KeyError "detected_category").
Proof.
  intros Hg Hne Hmiss Hcat. unfold category_updates. rewrite Hg. cbn [and_then].
  assert (Ht : truthy (JObj cv) = true) by (destruct cv; [congruence | reflexivity]).
  rewrite Ht.
  destruct (item vision_data "category_verification") as [cv' | e] eqn:Ei.
  - pose proof (get_then_item _ _ Hg Ht Ei) as ->. cbn [and_then].
    unfold get, get_default, Py.dict_get_default. rewrite Hmiss. cbn [and_then].
    rewrite Hcat. cbn [negb]. unfold item. rewrite Hmiss. reflexivity.
  - exfalso. unfold get, get_default, item, Py.dict_get_default in *.
    destruct vision_data; try discriminate.
    destruct (Py.dict_get fields "category_verification"); [discriminate |].
    inversion Hg.
Qed.

End EnrichmentFacts.

(** ** Dimensions in the updates of the enrichment *)


(** ** Buy links and the spent total *)

Lemma prices_sum_as_sum {Placement : Type} (l : list (@Selected Placement)) :
  prices_sum l == Py.sum (map (fun e => price_of (sel_product e)) l).
Proof.
  induction l as [| e l IH]; cbn [prices_sum fold_right map].
  - reflexivity.
  - rewrite sum_cons. fold (prices_sum l). rewrite IH. reflexivity.
Qed.

Lemma row_matches_style (a : QueryArgs) (p : Product) (s v : string) :
  row_matches a p = true ->
  q_style a = Some s -> s <> "" -> p_style p = Some v ->
  Sql.ilike ("%" ++ s ++ "%") v = true.
Proof.
  unfold row_matches. intros H Hs Hne Hv.
  do 7 (apply andb_prop in H; destruct H as [H _]).
  apply andb_prop in H. destruct H as [_ H].
  rewrite Hs, Hv in H. cbn [Py.truthy_str] in H.
  destruct (String.eqb_spec s "") as [E | _]; [contradiction | exact H].
Qed.

(** ** Queries per slot *)

Section QueryCount.

Context {Placement : Type}.
Variable place : string -> Room -> Placement.
Variable url : string.
Variable cat : Catalog.

Lemma trace_for_each_bound {X S} (xs : list X) (body : X -> S -> Prog S) :
  (forall x st, (List.length (trace cat (body x st)) <= 1)%nat) ->
  forall st, (List.length (trace cat (for_each xs body st)) <= List.length xs)%nat.
Proof.
  intros Hbody. induction xs as [| x xs IH]; intros st; cbn [for_each].
  - cbn. lia.
  - rewrite trace_bind, length_app. specialize (Hbody x st).
    destruct (run cat (body x st)) as [st' | e]; cbn [List.length].
    + specialize (IH st'). lia.
    + lia.
Qed.

Lemma required_slot_trace_bound room style tier cfg allocs s (st : @MState Placement) :
  (List.length (trace cat (required_slot place room style tier cfg allocs s st)) <= 1)%nat.
Proof.
  rewrite required_slot_trace. destruct (Qeq_bool _ 0); cbn; lia.
Qed.

Lemma optional_slot_trace_bound room budget_eur style tier cfg allocs s
    (st : @MState Placement) :
  (List.length (trace cat (optional_slot place room budget_eur style tier cfg allocs s st))
   <= 1)%nat.
Proof.
  rewrite optional_slot_trace. destruct (Py.Qltb _ 15); cbn; lia.
Qed.

Lemma fill_optional_trace_bound room budget_eur style tier cfg allocs slots :
  forall st : @MState Placement,
    (List.length
       (trace cat (fill_optional place room budget_eur style tier cfg allocs slots st))
     <= List.length slots)%nat.
Proof.
  induction slots as [| s slots IH]; intros st; cbn [fill_optional].
  - cbn. lia.
  - destruct (Qle_bool (remaining_budget st) 0); [cbn; lia |].
    rewrite trace_bind, length_app.
    pose proof (optional_slot_trace_bound room budget_eur style tier cfg allocs s st).
    destruct (run cat (optional_slot place room budget_eur style tier cfg allocs s st))
      as [st' | e]; cbn [List.length].
    + specialize (IH st'). lia.
    + lia.
Qed.

Lemma match_trace_bound room budget_eur tier style :
  (List.length
     (trace cat (match_furniture_for_room place url room budget_eur tier style))
   <= List.length (room_plan room))%nat.
Proof.
  rewrite match_trace, match_loops_unfold. unfold room_plan. rewrite length_app.
  destruct (Py.dict_get BUDGET_TIERS tier) as [cfg |]; [| cbn; lia].
  rewrite trace_bind, length_app.
  pose proof (trace_for_each_bound (room_required room)
                (required_slot place room style tier cfg (room_allocations room))
                (fun s st => required_slot_trace_bound room style tier cfg
                               (room_allocations room) s st)
                (mkState [] budget_eur 0)) as Hreq.
  unfold fill_required.
  destruct (run cat (for_each (room_required room) _ _)) as [st1 | e];
    cbn [List.length].
  - pose proof (fill_optional_trace_bound room budget_eur style tier cfg
                  (room_allocations room) (room_optional room) st1). lia.
  - lia.
Qed.

Lemma match_query_limits room budget_eur tier style :
  queries cat (match_furniture_for_room place url room budget_eur tier style)
    (fun q => (q_limit q <= 5)%nat /\ q_require_usable_image q = true).
Proof.
  set (T := fun q => (q_limit q <= 5)%nat /\ q_require_usable_image q = true).
  assert (Hloops : queries cat (match_loops place room budget_eur tier style) T).
  { rewrite match_loops_unfold.
    destruct (Py.dict_get BUDGET_TIERS tier) as [cfg |]; [| constructor].
    apply queries_bind.
    - unfold fill_required. apply queries_for_each. intros s st Hs.
      unfold queries. rewrite required_slot_trace.
      destruct (Qeq_bool _ _); constructor; [| constructor].
      split; [cbn; lia | reflexivity].
    - intros st1 _. apply queries_fill_optional. intros s st Hs Hr.
      unfold queries. rewrite optional_slot_trace.
      destruct (Py.Qltb _ 15); constructor; [| constructor].
      split; [cbn; lia | reflexivity]. }
  unfold queries in *. now rewrite match_trace.
Qed.

End QueryCount.

(** ** The row [save_product] upserts *)

Section UpsertFacts.

Import Enrichment.

Lemma filter_keys_NoDup {V} (f : string * V -> bool) (d : list (string * V)) :
  NoDup (map fst d) -> NoDup (map fst (filter f d)).
Proof.
  induction d as [| e d IH]; cbn [filter map]; intros Hnd; [constructor |].
  inversion Hnd as [| ? ? Hnot Hnd']; subst.
  destruct (f e); cbn [map]; [| apply IH; exact Hnd'].
  constructor; [| apply IH; exact Hnd'].
  intros Hin. apply Hnot. apply in_map_iff in Hin as (e' & He & Hin).
  apply filter_In in Hin as [Hin _]. apply in_map_iff. exists e'. auto.
Qed.

Lemma dict_get_not_null (d : list (string * Json)) (k : string) :
  NoDup (map fst d) ->
  Py.dict_get (filter not_null d) k
  = match Py.dict_get d k with
    | Some JNull => None
    | other => other
    end.
Proof.
  induction d as [| [k0 v0] d IH]; cbn [filter map fst Py.dict_get]; intros Hnd.
  - reflexivity.
  - inversion Hnd as [| ? ? Hnot Hnd']; subst.
    destruct (String.eqb_spec k k0) as [-> | Hne].
    + unfold not_null at 1. cbn [snd].
      destruct v0; cbn [Py.dict_get]; rewrite ?String.eqb_refl; try reflexivity.
      apply dict_get_absent. intros Hin. apply Hnot.
      apply in_map_iff in Hin as (e' & He & Hin).
      apply filter_In in Hin as [Hin _]. apply in_map_iff. exists e'. auto.
    + destruct (not_null (k0, v0)); cbn [Py.dict_get].
      * destruct (String.eqb_spec k k0) as [E | _]; [contradiction |].
        apply IH. exact Hnd'.
      * apply IH. exact Hnd'.
Qed.

Lemma updated_row_Forall (P : Json -> Prop) (updates : Updates) :
  forall row : list (string * Json),
    Forall (fun e => P (snd e)) row ->
    Forall (fun e => P (snd e)) updates ->
    Forall (fun e => P (snd e)) (updated_row row updates).
Proof.
  unfold updated_row.
  induction updates as [| [k v] updates IH]; intros row Hrow Hup; cbn [fold_left].
  - exact Hrow.
  - inversion Hup as [| ? ? Hv Hup']; subst.
    apply IH; [| exact Hup'].
    apply dict_set_Forall; [exact Hrow | exact Hv].
Qed.

End UpsertFacts.

(** ** Answers in the trace *)

Lemma trace_answers {A} (cat : Catalog) (m : Prog A) :
  Forall (fun ev => snd ev = cat (fst ev)) (trace cat m).
Proof.
  induction m as [a | e | q k IH]; cbn [trace]; constructor.
  - reflexivity.
  - apply IH.
Qed.

(** * Patterns *)

Lemma like_percent_step (pattern value : string) :
  Sql.like (String "%" pattern) value
  = Sql.like pattern value
    || match value with
       | EmptyString => false
       | String _ value' => Sql.like (String "%" pattern) value'
       end.
Proof. destruct value; reflexivity. Qed.

Lemma like_literal_step (c : ascii) (pattern value : string) :
  Sql.wildcard c = false ->
  Sql.like (String c pattern) value
  = match value with
    | EmptyString => false
    | String d value' => Ascii.eqb c d && Sql.like pattern value'
    end.
Proof.
  unfold Sql.wildcard. cbn [existsb]. intros H.
  apply orb_false_elim in H as [H1 H]. apply orb_false_elim in H as [H2 H].
  apply orb_false_elim in H as [H3 _].
  cbn [Sql.like]. rewrite H1, H2, H3. reflexivity.
Qed.

Lemma like_any (value : string) : Sql.like "%" value = true.
Proof.
  induction value as [| d value IH]; rewrite like_percent_step.
  - reflexivity.
  - rewrite IH. apply orb_true_r.
Qed.

Lemma plain_cons (c : ascii) (s : string) :
  Sql.plain (String c s) = negb (Sql.wildcard c) && Sql.plain s.
Proof. reflexivity. Qed.

(** A text without wildcards, followed by [%], matches the values it is a
    prefix of. *)
Lemma like_prefix (text value : string) :
  Sql.plain text = true ->
  Sql.like (text ++ "%") value = String.prefix text value.
Proof.
  revert value. induction text as [| c text IH]; intros value Hplain.
  - cbn [append]. rewrite like_any. destruct value; reflexivity.
  - rewrite plain_cons in Hplain. apply andb_prop in Hplain as [Hc Hplain].
    apply negb_true_iff in Hc.
    cbn [append]. rewrite like_literal_step by exact Hc.
    destruct value as [| d value]; [reflexivity |].
    cbn [String.prefix]. rewrite IH by exact Hplain.
    destruct (ascii_dec c d) as [-> | Hne].
    + rewrite Ascii.eqb_refl. reflexivity.
    + apply Ascii.eqb_neq in Hne. rewrite Hne. reflexivity.
Qed.

(** Between two [%] it matches the values it is a part of. *)
Lemma like_contains (text value : string) :
  Sql.plain text = true ->
  Sql.like ("%" ++ text ++ "%") value = Py.contains text value.
Proof.
  intros Hplain. change ("%" ++ text ++ "%") with (String "%" (text ++ "%")).
  induction value as [| d value IH]; rewrite like_percent_step, like_prefix by exact Hplain.
  - cbn [Py.contains]. destruct (String.prefix text ""); reflexivity.
  - cbn [Py.contains]. rewrite IH.
    destruct (String.prefix text (String d value)); reflexivity.
Qed.

Lemma lower_ascii_wildcard (c : ascii) :
  Sql.wildcard (Py.lower_ascii c) = Sql.wildcard c.
Proof.
  destruct c as [[|] [|] [|] [|] [|] [|] [|] [|]]; vm_compute; reflexivity.
Qed.

Lemma lower_plain (s : string) : Sql.plain (Py.lower s) = Sql.plain s.
Proof.
  induction s as [| c s IH]; [reflexivity |].
  cbn [Py.lower]. rewrite !plain_cons, lower_ascii_wildcard, IH. reflexivity.
Qed.

Lemma lower_app (s t : string) : Py.lower (s ++ t) = Py.lower s ++ Py.lower t.
Proof.
  induction s as [| c s IH]; [reflexivity |].
  cbn [append Py.lower]. rewrite IH. reflexivity.
Qed.

Lemma star_to_percent_app (s t : string) :
  Sql.star_to_percent (s ++ t) = Sql.star_to_percent s ++ Sql.star_to_percent t.
Proof.
  induction s as [| c s IH]; [reflexivity |].
  cbn [append Sql.star_to_percent]. rewrite IH. reflexivity.
Qed.

Lemma star_to_percent_plain (s : string) :
  Sql.plain s = true -> Sql.star_to_percent s = s.
Proof.
  induction s as [| c s IH]; [reflexivity |].
  rewrite plain_cons. intros H. apply andb_prop in H as [Hc Hs].
  cbn [Sql.star_to_percent]. rewrite (IH Hs).
  destruct (Ascii.eqb c "*") eqn:E; [| reflexivity].
  apply Ascii.eqb_eq in E. subst c. discriminate Hc.
Qed.

(** For a text without wildcards the pattern [%text%] is the substring
    test, case ignored. *)
Lemma ilike_plain (text value : string) :
  Sql.plain text = true ->
  Sql.ilike ("%" ++ text ++ "%") value
  = Py.contains (Py.lower text) (Py.lower value).
Proof.
  intros Hplain. unfold Sql.ilike.
  rewrite !star_to_percent_app, (star_to_percent_plain _ Hplain).
  rewrite !lower_app.
  change (Py.lower (Sql.star_to_percent "%")) with "%".
  apply like_contains. rewrite lower_plain. exact Hplain.
Qed.

(** * The score of the code and the score of the table *)

Example ilike_wildcards :
  Sql.ilike "%mid_century%" "Mid-Century Modern" = true
  /\ Sql.ilike "%mid\_century%" "Mid-Century Modern" = false
  /\ Sql.ilike "%mod*n%" "Scandinavian, modern" = true
  /\ Sql.ilike "%living room%" "Bedroom; LIVING ROOM" = true
  /\ Sql.ilike "%living room%" "livingroom" = false.
Proof. repeat split; vm_compute; reflexivity. Qed.

Lemma Qle_bool_false (a b : Q) : b < a -> Qle_bool a b = false.
Proof.
  intros H. destruct (Qle_bool a b) eqn:E; [| reflexivity].
  apply Qle_bool_iff in E. lra.
Qed.

Lemma zero_ratio (x t : Q) : x == 0 -> x / t == 0.
Proof. intros H. rewrite H. unfold Qdiv. apply Qmult_0_l. Qed.

(** On a candidate whose tested fields are null or truthy the scoring loop
    adds up the points of the table. *)
Lemma score_table_score (c : Product) (target_price : Q) (tier : string) :
  signals_truthy c = true ->
  score c target_price tier = table_score c target_price tier.
Proof.
  unfold signals_truthy. intros H.
  apply andb_prop in H as [H Hlux]. apply andb_prop in H as [H Hprop].
  apply andb_prop in H as [Himg Hwidth].
  unfold score, table_score. cbv zeta.
  repeat match goal with
         | |- (?a + ?b = ?c + ?d)%Z => apply (f_equal2 Z.add)
         end.
  - destruct (p_price c) as [x |]; [| reflexivity].
    cbn [Py.truthy_num].
    destruct (Qeq_bool target_price 0) eqn:Et;
      [rewrite andb_false_r; reflexivity |].
    destruct (Qeq_bool x 0) eqn:Ex; [| reflexivity].
    cbn [negb andb]. apply Qeq_bool_iff in Ex.
    pose proof (zero_ratio target_price Ex) as Hr.
    rewrite (@Qle_bool_false 0.6 (x / target_price)) by (rewrite Hr; reflexivity).
    rewrite (@Qle_bool_false 0.4 (x / target_price)) by (rewrite Hr; reflexivity).
    unfold Py.Qltb.
    assert (Hle : Qle_bool (x / target_price) 0.8 = true)
      by (apply Qle_bool_iff; rewrite Hr; discriminate).
    rewrite Hle. cbn [negb andb]. rewrite andb_false_r. reflexivity.
  - destruct (p_r2_main_image_key c) as [key |]; [| reflexivity].
    cbn [Py.truthy_str]. rewrite Himg. reflexivity.
  - destruct (opt_str_in _ _); [reflexivity |].
    destruct (p_width_cm c) as [w |]; [| reflexivity]. rewrite Hwidth. reflexivity.
  - destruct (p_visual_description c) as [d |]; [| reflexivity].
    cbn [Py.truthy_str]. destruct (String.eqb d ""); reflexivity.
  - destruct (p_proportion_w_h c) as [w |]; [| reflexivity]. rewrite Hprop. reflexivity.
  - destruct (p_luxury_score c) as [l |]; [| reflexivity]. rewrite Hlux.
    destruct (String.eqb tier "luxury" && Py.Qltb 0.7 l); [reflexivity |].
    destruct (String.eqb tier "budget" && Py.Qltb l 0.3); reflexivity.
  - destruct (p_rating c) as [x |]; [| reflexivity]. cbn [Py.truthy_num].
    destruct (Qeq_bool x 0) eqn:Ex; [| reflexivity].
    apply Qeq_bool_iff in Ex. cbn [negb andb].
    rewrite (@Qle_bool_false 4.0 x) by (rewrite Ex; reflexivity). reflexivity.
Qed.

(** * The state in which a query is issued *)

Section ReachedFacts.

Context {Placement : Type}.
Variable place : string -> Room -> Placement.
Variable url : string.
Variable cat : Catalog.

(** An event of a loop is an event of one iteration, run from the state the
    iterations before it returned. *)
Lemma trace_for_each_In {X S} (xs : list X) (body : X -> S -> Prog S)
    (ev : QueryArgs * list Product) :
  forall st0,
    In ev (trace cat (for_each xs body st0)) ->
    exists before x after st,
      xs = (before ++ x :: after)%list
      /\ run cat (for_each before body st0) = Ok st
      /\ In ev (trace cat (body x st)).
Proof.
  induction xs as [| x xs IH]; intros st0 Hin; cbn [for_each] in Hin.
  - destruct Hin.
  - rewrite trace_bind in Hin. apply in_app_or in Hin as [Hin | Hin].
    + exists [], x, xs, st0. repeat split; auto.
    + destruct (run cat (body x st0)) as [st1 |] eqn:Hrun; [| destruct Hin].
      destruct (IH st1 Hin) as (before & y & after & st & -> & Hbefore & Hev).
      exists (x :: before), y, after, st. repeat split; auto.
      cbn [for_each]. rewrite run_bind, Hrun. exact Hbefore.
Qed.

Lemma trace_fill_optional_In room budget_eur style tier cfg allocs slots
    (ev : QueryArgs * list Product) :
  forall st0,
    In ev (trace cat (fill_optional place room budget_eur style tier cfg allocs
                        slots st0)) ->
    exists before s after st,
      slots = (before ++ s :: after)%list
      /\ run cat (fill_optional place room budget_eur style tier cfg allocs
                    before st0) = Ok st
      /\ 0 < remaining_budget st
      /\ In ev (trace cat (optional_slot place room budget_eur style tier cfg
                             allocs s st)).
Proof.
  induction slots as [| s slots IH]; intros st0 Hin; cbn [fill_optional] in Hin.
  - destruct Hin.
  - destruct (Qle_bool (remaining_budget st0) 0) eqn:Hbreak; [destruct Hin |].
    assert (Hpos : 0 < remaining_budget st0).
    { apply Qnot_le_lt. intros H. apply Qle_bool_iff in H. congruence. }
    rewrite trace_bind in Hin. apply in_app_or in Hin as [Hin | Hin].
    + exists [], s, slots, st0. repeat split; auto.
    + destruct (run cat (optional_slot place room budget_eur style tier cfg allocs
                           s st0)) as [st1 |] eqn:Hrun; [| destruct Hin].
      destruct (IH st1 Hin) as (before & y & after & st & -> & Hbefore & Hst & Hev).
      exists (s :: before), y, after, st. repeat split; auto.
      cbn [fill_optional]. rewrite Hbreak, run_bind, Hrun. exact Hbefore.
Qed.

(** Every query of a match is the query of one iteration of one of the two
    loops, issued in the state in which the loop reaches the slot. *)
Lemma match_trace_reached room budget_eur tier style (ev : QueryArgs * list Product) :
  In ev (trace cat (match_furniture_for_room place url room budget_eur tier style)) ->
  exists cfg s st,
    Py.dict_get BUDGET_TIERS tier = Some cfg
    /\ ((required_slot_reached place cat room budget_eur tier style cfg s st
         /\ In ev (trace cat (required_slot place room style tier cfg
                                (room_allocations room) s st)))
        \/ (optional_slot_reached place cat room budget_eur tier style cfg s st
            /\ In ev (trace cat (optional_slot place room budget_eur style tier cfg
                                   (room_allocations room) s st)))).
Proof.
  rewrite match_trace, match_loops_unfold.
  destruct (Py.dict_get BUDGET_TIERS tier) as [cfg |]; [| intros []].
  rewrite trace_bind. intros Hin. apply in_app_or in Hin as [Hin | Hin].
  - unfold fill_required in Hin.
    apply trace_for_each_In in Hin as (before & s & after & st & Hsplit & Hrun & Hev).
    exists cfg, s, st. split; [reflexivity |]. left. split; [| exact Hev].
    exists before, after. split; [exact Hsplit | exact Hrun].
  - destruct (run cat (fill_required _ _ _ _ _ _ _ _)) as [st1 |] eqn:Hreq;
      [| destruct Hin].
    apply trace_fill_optional_In
      in Hin as (before & s & after & st & Hsplit & Hrun & Hpos & Hev).
    exists cfg, s, st. split; [reflexivity |]. right. split; [| exact Hev].
    exists st1, before, after. repeat split; auto.
Qed.

(** The state in which a slot is reached accounts for the budget: what
    remains is the budget less the prices of the entries bought so far. *)
Lemma required_slot_accounts room budget_eur style tier cfg allocs s :
  forall st,
    remaining_budget st == budget_eur - prices_sum (selected_products st) ->
    post cat (required_slot place room style tier cfg allocs s st)
      (fun st' => remaining_budget st'
                  == budget_eur - prices_sum (selected_products st')).
Proof.
  intros st Hst st' Hrun.
  apply required_slot_run in Hrun as [_ [[_ ->] | (best & _ & _ & _ & ->)]]; auto.
  now apply bought_n_remaining.
Qed.

Lemma optional_slot_accounts room budget_eur style tier cfg allocs s :
  forall st,
    remaining_budget st == budget_eur - prices_sum (selected_products st) ->
    post cat (optional_slot place room budget_eur style tier cfg allocs s st)
      (fun st' => remaining_budget st'
                  == budget_eur - prices_sum (selected_products st')).
Proof.
  intros st Hst st' Hrun.
  apply optional_slot_run
    in Hrun as [[_ ->] | [_ [[_ ->] | (best & price & _ & _ & _ & ->)]]]; auto.
  change (bought place (slot s) best room st)
    with (bought_n place 1 (slot s) best room st).
  now apply bought_n_remaining.
Qed.

Lemma fill_required_accounts room budget_eur style tier cfg allocs slots :
  post cat (fill_required place room style tier cfg allocs slots
              (mkState [] budget_eur 0))
    (fun st => remaining_budget st
               == budget_eur - prices_sum (selected_products st)).
Proof.
  unfold fill_required. apply post_for_each.
  - intros s st _ Hst. now apply required_slot_accounts.
  - cbn. ring.
Qed.

Lemma required_slot_reached_accounts room budget_eur tier style cfg s st :
  required_slot_reached place cat room budget_eur tier style cfg s st ->
  remaining_budget st == budget_eur - prices_sum (selected_products st).
Proof.
  intros (before & after & _ & Hrun).
  exact (fill_required_accounts _ _ _ _ _ _ _ Hrun).
Qed.

Lemma optional_slot_reached_accounts room budget_eur tier style cfg s st :
  optional_slot_reached place cat room budget_eur tier style cfg s st ->
  remaining_budget st == budget_eur - prices_sum (selected_products st).
Proof.
  intros (st1 & before & after & _ & Hreq & Hrun & _).
  revert st Hrun. apply post_fill_optional.
  - intros s' st' _ Hst' _. now apply optional_slot_accounts.
  - exact (fill_required_accounts _ _ _ _ _ _ _ Hreq).
Qed.

End ReachedFacts.

(** * Answers of the database *)





(** * Texts of the plan *)

Lemma plan_categories_literal_ok_true : plan_categories_literal_ok = true.
Proof. vm_compute. reflexivity. Qed.

Lemma room_names_plain_ok_true : room_names_plain_ok = true.
Proof. vm_compute. reflexivity. Qed.

(** The categories the matcher pastes into its filters are read as they
    stand. *)
Lemma plan_categories_literal (room : Room) (s : Slot) (c : string) :
  In s (room_plan room) -> In c (categories s) -> Postgrest.literal c = true.
Proof.
  unfold room_plan, room_required, room_optional, room_requirements,
    Py.dict_get_default.
  destruct (Py.dict_get ROOM_FURNITURE_REQUIREMENTS (room_type room)) as [req |] eqn:E.
  - intros Hin Hc. apply dict_get_In in E.
    pose proof plan_categories_literal_ok_true as Hok.
    unfold plan_categories_literal_ok in Hok.
    rewrite forallb_forall in Hok. specialize (Hok _ E). simpl in Hok.
    rewrite forallb_forall in Hok. specialize (Hok _ Hin).
    rewrite forallb_forall in Hok. exact (Hok _ Hc).
  - simpl. intros [].
Qed.

(** The room types that have a plan hold no wildcard. *)
Lemma planned_room_plain (room : Room) (s : Slot) :
  In s (room_plan room) -> Sql.plain (room_type room) = true.
Proof.
  unfold room_plan, room_required, room_optional, room_requirements,
    Py.dict_get_default.
  destruct (Py.dict_get ROOM_FURNITURE_REQUIREMENTS (room_type room)) as [req |] eqn:E.
  - intros _. apply dict_get_In in E.
    pose proof room_names_plain_ok_true as Hok. unfold room_names_plain_ok in Hok.
    rewrite forallb_forall in Hok. exact (Hok _ E).
  - simpl. intros [].
Qed.


(** * What the matcher sees of an answer *)




Section SamePick.

Context {Placement : Type}.
Variable place : string -> Room -> Placement.
Variable url : string.
Variables cat1 cat2 : Catalog.
Variable tier : string.







End SamePick.





(** * Worked examples *)

(** The living room of the specification's example, 2000 EUR, standard tier:
    both required slots are filled, then two optional ones. *)
Example living_room_2000 :
  exists r,
    Sample.match_room Sample.catalog Sample.living_room 2000 "standard" (Some "modern")
    = Ok r
    /\ map (fun e => (sel_slot e, p_id (sel_product e))) (products r)
       = [("sofa", "sofa-1"); ("coffee_table", "table-1");
          ("tv_unit", "tv-1"); ("rug", "rug-1")]
    /\ budget_spent r == 760
    /\ budget_remaining r == 1240
    /\ budget_utilization_pct r == 38.
Proof.
  eexists. split; [vm_compute; reflexivity |].
  repeat split; vm_compute; reflexivity.
Qed.

(** A kitchen: the ranged quantity [(2, 6)] of the chairs is filled to its
    maximum with one product. *)
Example kitchen_1500 :
  exists r,
    Sample.match_room Sample.catalog Sample.kitchen 1500 "budget" (Some "modern") = Ok r
    /\ map (fun e => p_id (sel_product e)) (products r)
       = ["dining-1"; "chair-1"; "chair-1"; "chair-1"; "chair-1"; "chair-1"; "chair-1"]
    /\ budget_spent r == 770
    /\ budget_remaining r == 730.
Proof.
  eexists. split; [vm_compute; reflexivity |].
  repeat split; vm_compute; reflexivity.
Qed.

(** The allocation of a required slot is looked up under the part of its
    name before the first underscore, then under its name, then defaulted. *)
Example required_alloc_lookups :
  required_alloc (room_allocations Sample.living_room) "sofa" = (0.15, 0.25)
  /\ required_alloc (room_allocations Sample.living_room) "coffee_table" = (0.15, 0.25)
  /\ required_alloc (room_allocations Sample.kitchen) "dining_table" = (0.25, 0.35)
  /\ required_alloc (room_allocations Sample.kitchen) "chairs" = (0.20, 0.30).
Proof. repeat split; reflexivity. Qed.

(** The width limit: the free length of the first suitable wall, else the
    proportional fallback. *)
Example max_dimensions :
  get_max_dimension_for_slot "sofa" Sample.living_room = 350%Z
  /\ get_max_dimension_for_slot "coffee_table" Sample.living_room = 157%Z
  /\ get_max_dimension_for_slot "dining_table" Sample.kitchen = 140%Z
  /\ get_max_dimension_for_slot "chairs" Sample.kitchen = 150%Z.
Proof. repeat split; vm_compute; reflexivity. Qed.

(** The score of a fully enriched row priced at the target, standard tier:
    30 (price) + 25 (image) + 20 (dimensions) + 15 (description)
    + 15 (proportions) + 10 (luxury score in the middle band) + 10 (rating). *)
Example score_of_enriched_item :
  score (Sample.item "a" "sofa" 450 "ikea.bg" (Some 4.5)) 450 "standard" = 125%Z
  /\ score (Sample.item "a" "sofa" 450 "ikea.bg" (Some 4.5)) 450 "luxury" = 125%Z
  /\ score (Sample.item "a" "sofa" 450 "ikea.bg" (Some 3.9)) 900 "budget" = 90%Z
  /\ score (Sample.item "a" "sofa" 450 "ikea.bg" None) 0 "standard" = 85%Z.
Proof. repeat split; vm_compute; reflexivity. Qed.

(** Two candidates of equal score: the first one wins. *)
Example rank_tie_goes_to_first :
  let a := Sample.item "a" "sofa" 450 "ikea.bg" (Some 4.5) in
  let b := Sample.item "b" "sofa" 450 "ikea.bg" (Some 4.5) in
  score a 450 "standard" = score b 450 "standard"
  /\ rank_candidates [a; b] 450 "standard" = Ret a
  /\ rank_candidates [b; a] 450 "standard" = Ret b.
Proof. repeat split; vm_compute; reflexivity. Qed.

(** The distribution example of the specification. *)
Example distribute_flat :
  exists amounts,
    run Sample.catalog (distribute_budget_across_rooms SampleRooms.flat 3000)
    = Ok amounts
    /\ map fst amounts = ["r1"; "r2"]
    /\ Forall2 Qeq (map snd amounts) [1000; 2000].
Proof.
  eexists. split; [vm_compute; reflexivity |].
  split; [reflexivity |]. repeat constructor.
Qed.

(** Rooms of no area have no weight to normalise by. *)
Example distribute_without_area :
  run Sample.catalog
      (distribute_budget_across_rooms [SampleRooms.bedroom "r1" 0] 3000)
  = Err ZeroDivisionError.
Proof. vm_compute. reflexivity. Qed.

(** A room id seen twice keeps one entry, with the weight of the later
    room. *)
Example distribute_repeated_id :
  exists amounts,
    run Sample.catalog
        (distribute_budget_across_rooms
           [SampleRooms.bedroom "r1" 30; SampleRooms.bedroom "r1" 15;
            SampleRooms.bedroom "r2" 15] 3000)
    = Ok amounts
    /\ map fst amounts = ["r1"; "r2"]
    /\ Forall2 Qeq (map snd amounts) [1500; 1500].
Proof.
  eexists. split; [vm_compute; reflexivity |].
  split; [reflexivity |]. repeat constructor.
Qed.

(** Two sofas of one rating: answered in either order, the matcher takes the
    described one, which scores higher. *)
Example rating_tie_settled_by_score :
  exists r,
    Sample.match_room (query_supabase_for_matching_on SampleTies.scored_apart)
      Sample.living_room 2000 "standard" (Some "modern") = Ok r
    /\ Sample.match_room (query_supabase_for_matching_on (rev SampleTies.scored_apart))
         Sample.living_room 2000 "standard" (Some "modern") = Ok r
    /\ map (fun e => p_id (sel_product e)) (products r) = ["sofa-a"].
Proof.
  eexists. split; [vm_compute; reflexivity |].
  split; vm_compute; reflexivity.
Qed.

(** The price windows of the queries of the living room of 2000 EUR: the
    required slots with a floor of three tenths, the optional slots
    without. *)
Example living_room_2000_windows :
  map (fun ev => (q_categories (fst ev),
                  option_map Qred (q_min_price (fst ev)),
                  option_map Qred (q_max_price (fst ev))))
      (trace Sample.catalog
         (match_furniture_for_room Sample.place Sample.url Sample.living_room 2000
            "standard" (Some "modern")))
  = [ (Some ["sofa"; "corner sofa"; "sofa bed"], Some 150, Some 500);
      (Some ["coffee table"; "table"], Some (465 # 4), Some (775 # 2));
      (Some ["TV stand"; "wall unit"; "shelving"], None, Some 160);
      (Some ["armchair"; "chair"], None, Some 160);
      (Some ["bookcase"; "shelf unit"; "shelving"], None, Some 160);
      (Some ["lamp"; "floor lamp"], None, Some 160);
      (Some ["rug"; "carpet"], None, Some 160);
      (Some ["side table"; "table"], None, Some 160) ].
Proof. vm_compute. reflexivity. Qed.

(** * The claims *)

(** C1, as amended.  A returned result has [budget_total = budget_eur];
    [budget_spent] and [budget_remaining] are the spent total and the
    remaining budget each rounded to two decimals, where the unrounded
    amounts add up to [budget_eur]; so the two reported fields add up to
    [budget_total] within one cent, not exactly. *)
Theorem C1_budget_fields_within_a_cent :
  forall (Placement : Type) (place : string -> Room -> Placement) (url : string)
         (cat : Catalog) (room : Room) (budget_eur : Q) (tier : string)
         (style : option string) (r : MatchResult),
    run cat (match_furniture_for_room place url room budget_eur tier style) = Ok r ->
    budget_total r = budget_eur
    /\ exists spent remaining,
         spent + remaining == budget_eur
         /\ budget_spent r = Py.round spent 2
         /\ budget_remaining r = Py.round remaining 2
         /\ Qabs (budget_spent r + budget_remaining r - budget_total r) <= 0.01.
Proof.
  intros Placement place url cat room budget_eur tier style r Hrun.
  apply match_result_inv in Hrun as (st & Hst & _ & ->).
  cbn [budget_total budget_spent budget_remaining].
  split; [reflexivity |].
  exists (total_spent st), (remaining_budget st).
  pose proof (@match_loops_accounts _ place cat room budget_eur tier style st Hst) as Hsum.
  cbn beta in Hsum.
  split; [exact Hsum |]. split; [reflexivity |]. split; [reflexivity |].
  pose proof (round2_error (total_spent st)) as Hs.
  pose proof (round2_error (remaining_budget st)) as Hr.
  apply Qabs_Qle_condition in Hs as [Hs1 Hs2].
  apply Qabs_Qle_condition in Hr as [Hr1 Hr2].
  apply Qabs_Qle_condition. split; lra.
Qed.

Lemma C1_budget_fields_within_a_cent_witness :
  exists r,
    Sample.match_room Sample.catalog Sample.living_room 2000 "standard" (Some "modern")
    = Ok r
    /\ budget_total r = 2000
    /\ exists spent remaining,
         spent + remaining == 2000
         /\ budget_spent r = Py.round spent 2
         /\ budget_remaining r = Py.round remaining 2
         /\ Qabs (budget_spent r + budget_remaining r - budget_total r) <= 0.01.
Proof.
  eexists. split; [vm_compute; reflexivity |].
  apply (@C1_budget_fields_within_a_cent _ Sample.place Sample.url Sample.catalog
           Sample.living_room 2000 "standard" (Some "modern")).
  vm_compute. reflexivity.
Defined.

(** C1 as stated fails: with a budget of 1000.125 and nothing to buy, the
    result reports 0 spent and 1000.12 remaining, which do not add up to the
    budget total of 1000.125. *)
Lemma C1_counterexample :
  exists r,
    Sample.match_room Sample.empty_catalog Sample.living_room 1000.125 "standard" None
    = Ok r
    /\ budget_total r = 1000.125
    /\ budget_spent r == 0
    /\ budget_remaining r == 1000.12
    /\ ~ budget_spent r + budget_remaining r == budget_total r.
Proof.
  eexists. split; [vm_compute; reflexivity |].
  cbn [budget_total budget_spent budget_remaining].
  repeat split; try (vm_compute; reflexivity).
  intros H. vm_compute in H. discriminate.
Qed.


(** C2, as amended.  Whatever the table of products the catalog query runs
    on, in every run with a budget other than 0, and in every run with a
    budget of 0 against a table whose prices are all positive, every entry
    of [selected_products] is appended while the remaining budget is
    positive: no item is bought once [remaining_budget <= 0], in the required
    loop, which has no test of its own, as in the optional one.  A returned
    result never reports more spent than the budget total plus the price of
    the last item bought; with a budget that is not negative it reports no
    more than the total plus the half cent of [round]; with nothing bought,
    nothing is spent; and with a negative budget nothing is bought, so that
    the 0 spent is above the total. *)
Theorem C2_no_purchase_once_budget_is_exhausted :
  forall (Placement : Type) (place : string -> Room -> Placement) (url : string)
         (table : list Product) (room : Room) (budget_eur : Q) (tier : string)
         (style : option string),
    let cat := query_supabase_for_matching_on table in
    (forall st,
        ~ budget_eur == 0 \/ forallb positive_price table = true ->
        run cat (match_loops place room budget_eur tier style) = Ok st ->
        remaining_budget st == budget_eur - prices_sum (selected_products st)
        /\ purchased_on_positive_budget budget_eur (selected_products st))
    /\ (forall r,
          run cat (match_furniture_for_room place url room budget_eur tier style)
          = Ok r ->
          purchased_on_positive_budget budget_eur (products r)
          /\ (forall pre e,
                products r = (pre ++ [e])%list ->
                budget_spent r
                < budget_total r + price_of (sel_product e) + 0.005)
          /\ (products r <> [] \/ 0 <= budget_eur ->
              budget_spent r <= budget_total r + 0.005)
          /\ (products r = [] -> budget_spent r == 0)
          /\ (budget_eur < 0 ->
              products r = [] /\ budget_total r < budget_spent r)).
Proof.
  intros Placement place url table room budget_eur tier style cat.
  destruct (@budget_discipline _ place url cat room budget_eur tier style
              (query_on_table_honours_max_price table)
              (query_on_table_honours_min_price table)) as [Hloops Hresult].
  split.
  - intros st [Hzero | Hpos] Hst; apply Hloops; auto.
    right. now apply query_on_table_positive_prices.
  - intros r Hrun.
    destruct (Hresult r Hrun) as (Hpre & Hlast & Hall & Hnone).
    split; [exact Hpre |]. split; [exact Hlast |]. split; [exact Hall |].
    split; [exact Hnone |].
    intros Hneg.
    assert (Hempty : products r = []).
    { destruct (products r) as [| e l] eqn:Hl; [reflexivity |].
      specialize (Hpre [] e l eq_refl).
      change (prices_sum (@nil (@Selected Placement))) with 0 in Hpre. lra. }
    split; [exact Hempty |].
    specialize (Hnone Hempty).
    apply match_result_inv in Hrun as (st & _ & _ & ->).
    cbn [budget_total budget_spent] in *. lra.
Qed.

Lemma C2_no_purchase_once_budget_is_exhausted_witness :
  exists r,
    Sample.match_room Sample.catalog Sample.kitchen 1500 "budget" (Some "modern")
    = Ok r
    /\ map sel_slot (products r)
       = ["dining_table"; "chairs"; "chairs"; "chairs"; "chairs"; "chairs"; "chairs"]
    /\ purchased_on_positive_budget 1500 (products r)
    /\ (forall pre e,
          products r = (pre ++ [e])%list ->
          budget_spent r < budget_total r + price_of (sel_product e) + 0.005)
    /\ (products r <> [] \/ 0 <= 1500 -> budget_spent r <= budget_total r + 0.005)
    /\ (products r = [] -> budget_spent r == 0)
    /\ forallb positive_price Sample.table = true
    /\ exists st,
         run Sample.catalog
             (match_loops Sample.place Sample.kitchen 0 "budget" (Some "modern"))
         = Ok st
         /\ remaining_budget st == 0 - prices_sum (selected_products st)
         /\ purchased_on_positive_budget 0 (selected_products st).
Proof.
  eexists. split; [vm_compute; reflexivity |].
  split; [vm_compute; reflexivity |].
  match goal with
  | |- purchased_on_positive_budget _ (products ?r) /\ _ =>
      assert (Hrun : Sample.match_room Sample.catalog Sample.kitchen 1500 "budget"
                       (Some "modern") = Ok r) by (vm_compute; reflexivity);
      pose proof (proj2 (@C2_no_purchase_once_budget_is_exhausted _ Sample.place
                           Sample.url Sample.table Sample.kitchen 1500 "budget"
                           (Some "modern")) r Hrun) as (Ha & Hb & Hc & Hd & _)
  end.
  split; [exact Ha |]. split; [exact Hb |]. split; [exact Hc |]. split; [exact Hd |].
  assert (Hpos : forallb positive_price Sample.table = true)
    by (vm_compute; reflexivity).
  split; [exact Hpos |].
  eexists. split; [vm_compute; reflexivity |].
  apply (proj1 (@C2_no_purchase_once_budget_is_exhausted _ Sample.place Sample.url
                  Sample.table Sample.kitchen 0 "budget" (Some "modern")));
    [right; exact Hpos | vm_compute; reflexivity].
Defined.

(** C2 as stated fails for a budget of 0 and for negative budgets.  With a
    budget of 0 the price window of the first required slot is [0, 0]; the
    table holds a sofa priced 0; the required loop, which does not test the
    remaining budget, appends it while [remaining_budget] is 0, and the run
    then ends in the ZeroDivisionError of the utilisation.  With a budget of
    -100 nothing is bought and the result reports 0 spent of a total of
    -100. *)
Lemma C2_counterexample :
  (exists st e,
      run (query_supabase_for_matching_on SampleFree.table)
          (match_loops Sample.place Sample.living_room 0 "standard" (Some "modern"))
      = Ok st
      /\ selected_products st = [e]
      /\ sel_slot e = "sofa"
      /\ sel_product e = SampleFree.sofa
      /\ remaining_budget st == 0
      /\ ~ purchased_on_positive_budget 0 (selected_products st))
  /\ Sample.match_room (query_supabase_for_matching_on SampleFree.table)
       Sample.living_room 0 "standard" (Some "modern")
     = Err ZeroDivisionError
  /\ exists r,
       Sample.match_room Sample.catalog Sample.living_room (-100) "standard"
         (Some "modern") = Ok r
       /\ products r = []
       /\ budget_spent r == 0
       /\ budget_total r == -100
       /\ ~ budget_spent r <= budget_total r + 0.005.
Proof.
  split; [| split].
  - eexists. eexists. split; [vm_compute; reflexivity |].
    split; [reflexivity |]. split; [reflexivity |]. split; [reflexivity |].
    split; [vm_compute; reflexivity |].
    intros H. specialize (H [] _ [] eq_refl). vm_compute in H. discriminate.
  - vm_compute. reflexivity.
  - eexists. split; [vm_compute; reflexivity |].
    cbn [products budget_spent budget_total].
    split; [reflexivity |]. split; [vm_compute; reflexivity |].
    split; [vm_compute; reflexivity |].
    intros H. vm_compute in H. apply H. reflexivity.
Qed.


(** C3, as amended.  For a room whose type has no entry in
    [ROOM_FURNITURE_REQUIREMENTS], with a known tier and a non-zero budget,
    the matcher raises nothing: it issues no catalog query and returns a
    result with no products, nothing spent and the whole budget remaining. *)
Theorem C3_unknown_room_type_returns_empty_result :
  forall (Placement : Type) (place : string -> Room -> Placement) (url : string)
         (cat : Catalog) (room : Room) (budget_eur : Q) (tier : string)
         (style : option string) (cfg : TierConfig),
    Py.dict_get ROOM_FURNITURE_REQUIREMENTS (room_type room) = None ->
    Py.dict_get BUDGET_TIERS tier = Some cfg ->
    ~ budget_eur == 0 ->
    exists r,
      run cat (match_furniture_for_room place url room budget_eur tier style) = Ok r
      /\ trace cat (match_furniture_for_room place url room budget_eur tier style) = []
      /\ products r = []
      /\ buy_links r = []
      /\ budget_total r = budget_eur
      /\ budget_spent r == 0
      /\ budget_remaining r = Py.round budget_eur 2.
Proof.
  intros Placement place url cat room budget_eur tier style cfg Hroom Htier Hz.
  destruct (room_requirements_unknown room Hroom) as [Hreq Hopt].
  unfold match_furniture_for_room.
  rewrite trace_bind, run_bind, match_loops_unfold, Htier, Hreq, Hopt.
  cbn [fill_required for_each fill_optional bind run trace app].
  unfold build_result, div.
  destruct (Qeq_bool budget_eur 0) eqn:Hq;
    [apply Qeq_bool_iff in Hq; contradiction |].
  cbn [bind run trace total_spent remaining_budget selected_products].
  eexists. split; [reflexivity |].
  cbn [products buy_links budget_total budget_spent budget_remaining map].
  repeat split; reflexivity.
Qed.

Lemma C3_unknown_room_type_returns_empty_result_witness :
  Py.dict_get ROOM_FURNITURE_REQUIREMENTS (room_type Sample.garage) = None
  /\ Py.dict_get BUDGET_TIERS "standard" <> None
  /\ ~ 1000 == 0
  /\ exists r,
       Sample.match_room Sample.catalog Sample.garage 1000 "standard" None = Ok r
       /\ trace Sample.catalog
            (match_furniture_for_room Sample.place Sample.url Sample.garage 1000
               "standard" None) = []
       /\ products r = []
       /\ buy_links r = []
       /\ budget_total r = 1000
       /\ budget_spent r == 0
       /\ budget_remaining r = Py.round 1000 2.
Proof.
  split; [reflexivity |]. split; [discriminate |]. split; [discriminate |].
  eapply (@C3_unknown_room_type_returns_empty_result _ Sample.place Sample.url
            Sample.catalog Sample.garage 1000 "standard" None).
  - reflexivity.
  - vm_compute. reflexivity.
  - discriminate.
Defined.

(** C3 as stated fails: a garage is in none of the static tables, yet the
    matcher raises nothing and returns a result. *)
Lemma C3_counterexample :
  Py.dict_get ROOM_FURNITURE_REQUIREMENTS (room_type Sample.garage) = None
  /\ Py.dict_get ROOM_BUDGET_ALLOCATION (room_type Sample.garage) = None
  /\ Py.dict_get ROOM_BUDGET_WEIGHT (room_type Sample.garage) = None
  /\ exists r,
       Sample.match_room Sample.catalog Sample.garage 1000 "standard" None = Ok r
       /\ products r = [].
Proof.
  repeat split; try reflexivity.
  eexists. split; vm_compute; reflexivity.
Qed.


(** C4: the claim does not hold of the code.  At a budget of zero the
    matcher never returns a result, whatever the room, the tier and the
    catalog: for a known room type and a known tier it raises
    [ZeroDivisionError] while computing [budget_utilization_pct].  And a tier
    outside [BUDGET_TIERS] raises [KeyError]. *)
Theorem C4_zero_budget_raises :
  (forall (Placement : Type) (place : string -> Room -> Placement) (url : string)
          (cat : Catalog) (room : Room) (tier : string) (style : option string),
      exists e,
        run cat (match_furniture_for_room place url room 0 tier style) = Err e)
  /\ Py.dict_get ROOM_FURNITURE_REQUIREMENTS (room_type Sample.living_room) <> None
  /\ Py.dict_get BUDGET_TIERS "standard" <> None
  /\ Sample.match_room Sample.catalog Sample.living_room 0 "standard" (Some "modern")
     = Err ZeroDivisionError
  /\ Sample.match_room Sample.empty_catalog Sample.living_room 0 "standard" None
     = Err ZeroDivisionError
  /\ Sample.match_room Sample.catalog Sample.living_room 2000 "deluxe" (Some "modern")
     = Err (KeyError "deluxe").
Proof.
  split; [intros; apply zero_budget_never_returns |].
  split; [discriminate |]. split; [discriminate |].
  repeat split; vm_compute; reflexivity.
Qed.

(** C5, as amended.  A required slot for which the catalog answers no
    candidate is passed over: the loop body returns the state unchanged and
    the match goes on with the next slot.  It leaves no mark in the result:
    [products] has no entry for it (an entry always holds a product; the
    result has no field for unmet slots), and [product_images_for_render]
    names it nowhere. *)
Theorem C5_unmet_required_slot_is_omitted :
  forall (Placement : Type) (place : string -> Room -> Placement) (url : string)
         (cat : Catalog) (room : Room) (budget_eur : Q) (tier : string)
         (style : option string) (s : Slot),
    In s (room_required room) ->
    (forall cfg st,
        let slot_budget :=
          remaining_budget st * snd (required_alloc (room_allocations room) (slot s)) in
        let per_item_budget := slot_budget / inject_Z (slot_quantity s) in
        cat (required_query room style cfg s per_item_budget) = [] ->
        run cat (required_slot place room style tier cfg (room_allocations room) s st)
        = Ok st)
    /\ (forall r,
          run cat (match_furniture_for_room place url room budget_eur tier style)
          = Ok r ->
          Forall (fun ev => no_candidates_for s (fst ev) (snd ev))
                 (trace cat
                    (match_furniture_for_room place url room budget_eur tier style)) ->
          slot_absent (slot s) (products r)
          /\ (forall image,
                In image (product_images_for_render r) -> ri_slot image <> slot s)).
Proof.
  intros Placement place url cat room budget_eur tier style s Hs. split.
  - intros cfg st slot_budget per_item_budget Hnone.
    apply required_slot_facts in Hs as (Hq & _ & _).
    unfold required_slot, div.
    destruct (Qeq_bool (inject_Z (slot_quantity s)) 0) eqn:Hz.
    + apply Qeq_bool_iff in Hz. apply inject_Z_positive in Hq. lra.
    + cbn [bind query_supabase_for_matching run].
      fold slot_budget. fold per_item_budget. rewrite Hnone. reflexivity.
  - intros r Hrun Htr. rewrite match_trace in Htr.
    apply match_result_inv in Hrun as (st & Hst & _ & ->).
    cbn [products product_images_for_render].
    pose proof (@match_loops_absent _ place cat room budget_eur tier style s Hs st
                  Hst Htr) as Habsent.
    split; [exact Habsent |].
    intros image Him. apply in_map_iff in Him as (e & <- & He).
    apply filter_In in He as [He _]. cbn [render_image ri_slot]. now apply Habsent.
Qed.

Lemma C5_unmet_required_slot_is_omitted_witness :
  exists s r,
    slot s = "sofa"
    /\ In s (room_required Sample.living_room)
    /\ Sample.match_room Sample.catalog Sample.living_room 700 "standard" (Some "modern")
       = Ok r
    /\ Forall (fun ev => no_candidates_for s (fst ev) (snd ev))
              (trace Sample.catalog
                 (match_furniture_for_room Sample.place Sample.url Sample.living_room
                    700 "standard" (Some "modern")))
    /\ products r <> []
    /\ slot_absent (slot s) (products r)
    /\ (forall image, In image (product_images_for_render r) -> ri_slot image <> slot s).
Proof.
  exists (mkSlot "sofa" ["sofa"; "corner sofa"; "sofa bed"] (Fixed 1)).
  eexists.
  assert (Hs : In (mkSlot "sofa" ["sofa"; "corner sofa"; "sofa bed"] (Fixed 1))
                  (room_required Sample.living_room)) by (now left).
  assert (Htr : Forall
                  (fun ev =>
                     no_candidates_for
                       (mkSlot "sofa" ["sofa"; "corner sofa"; "sofa bed"] (Fixed 1))
                       (fst ev) (snd ev))
                  (trace Sample.catalog
                     (match_furniture_for_room Sample.place Sample.url
                        Sample.living_room 700 "standard" (Some "modern")))).
  { set (t := trace _ _). vm_compute in t. subst t.
    repeat constructor; intros H; try reflexivity; discriminate H. }
  split; [reflexivity |]. split; [exact Hs |].
  split; [vm_compute; reflexivity |].
  split; [exact Htr |]. split; [discriminate |].
  apply (proj2 (@C5_unmet_required_slot_is_omitted _ Sample.place Sample.url
                  Sample.catalog Sample.living_room 700 "standard" (Some "modern")
                  _ Hs));
    [vm_compute; reflexivity | exact Htr].
Defined.

(** C5 as stated fails: with a budget of 700 no sofa is within the price
    window of the required slot [sofa]; the result neither lists the slot
    with a null product nor names it anywhere else, it only has fewer
    items. *)
Lemma C5_counterexample :
  exists r,
    Sample.match_room Sample.catalog Sample.living_room 700 "standard" (Some "modern")
    = Ok r
    /\ In "sofa" (map slot (room_required Sample.living_room))
    /\ (exists q,
           nth_error
             (trace Sample.catalog
                (match_furniture_for_room Sample.place Sample.url Sample.living_room
                   700 "standard" (Some "modern"))) 0 = Some (q, [])
           /\ q_categories q = Some ["sofa"; "corner sofa"; "sofa bed"])
    /\ map sel_slot (products r) = ["coffee_table"; "rug"]
    /\ map ri_slot (product_images_for_render r) = ["coffee_table"; "rug"]
    /\ product_count r = 2%nat.
Proof.
  eexists. split; [vm_compute; reflexivity |].
  split; [now left |]. split.
  - set (t := trace _ _). vm_compute in t. subst t.
    eexists. split; reflexivity.
  - repeat split; vm_compute; reflexivity.
Qed.


(** C6, as amended.  Of a non-empty candidate list the ranker returns a
    candidate of maximal score, and among the candidates of maximal score the
    one that comes first in the list: every candidate before the winner
    scores strictly less.  The score is that of the scoring loop, which adds
    up the points of the signal table of 4.4 for every candidate whose image
    key, width, proportion and luxury score are null or truthy; for lists of
    such candidates the winner is therefore the first candidate of maximal
    table score. *)
Theorem C6_rank_candidates_returns_first_maximum :
  forall (candidates : list Product) (target_price : Q) (tier : string),
    candidates <> [] ->
    exists pre winner post,
      candidates = (pre ++ winner :: post)%list
      /\ rank_candidates candidates target_price tier = Ret winner
      /\ (forall c, In c candidates ->
            (score c target_price tier <= score winner target_price tier)%Z)
      /\ (forall c, In c pre ->
            (score c target_price tier < score winner target_price tier)%Z)
      /\ (forall c, signals_truthy c = true ->
            score c target_price tier = table_score c target_price tier)
      /\ (forallb signals_truthy candidates = true ->
          (forall c, In c candidates ->
             (table_score c target_price tier
              <= table_score winner target_price tier)%Z)
          /\ (forall c, In c pre ->
                (table_score c target_price tier
                 < table_score winner target_price tier)%Z)).
Proof.
  intros [| c0 l] target_price tier Hne; [congruence |].
  destruct (rank_candidates_first_max c0 l target_price tier)
    as (pre & winner & post & Hsplit & Hrank & Hmax & Hfirst).
  exists pre, winner, post.
  split; [exact Hsplit |]. split; [exact Hrank |].
  split; [exact Hmax |]. split; [exact Hfirst |].
  split; [intros c Hc; now apply score_table_score |].
  intros Hall. rewrite forallb_forall in Hall.
  assert (Hwinner : In winner (c0 :: l))
    by (rewrite Hsplit; apply in_or_app; right; now left).
  split.
  - intros c Hc.
    rewrite <- (score_table_score c target_price tier (Hall c Hc)).
    rewrite <- (score_table_score winner target_price tier (Hall winner Hwinner)).
    now apply Hmax.
  - intros c Hc.
    assert (Hc' : In c (c0 :: l))
      by (rewrite Hsplit; apply in_or_app; now left).
    rewrite <- (score_table_score c target_price tier (Hall c Hc')).
    rewrite <- (score_table_score winner target_price tier (Hall winner Hwinner)).
    now apply Hfirst.
Qed.

Lemma C6_rank_candidates_returns_first_maximum_witness :
  SampleRank.candidates <> []
  /\ map (fun c => score c 450 "standard") SampleRank.candidates
     = [85; 125; 125]%Z
  /\ forallb signals_truthy SampleRank.candidates = true
  /\ exists post,
       SampleRank.candidates
       = ([SampleRank.rug] ++ SampleRank.sofa_1 :: post)%list
       /\ rank_candidates SampleRank.candidates 450 "standard"
          = Ret SampleRank.sofa_1
       /\ (forall c, In c SampleRank.candidates ->
             (score c 450 "standard" <= score SampleRank.sofa_1 450 "standard")%Z)
       /\ (forall c, In c [SampleRank.rug] ->
             (score c 450 "standard" < score SampleRank.sofa_1 450 "standard")%Z)
       /\ (forall c, In c SampleRank.candidates ->
             (table_score c 450 "standard"
              <= table_score SampleRank.sofa_1 450 "standard")%Z)
       /\ (forall c, In c [SampleRank.rug] ->
             (table_score c 450 "standard"
              < table_score SampleRank.sofa_1 450 "standard")%Z).
Proof.
  assert (Hne : SampleRank.candidates <> []) by discriminate.
  assert (Hall : forallb signals_truthy SampleRank.candidates = true)
    by (vm_compute; reflexivity).
  split; [exact Hne |]. split; [vm_compute; reflexivity |]. split; [exact Hall |].
  destruct (@C6_rank_candidates_returns_first_maximum
              SampleRank.candidates 450 "standard" Hne)
    as (pre & winner & post & Hsplit & Hrank & Hmax & Hfirst & _ & Htable).
  destruct (Htable Hall) as [Htmax Htfirst].
  assert (Hwin : rank_candidates SampleRank.candidates 450 "standard"
                 = Ret SampleRank.sofa_1) by (vm_compute; reflexivity).
  rewrite Hwin in Hrank. injection Hrank as <-.
  assert (Hpre : pre = [SampleRank.rug]).
  { unfold SampleRank.candidates in Hsplit.
    destruct pre as [| p0 [| p1 pre]]; cbn [app] in Hsplit.
    - apply (f_equal (map p_id)) in Hsplit. vm_compute in Hsplit. discriminate.
    - injection Hsplit as <- _. reflexivity.
    - injection Hsplit as <- <- _. exfalso.
      specialize (Hfirst SampleRank.sofa_1 (or_intror (or_introl eq_refl))). lia. }
  subst pre. exists post.
  split; [exact Hsplit |]. split; [exact Hwin |].
  split; [exact Hmax |]. split; [exact Hfirst |].
  split; [exact Htmax | exact Htfirst].
Defined.

(** C6 as stated fails: the score of the code is not always that of the
    table.  In the budget tier the table gives 10 points to a luxury score
    below 0.3, also to a score of 0; the scoring loop tests the score by
    truthiness and gives a score of 0 nothing.  Of these two rows, alike but
    for the luxury score, the second is the only one of maximal table score,
    and the ranker returns the first. *)
Lemma C6_counterexample :
  let candidates := [SampleRank.unscored; SampleRank.plainest] in
  rank_candidates candidates 100 "budget" = Ret SampleRank.unscored
  /\ p_luxury_score SampleRank.plainest = Some 0
  /\ table_score SampleRank.unscored 100 "budget" = 0%Z
  /\ table_score SampleRank.plainest 100 "budget" = 10%Z
  /\ score SampleRank.unscored 100 "budget" = 0%Z
  /\ score SampleRank.plainest 100 "budget" = 0%Z
  /\ ~ (forall c, In c candidates ->
          (table_score c 100 "budget"
           <= table_score SampleRank.unscored 100 "budget")%Z).
Proof.
  cbv zeta. repeat split; try (vm_compute; reflexivity).
  intros H. specialize (H SampleRank.plainest (or_intror (or_introl eq_refl))).
  vm_compute in H. apply H. reflexivity.
Qed.


(** C7.  The budget of an optional slot is
    [min(remaining_budget * 0.4, budget_eur * upper bound of its allocation)].
    When it is below 15 the slot is skipped: the loop body returns the state
    unchanged and asks the catalog nothing, so no entry, with or without a
    product, is appended for it.  When it is not, it is the [max_price] of
    the one query issued.  Accordingly every entry of a returned result that
    stands for an optional slot was bought on a slot budget of at least
    15. *)
Theorem C7_optional_slot_below_floor_is_skipped :
  forall (Placement : Type) (place : string -> Room -> Placement) (url : string)
         (cat : Catalog) (room : Room) (budget_eur : Q) (tier : string)
         (style : option string),
    (forall cfg s st,
        let slot_budget :=
          Py.min (remaining_budget st * 0.4)
                 (budget_eur
                  * snd (Py.dict_get_default (room_allocations room) (slot s)
                           (0.03, 0.08))) in
        (slot_budget < 15 ->
         run cat (optional_slot place room budget_eur style tier cfg
                    (room_allocations room) s st) = Ok st
         /\ trace cat (optional_slot place room budget_eur style tier cfg
                         (room_allocations room) s st) = [])
        /\ (15 <= slot_budget ->
            exists q,
              trace cat (optional_slot place room budget_eur style tier cfg
                           (room_allocations room) s st) = [(q, cat q)]
              /\ q_max_price q = Some slot_budget))
    /\ (forall r,
          run cat (match_furniture_for_room place url room budget_eur tier style)
          = Ok r ->
          optional_entries_above_floor room budget_eur (products r)).
Proof.
  intros Placement place url cat room budget_eur tier style. split.
  - intros cfg s st slot_budget.
    assert (Hcmp : Py.Qltb slot_budget 15 = true <-> slot_budget < 15).
    { unfold Py.Qltb. split; intros H.
      - apply Qnot_le_lt. intros Hle. apply Qle_bool_iff in Hle.
        rewrite Hle in H. discriminate.
      - destruct (Qle_bool 15 slot_budget) eqn:Hle; [| reflexivity].
        apply Qle_bool_iff in Hle. lra. }
    split.
    + intros Hlow. apply Hcmp in Hlow. rewrite optional_slot_trace.
      unfold optional_slot, optional_slot_budget. fold slot_budget.
      rewrite Hlow. split; reflexivity.
    + intros Hhigh. rewrite optional_slot_trace.
      unfold optional_slot_budget. fold slot_budget.
      destruct (Py.Qltb slot_budget 15) eqn:Hlow;
        [pose proof (proj1 Hcmp eq_refl); lra |].
      eexists. split; reflexivity.
  - intros r Hrun. apply match_result_inv in Hrun as (st & Hst & _ & ->).
    cbn [products]. eapply match_loops_floor; eauto.
Qed.

Lemma C7_optional_slot_below_floor_is_skipped_witness :
  (let st := @mkState (option string) [] 150 0 in
   let slot_budget :=
     Py.min (remaining_budget st * 0.4)
            (150 * snd (Py.dict_get_default (room_allocations Sample.living_room)
                          (slot Sample.tv_unit) (0.03, 0.08))) in
   slot_budget == 12
   /\ slot_budget < 15
   /\ run Sample.catalog
          (optional_slot Sample.place Sample.living_room 150 (Some "modern") "standard"
             Sample.standard (room_allocations Sample.living_room) Sample.tv_unit st)
      = Ok st
   /\ trace Sample.catalog
        (optional_slot Sample.place Sample.living_room 150 (Some "modern") "standard"
           Sample.standard (room_allocations Sample.living_room) Sample.tv_unit st)
      = [])
  /\ exists r,
       Sample.match_room Sample.catalog Sample.living_room 2000 "standard"
         (Some "modern") = Ok r
       /\ map sel_slot (products r) = ["sofa"; "coffee_table"; "tv_unit"; "rug"]
       /\ optional_entries_above_floor Sample.living_room 2000 (products r).
Proof.
  split.
  - cbv zeta.
    assert (Hlow : Py.min (remaining_budget (@mkState (option string) [] 150 0) * 0.4)
                     (150 * snd (Py.dict_get_default
                                   (room_allocations Sample.living_room)
                                   (slot Sample.tv_unit) (0.03, 0.08))) < 15)
      by (vm_compute; reflexivity).
    split; [vm_compute; reflexivity |]. split; [exact Hlow |].
    exact (proj1 (proj1 (@C7_optional_slot_below_floor_is_skipped _ Sample.place
                           Sample.url Sample.catalog Sample.living_room 150
                           "standard" (Some "modern"))
                    Sample.standard Sample.tv_unit (mkState [] 150 0)) Hlow).
  - eexists. split; [vm_compute; reflexivity |].
    split; [vm_compute; reflexivity |].
    apply (proj2 (@C7_optional_slot_below_floor_is_skipped _ Sample.place Sample.url
                    Sample.catalog Sample.living_room 2000 "standard" (Some "modern"))).
    vm_compute. reflexivity.
Defined.


(** C8, as amended.  Every catalog query of a match is issued for one
    slot of the room's plan, in the state [st] in which the loop reaches that
    slot, where what remains is the budget less the prices of the entries
    bought so far, and it asks for the categories of that slot.  The query of
    a required slot passes the per-item budget, [remaining_budget] times the
    upper bound of the slot's allocation divided by its quantity, as
    [max_price], and that budget times 0.3 as [min_price].  The query of an
    optional slot passes the slot budget
    [min(remaining_budget * 0.4, budget_eur * upper bound)], which is at
    least 15, as [max_price] and sets no [min_price]. *)
Theorem C8_price_window_of_every_query :
  forall (Placement : Type) (place : string -> Room -> Placement) (url : string)
         (cat : Catalog) (room : Room) (budget_eur : Q) (tier : string)
         (style : option string),
    Forall
      (fun ev =>
         exists cfg s st,
           Py.dict_get BUDGET_TIERS tier = Some cfg
           /\ remaining_budget st == budget_eur - prices_sum (selected_products st)
           /\ q_categories (fst ev) = Some (categories s)
           /\ ((required_slot_reached place cat room budget_eur tier style cfg s st
                /\ let per_item_budget :=
                     remaining_budget st
                     * snd (required_alloc (room_allocations room) (slot s))
                     / inject_Z (slot_quantity s) in
                   q_max_price (fst ev) = Some per_item_budget
                   /\ q_min_price (fst ev) = Some (per_item_budget * 0.3))
               \/ (optional_slot_reached place cat room budget_eur tier style cfg s st
                   /\ let slot_budget :=
                        Py.min (remaining_budget st * 0.4)
                               (budget_eur
                                * snd (Py.dict_get_default (room_allocations room)
                                         (slot s) (0.03, 0.08))) in
                      15 <= slot_budget
                      /\ q_max_price (fst ev) = Some slot_budget
                      /\ q_min_price (fst ev) = None)))
      (trace cat (match_furniture_for_room place url room budget_eur tier style)).
Proof.
  intros Placement place url cat room budget_eur tier style.
  apply Forall_forall. intros ev Hev.
  apply match_trace_reached in Hev
    as (cfg & s & st & Htier & [[Hreach Hev] | [Hreach Hev]]);
    exists cfg, s, st; (split; [exact Htier |]).
  - split; [eapply required_slot_reached_accounts; exact Hreach |].
    rewrite required_slot_trace in Hev.
    destruct (Qeq_bool (inject_Z (slot_quantity s)) 0); [destruct Hev |].
    destruct Hev as [<- | []]. cbn [fst].
    split; [reflexivity |]. left. split; [exact Hreach |].
    cbv zeta. split; reflexivity.
  - split; [eapply optional_slot_reached_accounts; exact Hreach |].
    rewrite optional_slot_trace in Hev. unfold Py.Qltb in Hev.
    destruct (Qle_bool 15 (optional_slot_budget budget_eur (room_allocations room) s st))
      eqn:Hfloor; cbn [negb] in Hev; [| destruct Hev].
    destruct Hev as [<- | []]. cbn [fst].
    split; [reflexivity |]. right. split; [exact Hreach |].
    cbv zeta. split; [apply Qle_bool_iff; exact Hfloor |]. split; reflexivity.
Qed.

(** C8 as stated fails: the third query of this match, the one for the
    optional slot [tv_unit], has a [max_price] and no [min_price]. *)
Lemma C8_counterexample :
  (exists q rows,
      nth_error
        (trace Sample.catalog
           (match_furniture_for_room Sample.place Sample.url Sample.living_room 2000
              "standard" (Some "modern"))) 2 = Some (q, rows)
      /\ q_categories q = Some ["TV stand"; "wall unit"; "shelving"]
      /\ (exists hi, q_max_price q = Some hi /\ hi == 160)
      /\ q_min_price q = None)
  /\ ~ queries Sample.catalog
         (match_furniture_for_room Sample.place Sample.url Sample.living_room 2000
            "standard" (Some "modern"))
         per_item_price_window.
Proof.
  set (t := trace _ _).
  assert (Hev : exists q rows,
             nth_error t 2 = Some (q, rows)
             /\ q_categories q = Some ["TV stand"; "wall unit"; "shelving"]
             /\ (exists hi, q_max_price q = Some hi /\ hi == 160)
             /\ q_min_price q = None).
  { vm_compute in t. subst t. cbn [nth_error].
    eexists. eexists. split; [reflexivity |].
    split; [reflexivity |]. split; [| reflexivity].
    eexists. split; [reflexivity |]. vm_compute. reflexivity. }
  split; [exact Hev |].
  destruct Hev as (q & rows & Hnth & _ & _ & Hmin).
  unfold queries. fold t. intros Hall.
  rewrite Forall_forall in Hall.
  specialize (Hall _ (nth_error_In _ _ Hnth)).
  destruct Hall as (b & lo & _ & Hlo & _). cbn [fst] in Hlo.
  rewrite Hmin in Hlo. discriminate.
Qed.








(** * Further properties of the code *)

(** ** The matcher: what it selects *)

(** X1. Run against a snapshot of the [products] table, the matcher only
    selects rows of that table that are in stock, have an image marked usable
    and an R2 key, and come from a preferred source of the tier; every entry
    stands for one unit. *)
Theorem X1_selected_rows_are_in_stock_with_image_from_preferred_sources :
  forall (Placement : Type) (place : string -> Room -> Placement) (url : string)
         (table : list Product) (room : Room) (budget_eur : Q) (tier : string)
         (style : option string) (r : MatchResult),
    run (query_supabase_for_matching_on table)
        (match_furniture_for_room place url room budget_eur tier style) = Ok r ->
    Forall (fun e =>
              In (sel_product e) table
              /\ sel_quantity e = 1%Z
              /\ in_stock_with_image (sel_product e)
              /\ exists cfg,
                   Py.dict_get BUDGET_TIERS tier = Some cfg
                   /\ source_among (preferred_sources cfg) (sel_product e))
           (products r).
Proof.
  intros Placement place url table room budget_eur tier style r Hrun.
  apply result_products in Hrun as (st & Hst & _ & -> & _).
  apply match_loops_passed_filters in Hst.
  eapply Forall_impl; [| exact Hst].
  intros e (Hin & Hq & Himg & Hsrc & _). auto.
Qed.

Lemma X1_selected_rows_are_in_stock_with_image_from_preferred_sources_witness :
  exists r,
    Sample.match_room Sample.catalog Sample.living_room 2000 "standard" (Some "modern")
    = Ok r
    /\ map (fun e => p_id (sel_product e)) (products r)
       = ["sofa-1"; "table-1"; "tv-1"; "rug-1"]
    /\ Forall (fun e =>
                 In (sel_product e) Sample.table
                 /\ sel_quantity e = 1%Z
                 /\ in_stock_with_image (sel_product e)
                 /\ exists cfg,
                      Py.dict_get BUDGET_TIERS "standard" = Some cfg
                      /\ source_among (preferred_sources cfg) (sel_product e))
              (products r).
Proof.
  eexists. split; [vm_compute; reflexivity |].
  split; [vm_compute; reflexivity |].
  apply (@X1_selected_rows_are_in_stock_with_image_from_preferred_sources
           _ Sample.place Sample.url Sample.table Sample.living_room 2000
           "standard" (Some "modern")).
  vm_compute. reflexivity.
Defined.

(** X2. Every entry belongs to a slot of the room's plan: the category or
    subcategory of its row is one of the slot's categories, and unless the
    width limit of the slot is 0 (which switches the width filter off) a row
    of known width is no wider than the limit. *)
Theorem X2_selected_rows_fit_their_slot :
  forall (Placement : Type) (place : string -> Room -> Placement) (url : string)
         (table : list Product) (room : Room) (budget_eur : Q) (tier : string)
         (style : option string) (r : MatchResult),
    run (query_supabase_for_matching_on table)
        (match_furniture_for_room place url room budget_eur tier style) = Ok r ->
    Forall (fun e =>
              exists s,
                In s (room_plan room)
                /\ slot s = sel_slot e
                /\ category_among (categories s) (sel_product e)
                /\ (get_max_dimension_for_slot (slot s) room <> 0%Z ->
                    fits_width (get_max_dimension_for_slot (slot s) room)
                               (sel_product e)))
           (products r).
Proof.
  intros Placement place url table room budget_eur tier style r Hrun.
  apply result_products in Hrun as (st & Hst & _ & -> & _).
  apply match_loops_passed_filters in Hst.
  eapply Forall_impl; [| exact Hst].
  intros e (_ & _ & _ & _ & Hslot & _). exact Hslot.
Qed.

Lemma X2_selected_rows_fit_their_slot_witness :
  exists r,
    Sample.match_room Sample.catalog Sample.living_room 2000 "standard" (Some "modern")
    = Ok r
    /\ map sel_slot (products r) = ["sofa"; "coffee_table"; "tv_unit"; "rug"]
    /\ map (fun name => get_max_dimension_for_slot name Sample.living_room)
           ["sofa"; "coffee_table"; "tv_unit"; "rug"]
       = [350; 157; 225; 315]%Z
    /\ Forall (fun e =>
                 exists s,
                   In s (room_plan Sample.living_room)
                   /\ slot s = sel_slot e
                   /\ category_among (categories s) (sel_product e)
                   /\ (get_max_dimension_for_slot (slot s) Sample.living_room <> 0%Z ->
                       fits_width
                         (get_max_dimension_for_slot (slot s) Sample.living_room)
                         (sel_product e)))
              (products r).
Proof.
  eexists. split; [vm_compute; reflexivity |].
  split; [vm_compute; reflexivity |].
  split; [vm_compute; reflexivity |].
  apply (@X2_selected_rows_fit_their_slot
           _ Sample.place Sample.url Sample.table Sample.living_room 2000
           "standard" (Some "modern")).
  vm_compute. reflexivity.
Defined.

(** X3. The rows picked for required slots are tagged for the type of the
    room, their [room_type] matching the pattern [%type%], which for the room
    types of the plan means that it contains the type, case ignored, and they
    carry a width-to-height proportion.  Only the queries of required slots
    ask for this: every query of a match is either the query of a required
    slot, with the room filter and the proportion filter, or the query of an
    optional slot, with neither. *)
Theorem X3_required_rows_are_tagged_for_the_room :
  forall (Placement : Type) (place : string -> Room -> Placement) (url : string)
         (table : list Product) (room : Room) (budget_eur : Q) (tier : string)
         (style : option string),
    let cat := query_supabase_for_matching_on table in
    (forall r,
        run cat (match_furniture_for_room place url room budget_eur tier style)
        = Ok r ->
        Forall (fun e =>
                  In (sel_slot e) (map slot (room_required room)) ->
                  tagged_for_room (room_type room) (sel_product e)
                  /\ (exists v,
                         p_room_type (sel_product e) = Some v
                         /\ Py.contains (Py.lower (room_type room)) (Py.lower v)
                            = true)
                  /\ exists x, p_proportion_w_h (sel_product e) = Some x)
               (products r))
    /\ Forall (fun ev =>
                 query_of_required_slot room (fst ev)
                 \/ query_of_optional_slot room (fst ev))
              (trace cat
                 (match_furniture_for_room place url room budget_eur tier style)).
Proof.
  intros Placement place url table room budget_eur tier style cat. split.
  - intros r Hrun.
    apply result_products in Hrun as (st & Hst & _ & -> & _).
    apply match_loops_passed_filters in Hst.
    eapply Forall_impl; [| exact Hst].
    intros e (_ & _ & _ & _ & _ & Hreq) Hslot.
    destruct (Hreq Hslot) as [Htag Hprop].
    split; [exact Htag |]. split; [| exact Hprop].
    destruct Htag as (v & Hv & Hlike). exists v. split; [exact Hv |].
    apply in_map_iff in Hslot as (s & _ & Hs).
    rewrite <- ilike_plain; [exact Hlike |].
    apply (@planned_room_plain room s). apply in_or_app. left. exact Hs.
  - apply Forall_forall. intros ev Hev.
    apply match_trace_reached in Hev
      as (cfg & s & st & _ & [[Hreach Hev] | [Hreach Hev]]).
    + left. destruct Hreach as (before & after & Hsplit & _).
      rewrite required_slot_trace in Hev.
      destruct (Qeq_bool (inject_Z (slot_quantity s)) 0); [destruct Hev |].
      destruct Hev as [<- | []]. exists s.
      split; [rewrite Hsplit; apply in_elt |]. cbn [fst].
      repeat split; reflexivity.
    + right. destruct Hreach as (st1 & before & after & Hsplit & _).
      rewrite optional_slot_trace in Hev.
      destruct (Py.Qltb _ 15); [destruct Hev |].
      destruct Hev as [<- | []]. exists s.
      split; [rewrite Hsplit; apply in_elt |]. cbn [fst].
      repeat split; reflexivity.
Qed.

Lemma X3_required_rows_are_tagged_for_the_room_witness :
  exists r,
    Sample.match_room Sample.catalog Sample.kitchen 1500 "budget" (Some "modern")
    = Ok r
    /\ map sel_slot (products r)
       = ["dining_table"; "chairs"; "chairs"; "chairs"; "chairs"; "chairs"; "chairs"]
    /\ Forall (fun e =>
                 In (sel_slot e) (map slot (room_required Sample.kitchen)) ->
                 tagged_for_room (room_type Sample.kitchen) (sel_product e)
                 /\ (exists v,
                        p_room_type (sel_product e) = Some v
                        /\ Py.contains (Py.lower (room_type Sample.kitchen))
                             (Py.lower v) = true)
                 /\ exists x, p_proportion_w_h (sel_product e) = Some x)
              (products r).
Proof.
  eexists. split; [vm_compute; reflexivity |].
  split; [vm_compute; reflexivity |].
  apply (proj1 (@X3_required_rows_are_tagged_for_the_room
                  _ Sample.place Sample.url Sample.table Sample.kitchen 1500
                  "budget" (Some "modern"))).
  vm_compute. reflexivity.
Defined.

(** X4. No unit of a required slot costs more than the slot's upper share of
    the whole budget divided by its number of units, and no item of an
    optional slot more than the slot's upper share of the whole budget
    (8 percent where the room's allocation table has no entry of that
    name). *)
Theorem X4_prices_within_the_caps_of_the_slots :
  forall (Placement : Type) (place : string -> Room -> Placement) (url : string)
         (table : list Product) (room : Room) (budget_eur : Q) (tier : string)
         (style : option string) (r : MatchResult),
    run (query_supabase_for_matching_on table)
        (match_furniture_for_room place url room budget_eur tier style) = Ok r ->
    Forall (fun e =>
              exists x s,
                p_price (sel_product e) = Some x
                /\ slot s = sel_slot e
                /\ ((In s (room_required room)
                     /\ x <= required_unit_cap room budget_eur s)
                    \/ (In s (room_optional room)
                        /\ x <= optional_item_cap room budget_eur s)))
           (products r).
Proof.
  intros Placement place url table room budget_eur tier style r Hrun.
  apply result_products in Hrun as (st & Hst & _ & -> & _).
  exact (@match_loops_within_caps _ place _
           (query_on_table_honours_max_price table)
           (query_on_table_honours_min_price table)
           room budget_eur tier style st Hst).
Qed.

Lemma X4_prices_within_the_caps_of_the_slots_witness :
  exists r,
    Sample.match_room Sample.catalog Sample.living_room 2000 "standard" (Some "modern")
    = Ok r
    /\ map (fun e => (sel_slot e, p_price (sel_product e))) (products r)
       = [("sofa", Some 450); ("coffee_table", Some 150);
          ("tv_unit", Some 120); ("rug", Some 40)]
    /\ Forall (fun e =>
                 exists x s,
                   p_price (sel_product e) = Some x
                   /\ slot s = sel_slot e
                   /\ ((In s (room_required Sample.living_room)
                        /\ x <= required_unit_cap Sample.living_room 2000 s)
                       \/ (In s (room_optional Sample.living_room)
                           /\ x <= optional_item_cap Sample.living_room 2000 s)))
              (products r).
Proof.
  eexists. split; [vm_compute; reflexivity |].
  split; [vm_compute; reflexivity |].
  apply (@X4_prices_within_the_caps_of_the_slots
           _ Sample.place Sample.url Sample.table Sample.living_room 2000
           "standard" (Some "modern")).
  vm_compute. reflexivity.
Defined.

(** ** The matcher: the shape of its result *)

(** X5. The product list follows the plan of the room: first, for each
    required slot in table order, either nothing or as many entries as the
    slot's quantity (the upper end of a range), all for the same row; then,
    for each optional slot in table order, either nothing or a single entry,
    whatever the quantity range of the slot allows. *)
Theorem X5_product_list_follows_the_plan :
  forall (Placement : Type) (place : string -> Room -> Placement) (url : string)
         (cat : Catalog) (room : Room) (budget_eur : Q) (tier : string)
         (style : option string) (r : MatchResult),
    run cat (match_furniture_for_room place url room budget_eur tier style) = Ok r ->
    exists required_blocks optional_blocks,
      products r = (List.concat required_blocks ++ List.concat optional_blocks)%list
      /\ Forall2 (fun s b => slot_block place room (Z.to_nat (slot_quantity s)) s b)
                 (room_required room) required_blocks
      /\ Forall2 (fun s b => slot_block place room 1 s b)
                 (room_optional room) optional_blocks.
Proof.
  intros Placement place url cat room budget_eur tier style r Hrun.
  apply result_products in Hrun as (st & Hst & _ & -> & _).
  eapply match_loops_blocks. exact Hst.
Qed.

Lemma X5_product_list_follows_the_plan_witness :
  exists r,
    Sample.match_room Sample.catalog Sample.kitchen 1500 "budget" (Some "modern")
    = Ok r
    /\ map (fun e => (sel_slot e, p_id (sel_product e))) (products r)
       = [("dining_table", "dining-1"); ("chairs", "chair-1"); ("chairs", "chair-1");
          ("chairs", "chair-1"); ("chairs", "chair-1"); ("chairs", "chair-1");
          ("chairs", "chair-1")]
    /\ map (fun s => (slot s, slot_quantity s)) (room_required Sample.kitchen)
       = [("dining_table", 1%Z); ("chairs", 6%Z)]
    /\ exists required_blocks optional_blocks,
         products r = (List.concat required_blocks ++ List.concat optional_blocks)%list
         /\ Forall2 (fun s b => slot_block Sample.place Sample.kitchen
                                  (Z.to_nat (slot_quantity s)) s b)
                    (room_required Sample.kitchen) required_blocks
         /\ Forall2 (fun s b => slot_block Sample.place Sample.kitchen 1 s b)
                    (room_optional Sample.kitchen) optional_blocks.
Proof.
  eexists. split; [vm_compute; reflexivity |].
  split; [vm_compute; reflexivity |].
  split; [vm_compute; reflexivity |].
  apply (@X5_product_list_follows_the_plan
           _ Sample.place Sample.url Sample.catalog Sample.kitchen 1500
           "budget" (Some "modern")).
  vm_compute. reflexivity.
Defined.

(** X6. On a positive budget the matcher never overspends: whatever the
    table holds, the reported remaining budget is not negative, the reported
    spending is at most the budget rounded to cents, and the utilization is
    at most 100 percent. *)
Theorem X6_positive_budget_is_never_overspent :
  forall (Placement : Type) (place : string -> Room -> Placement) (url : string)
         (table : list Product) (room : Room) (budget_eur : Q) (tier : string)
         (style : option string) (r : MatchResult),
    0 < budget_eur ->
    run (query_supabase_for_matching_on table)
        (match_furniture_for_room place url room budget_eur tier style) = Ok r ->
    0 <= budget_remaining r
    /\ budget_spent r <= Py.round budget_eur 2
    /\ budget_utilization_pct r <= 100.
Proof.
  intros Placement place url table room budget_eur tier style r Hb Hrun.
  apply result_products in Hrun as (st & Hst & _ & _ & -> & -> & -> & _).
  destruct (@match_loops_remaining_positive _ place _
              (query_on_table_honours_max_price table)
              (query_on_table_honours_min_price table)
              room budget_eur tier style Hb st Hst) as [Hrem Hsum].
  split; [apply round_nonneg, Qlt_le_weak; exact Hrem |].
  split; [apply round_mono; lra |].
  apply (@round_le_Z (total_spent st / budget_eur * 100) 100%Z 1%nat).
  assert (Hdiv : total_spent st / budget_eur <= 1).
  { apply Qle_shift_div_r; [exact Hb | lra]. }
  change (inject_Z 100) with 100. lra.
Qed.

Lemma X6_positive_budget_is_never_overspent_witness :
  exists r,
    Sample.match_room Sample.catalog Sample.living_room 2000 "standard" (Some "modern")
    = Ok r
    /\ budget_spent r == 760
    /\ 0 <= budget_remaining r
    /\ budget_spent r <= Py.round 2000 2
    /\ budget_utilization_pct r <= 100.
Proof.
  eexists. split; [vm_compute; reflexivity |].
  split; [vm_compute; reflexivity |].
  apply (@X6_positive_budget_is_never_overspent
           _ Sample.place Sample.url Sample.table Sample.living_room 2000
           "standard" (Some "modern")).
  - reflexivity.
  - vm_compute. reflexivity.
Defined.

(** ** The catalog query *)

(** X9. Because the answer comes best rated first and [rank_candidates]
    keeps the order of equally scored candidates, the candidate it picks
    from an answer is rated no worse than any other candidate of the answer
    with the same score. *)
Theorem X9_equal_scores_are_settled_by_rating :
  forall (table : list Product) (a : QueryArgs) (target_price : Q)
         (tier : string) (best : Product),
    rank_candidates (query_supabase_for_matching_on table a) target_price tier
    = Ret best ->
    In best (query_supabase_for_matching_on table a)
    /\ Forall (fun c =>
                 score c target_price tier = score best target_price tier ->
                 rating_before best c = true)
              (query_supabase_for_matching_on table a).
Proof.
  intros table a target_price tier best Hrank.
  pose proof (query_on_table_sorted table a) as Hs. unfold rating_sorted in Hs.
  destruct (query_supabase_for_matching_on table a) as [| c0 l] eqn:E;
    [discriminate |].
  destruct (rank_candidates_first_max c0 l target_price tier)
    as (pre & c & post & Hsplit & Hc & _ & Hpre).
  rewrite Hc in Hrank. inversion Hrank; subst c. clear Hrank.
  split; [rewrite Hsplit; apply in_or_app; right; left; reflexivity |].
  rewrite Hsplit in Hs |- *.
  apply Forall_forall. intros x Hx Hscore.
  apply in_app_or in Hx as [Hx | [-> | Hx]].
  - specialize (Hpre _ Hx). lia.
  - apply rating_before_refl.
  - pose proof (sorted_app (R := fun x y => rating_before x y = true)
                  pre (best :: post) Hs) as Happ.
    assert (Hs' : StronglySorted (fun x y => rating_before x y = true) (best :: post)).
    { clear - Hs. induction pre as [| y pre IH]; [exact Hs |].
      simpl in Hs. apply StronglySorted_inv in Hs as [Hs _]. apply IH. exact Hs. }
    apply StronglySorted_inv in Hs' as [_ Hall].
    rewrite Forall_forall in Hall. apply Hall. exact Hx.
Qed.

Lemma X9_equal_scores_are_settled_by_rating_witness :
  let rows := query_supabase_for_matching_on Sample.table SampleQueries.sofas in
  exists best,
    map (fun c => (p_id c, score c 500 "standard", p_rating c)) rows
    = [("sofa-1", 125%Z, Some 4.5); ("sofa-2", 125%Z, Some 4.1)]
    /\ p_id best = "sofa-1"
    /\ In best rows
    /\ Forall (fun c => score c 500 "standard" = score best 500 "standard" ->
                        rating_before best c = true)
              rows.
Proof.
  intros rows. eexists.
  split; [vm_compute; reflexivity |].
  split; [| apply (@X9_equal_scores_are_settled_by_rating
                     Sample.table SampleQueries.sofas 500 "standard");
            vm_compute; reflexivity].
  reflexivity.
Defined.

(** ** The width limit of a slot *)

(** X10. In a room at least one metre wide and deep in which no wall is
    marked suitable for the slot, the width limit is at least 30 cm, so the
    width filter of the query is in force, and it never exceeds the width of
    the room; this holds for every slot name, also one outside the table of
    limits. *)
Theorem X10_fallback_width_limit_is_within_the_room :
  forall (slot_name : string) (room : Room),
    first_suitable_wall slot_name (room_walls room) = None ->
    100 <= estimated_width_cm room ->
    100 <= estimated_depth_cm room ->
    (30 <= get_max_dimension_for_slot slot_name room)%Z
    /\ inject_Z (get_max_dimension_for_slot slot_name room)
       <= estimated_width_cm room.
Proof.
  intros slot_name room Hwall Hw Hd.
  unfold get_max_dimension_for_slot. unfold room_walls in Hwall. rewrite Hwall.
  unfold Py.dict_get_default. cbn [Py.dict_get].
  set (w := estimated_width_cm room) in *.
  set (d := estimated_depth_cm room) in *.
  assert (Hbed : 30 <= Py.min (w * 0.7) 220 /\ Py.min (w * 0.7) 220 <= w)
    by (apply min_between; lra).
  assert (Hdesk : 30 <= Py.min (w * 0.5) 180 /\ Py.min (w * 0.5) 180 <= w)
    by (apply min_between; lra).
  assert (Hdining : 30 <= Py.min (w * 0.6) (d * 0.5) /\ Py.min (w * 0.6) (d * 0.5) <= w)
    by (apply min_between; lra).
  repeat match goal with
         | |- context [String.eqb ?a ?b] => destruct (String.eqb a b)
         end;
    apply int_between; try lia; change (inject_Z 30) with 30; lra.
Qed.

Lemma X10_fallback_width_limit_is_within_the_room_witness :
  map (fun name => get_max_dimension_for_slot name Sample.kitchen)
      ["dining_table"; "chairs"; "storage"]
  = [140; 150; 150]%Z
  /\ (30 <= get_max_dimension_for_slot "chairs" Sample.kitchen)%Z
  /\ inject_Z (get_max_dimension_for_slot "chairs" Sample.kitchen)
     <= estimated_width_cm Sample.kitchen.
Proof.
  split; [vm_compute; reflexivity |].
  apply (@X10_fallback_width_limit_is_within_the_room "chairs" Sample.kitchen).
  - reflexivity.
  - vm_compute. discriminate.
  - vm_compute. discriminate.
Defined.

(** X11. A suitable wall overrides the table of limits, and its free length
    is truncated: when the first wall marked suitable for the slot has a free
    length below 1 cm, the limit is 0, and since the query tests the limit
    for truthiness, neither query of the slot looks at the width of a row
    any more. *)
Theorem X11_wall_without_free_length_switches_the_width_filter_off :
  forall (room : Room) (style : option string) (cfg : TierConfig) (s : Slot)
         (budget : Q) (wall : Wall) (free : Q) (p : Product) (w : option Q),
    first_suitable_wall (slot s) (room_walls room) = Some wall ->
    free_length_cm wall = Some free ->
    0 <= free -> free < 1 ->
    get_max_dimension_for_slot (slot s) room = 0%Z
    /\ row_matches (required_query room style cfg s budget) (with_width p w)
       = row_matches (required_query room style cfg s budget) p
    /\ row_matches (optional_query room style cfg s budget) (with_width p w)
       = row_matches (optional_query room style cfg s budget) p.
Proof.
  intros room style cfg s budget wall free p w Hwall Hfree H0 H1.
  assert (Hlim : get_max_dimension_for_slot (slot s) room = 0%Z).
  { unfold get_max_dimension_for_slot. unfold room_walls in Hwall.
    rewrite Hwall, Hfree. apply int_small; assumption. }
  split; [exact Hlim |].
  unfold row_matches, required_query, optional_query.
  cbn [q_categories q_room q_style q_min_price q_max_price q_max_width
       q_preferred_sources q_require_usable_image q_require_proportions q_limit].
  rewrite Hlim. split; reflexivity.
Qed.

Lemma X11_wall_without_free_length_switches_the_width_filter_off_witness :
  let q := required_query SampleWalls.blocked (Some "modern") Sample.standard
             SampleWalls.sofa 500 in
  p_width_cm SampleWalls.wide_sofa = Some 900
  /\ map p_id (query_supabase_for_matching_on [SampleWalls.wide_sofa] q) = ["sofa-9"]
  /\ get_max_dimension_for_slot (slot SampleWalls.sofa) SampleWalls.blocked = 0%Z
  /\ row_matches q (with_width SampleWalls.wide_sofa (Some 100))
     = row_matches q SampleWalls.wide_sofa
  /\ row_matches (optional_query SampleWalls.blocked (Some "modern") Sample.standard
                    SampleWalls.sofa 500)
                 (with_width SampleWalls.wide_sofa (Some 100))
     = row_matches (optional_query SampleWalls.blocked (Some "modern") Sample.standard
                      SampleWalls.sofa 500)
                   SampleWalls.wide_sofa.
Proof.
  intros q. split; [reflexivity |]. split; [vm_compute; reflexivity |].
  apply (@X11_wall_without_free_length_switches_the_width_filter_off
           SampleWalls.blocked (Some "modern") Sample.standard SampleWalls.sofa 500
           (mkWall "north" (Some 0) (Some ["sofa"])) 0
           SampleWalls.wide_sofa (Some 100)).
  - reflexivity.
  - reflexivity.
  - vm_compute. discriminate.
  - reflexivity.
Defined.

(** ** Budgets of several rooms *)





(** X14. When every room has a positive area (or none, which counts as
    15 m2) the distribution returns for every total, and with a non-negative
    total no room gets a negative amount or more than the total rounded to
    cents. *)
Theorem X14_positive_areas_give_amounts_within_the_total :
  forall (cat : Catalog) (rooms : list Room) (total_budget : Q),
    Forall positive_area rooms ->
    exists out,
      run cat (distribute_budget_across_rooms rooms total_budget) = Ok out
      /\ (0 <= total_budget ->
          Forall (fun entry => 0 <= snd entry /\ snd entry <= Py.round total_budget 2)
                 out).
Proof.
  intros cat rooms total_budget Hareas.
  unfold distribute_budget_across_rooms.
  assert (Hpos : Forall (fun e : string * Q => 0 < snd e) (room_weights rooms [])).
  { apply (room_weights_Forall (fun w => 0 < w)); [constructor |].
    eapply Forall_impl; [| exact Hareas]. intros r. apply room_weight_positive. }
  remember (room_weights rooms []) as weights eqn:Ew. clear Ew.
  destruct weights as [| e0 ws].
  - exists []. split; [reflexivity | intros _; constructor].
  - assert (Hcons : e0 :: ws <> []) by discriminate.
    remember (e0 :: ws) as weights eqn:Ew. clear Ew e0 ws.
    set (W := Py.sum (map snd weights)).
    assert (Hnonneg : Forall (fun y => 0 <= y) (map snd weights)).
    { apply Forall_map. eapply Forall_impl; [| exact Hpos].
      intros e He. apply Qlt_le_weak. exact He. }
    assert (HW : 0 < W).
    { apply sum_positive.
      - apply Forall_map. exact Hpos.
      - intros Hnil. apply map_eq_nil in Hnil. contradiction. }
    assert (Hne : ~ W == 0) by (intros E; rewrite E in HW; apply (Qlt_irrefl 0 HW)).
    rewrite shares_run by exact Hne.
    eexists. split; [reflexivity |].
    intros HT. apply Forall_map. apply Forall_forall. intros e He. cbn [snd].
    assert (He0 : 0 < snd e) by (rewrite Forall_forall in Hpos; apply Hpos; exact He).
    assert (HeW : snd e <= W).
    { apply sum_member_le; [exact Hnonneg | apply in_map; exact He]. }
    assert (Hfrac0 : 0 <= snd e / W).
    { apply Qle_shift_div_l; [exact HW | lra]. }
    assert (Hfrac1 : snd e / W <= 1).
    { apply Qle_shift_div_r; [exact HW | lra]. }
    split.
    + apply round_nonneg. nra.
    + apply round_mono. nra.
Qed.

Lemma X14_positive_areas_give_amounts_within_the_total_witness :
  Forall positive_area SampleRooms.dormitory
  /\ exists out,
       run Sample.catalog (distribute_budget_across_rooms SampleRooms.dormitory 100)
       = Ok out
       /\ (0 <= 100 ->
           Forall (fun entry => 0 <= snd entry /\ snd entry <= Py.round 100 2) out).
Proof.
  assert (H : Forall positive_area SampleRooms.dormitory)
    by (repeat constructor; intros a E; inversion E; subst; reflexivity).
  split; [exact H |].
  exact (@X14_positive_areas_give_amounts_within_the_total
           Sample.catalog SampleRooms.dormitory 100 H).
Defined.

(** X15. When the sketch has rooms and every one of them has area 0, all
    weights are 0 and the distribution raises [ZeroDivisionError], whatever
    the total. *)
Theorem X15_rooms_of_area_zero_raise_zero_division :
  forall (cat : Catalog) (rooms : list Room) (total_budget : Q),
    rooms <> [] ->
    Forall (fun room => exists a, estimated_area_sqm room = Some a /\ a == 0) rooms ->
    run cat (distribute_budget_across_rooms rooms total_budget)
    = Err ZeroDivisionError.
Proof.
  intros cat rooms total_budget Hne Hzero.
  unfold distribute_budget_across_rooms.
  assert (Hall : Forall (fun e : string * Q => snd e == 0) (room_weights rooms [])).
  { apply (room_weights_Forall (fun w => w == 0)); [constructor |].
    eapply Forall_impl; [| exact Hzero].
    intros r (a & Ea & Ha). unfold room_weight. rewrite Ea, Ha.
    unfold Qdiv. ring. }
  pose proof (room_weights_nonempty Hne) as Hw.
  assert (HW : Py.sum (map snd (room_weights rooms [])) == 0).
  { apply sum_all_zero. apply Forall_map. exact Hall. }
  destruct (room_weights rooms []) as [| [rid w] ws]; [congruence |].
  cbn [shares]. unfold div.
  apply Qeq_bool_iff in HW. rewrite HW. reflexivity.
Qed.

Lemma X15_rooms_of_area_zero_raise_zero_division_witness :
  run Sample.catalog (distribute_budget_across_rooms SampleSketch.flat_rooms 3000)
  = Err ZeroDivisionError.
Proof.
  apply (@X15_rooms_of_area_zero_raise_zero_division
           Sample.catalog SampleSketch.flat_rooms 3000).
  - discriminate.
  - repeat constructor; eexists; split; reflexivity.
Defined.

(** ** The budget bar of the design page *)

(** X16. For a result of the matcher on a positive budget, handed on by
    [generate_room_design] and shown by the design page: the total the page
    computes differs from the budget entered by at most one cent, the amount
    it shows as remaining is not negative, the percentage is at most 100, so
    the bar is not clamped and never red. *)
Theorem X16_design_page_never_shows_an_overspent_budget :
  forall (Placement : Type) (place : string -> Room -> Placement) (url : string)
         (table : list Product) (room : Room) (budget_eur : Q) (tier : string)
         (style : option string) (r : MatchResult) (id render sketch : string),
    0 < budget_eur ->
    run (query_supabase_for_matching_on table)
        (match_furniture_for_room place url room budget_eur tier style) = Ok r ->
    let designResult := design_result id render sketch r in
    let bar := design_page_budget_bar designResult in
    Qabs (design_budget_spent designResult + design_budget_remaining designResult
          - budget_eur) <= 0.01
    /\ 0 <= remaining bar
    /\ pct bar <= 100
    /\ clampedPct bar = pct bar
    /\ barColor bar <> "bg-red-500".
Proof.
  intros Placement place url table room budget_eur tier style r id render sketch
         Hb Hrun designResult bar.
  apply result_products in Hrun as (st & Hst & _ & _ & Hs & Hr & _ & _).
  destruct (@match_loops_remaining_positive _ place _
              (query_on_table_honours_max_price table)
              (query_on_table_honours_min_price table)
              room budget_eur tier style Hb st Hst) as [Hrem Hsum].
  assert (Hrem0 : 0 <= budget_remaining r).
  { rewrite Hr. apply round_nonneg, Qlt_le_weak. exact Hrem. }
  subst designResult bar.
  unfold design_page_budget_bar, design_result, BudgetBar.
  cbn [design_budget_spent design_budget_remaining remaining pct clampedPct barColor].
  set (s := budget_spent r) in *. set (m := budget_remaining r) in *.
  assert (Hpct : (if Py.Qltb 0 (s + m) then s / (s + m) * 100 else 0) <= 100).
  { unfold Py.Qltb. destruct (Qle_bool (s + m) 0) eqn:E; cbn [negb]; [lra |].
    assert (HT : 0 < s + m).
    { apply Qnot_le_lt. intros Hle. apply Qle_bool_iff in Hle. congruence. }
    assert (Hdiv : s / (s + m) <= 1) by (apply Qle_shift_div_r; [exact HT | lra]).
    lra. }
  set (p := if Py.Qltb 0 (s + m) then s / (s + m) * 100 else 0) in *.
  split; [| split; [| split; [| split]]].
  - pose proof (round2_error (total_spent st)) as E1.
    pose proof (round2_error (remaining_budget st)) as E2.
    apply Qabs_Qle_condition in E1 as [E1a E1b].
    apply Qabs_Qle_condition in E2 as [E2a E2b].
    subst s m. rewrite Hs, Hr.
    apply Qabs_Qle_condition. split; lra.
  - lra.
  - exact Hpct.
  - unfold Js.Math_min.
    destruct (Qle_bool _ 100) eqn:E; [reflexivity |].
    exfalso. apply Qle_bool_iff in Hpct. congruence.
  - unfold Py.Qltb. apply Qle_bool_iff in Hpct. rewrite Hpct. cbn [negb].
    destruct (Qle_bool 80 _); discriminate.
Qed.

Lemma X16_design_page_never_shows_an_overspent_budget_witness :
  exists r,
    Sample.match_room Sample.catalog Sample.living_room 2000 "standard" (Some "modern")
    = Ok r
    /\ let designResult := design_result "d1" "render.jpg" "sketch.jpg" r in
       let bar := design_page_budget_bar designResult in
       pct bar == 38
       /\ barColor bar = "bg-green-500"
       /\ Qabs (design_budget_spent designResult
                + design_budget_remaining designResult - 2000) <= 0.01
       /\ 0 <= remaining bar
       /\ pct bar <= 100
       /\ clampedPct bar = pct bar
       /\ barColor bar <> "bg-red-500".
Proof.
  eexists. split; [vm_compute; reflexivity |].
  split; [vm_compute; reflexivity |].
  split; [vm_compute; reflexivity |].
  apply (@X16_design_page_never_shows_an_overspent_budget
           _ Sample.place Sample.url Sample.table Sample.living_room 2000
           "standard" (Some "modern")).
  - reflexivity.
  - vm_compute. reflexivity.
Defined.

(** ** Images in R2 *)

(** X17. [upload_product_images] returns at most ten keys and at most one
    per link, all distinct, each of the form
    [products/<domain>/<product_id>/<NNN>.<ext>] with a number below ten and
    each stored in the bucket when the function returns; objects under other
    keys are left as they were. *)
Theorem X17_uploaded_image_keys_are_distinct_and_stored :
  forall (R2_PUBLIC_URL : string) (requests_get : string -> option Response)
         (put_object_succeeds : string -> bool) (product_id domain : string)
         (image_urls : list string) (bucket : Bucket),
    let result :=
      upload_product_images R2_PUBLIC_URL requests_get put_object_succeeds
        product_id domain image_urls bucket in
    (List.length (snd result) <= 10)%nat
    /\ (List.length (snd result) <= List.length image_urls)%nat
    /\ NoDup (snd result)
    /\ Forall (fun key =>
                 (exists i ext,
                    (i < 10)%nat
                    /\ key = product_image_key domain product_id i ext)
                 /\ exists body ct, Py.dict_get (fst result) key = Some (body, ct))
              (snd result)
    /\ forall key, ~ In key (snd result) ->
         Py.dict_get (fst result) key = Py.dict_get bucket key.
Proof.
  intros R2_PUBLIC_URL requests_get put_object_succeeds product_id domain
         image_urls bucket result.
  assert (Hlen : (List.length (firstn 10 image_urls) <= 10)%nat)
    by (rewrite length_firstn; lia).
  assert (Hlen' : (List.length (firstn 10 image_urls) <= List.length image_urls)%nat)
    by (rewrite length_firstn; lia).
  assert (H0 : uploaded_below product_id domain 0 (bucket, @nil string)).
  { split; [constructor | intros key []]. }
  destruct (@upload_loop_spec R2_PUBLIC_URL requests_get put_object_succeeds
              product_id domain (firstn 10 image_urls) 0 (bucket, [])
              ltac:(lia) H0)
    as ([Hnd Hkeys] & (more & Hmore & Hl) & Hrest).
  fold (upload_product_images R2_PUBLIC_URL requests_get put_object_succeeds
          product_id domain image_urls bucket) in Hnd, Hkeys, Hmore, Hrest.
  fold result in Hnd, Hkeys, Hmore, Hrest. cbn [fst snd app] in Hmore, Hrest.
  split; [rewrite Hmore; lia |]. split; [rewrite Hmore; lia |].
  split; [exact Hnd |]. split; [| exact Hrest].
  apply Forall_forall. intros key Hin.
  destruct (Hkeys key Hin) as [(j & ext & Hj & Hk) Hst].
  split; [exists j, ext; split; [lia | exact Hk] | exact Hst].
Qed.

(** X18. A link among the first ten that answers with status 200 and whose
    upload goes through gets its key returned, numbered by the position of
    the link in the list, whatever happens to the other links: a link that
    fails is skipped and leaves a gap in the numbering. *)
Theorem X18_a_failed_link_does_not_stop_the_others :
  forall (R2_PUBLIC_URL : string) (requests_get : string -> option Response)
         (put_object_succeeds : string -> bool) (product_id domain : string)
         (image_urls : list string) (bucket : Bucket) (i : nat) (url : string)
         (resp : Response),
    (i < 10)%nat ->
    nth_error image_urls i = Some url ->
    requests_get url = Some resp ->
    status_code resp = 200%Z ->
    put_object_succeeds
      (product_image_key domain product_id i (response_ext resp)) = true ->
    In (product_image_key domain product_id i (response_ext resp))
       (snd (upload_product_images R2_PUBLIC_URL requests_get put_object_succeeds
               product_id domain image_urls bucket)).
Proof.
  intros R2_PUBLIC_URL requests_get put_object_succeeds product_id domain
         image_urls bucket i url resp Hi Hnth Hget Hok Hput.
  unfold upload_product_images.
  apply (@upload_loop_complete R2_PUBLIC_URL requests_get put_object_succeeds
           product_id domain (firstn 10 image_urls) 0 i (bucket, []) url resp);
    auto.
  rewrite nth_error_firstn_below by exact Hi. exact Hnth.
Qed.

Lemma X18_a_failed_link_does_not_stop_the_others_witness :
  snd SampleUpload.upload
  = ["products/shop.example/abc123/000.png"; "products/shop.example/abc123/003.png"]
  /\ In (product_image_key "shop.example" "abc123" 3
           (response_ext (mkResponse 200 (Some "image/png") "bytes")))
        (snd SampleUpload.upload).
Proof.
  split; [vm_compute; reflexivity |].
  apply (@X18_a_failed_link_does_not_stop_the_others
           "https://r2.example" SampleUpload.requests_get
           SampleUpload.put_object_succeeds "abc123" "shop.example"
           SampleUpload.image_urls [] 3 "https://shop.example/b.png"
           (mkResponse 200 (Some "image/png") "bytes")).
  - lia.
  - reflexivity.
  - reflexivity.
  - reflexivity.
  - reflexivity.
Defined.

(** ** Vision enrichment *)





(** X21. The enrichment writes [image_usable] only from the
    [image_quality] section of the answer: without that section the column
    is not written at all, and with it the value is the section's
    [usable_for_reference], or [False] where the section does not say.  The
    matcher only ever selects rows whose [image_usable] is true. *)
Theorem X21_image_usable_comes_from_the_image_quality_section :
  forall (json_dumps : Enrichment.Json -> string)
         (product : list (string * Enrichment.Json))
         (vision_data : Enrichment.Json) (updates : Enrichment.Updates),
    Enrichment.vision_updates json_dumps product vision_data
    = Enrichment.Returns updates ->
    exists section,
      Enrichment.get vision_data "image_quality" = Enrichment.Returns section
      /\ (Enrichment.truthy section = false ->
          Py.dict_get updates "image_usable" = None)
      /\ (Enrichment.truthy section = true ->
          exists v,
            Enrichment.get_default section "usable_for_reference"
              (Enrichment.JBool false) = Enrichment.Returns v
            /\ Py.dict_get updates "image_usable" = Some v).
Proof.
  intros json_dumps product vision_data updates H.
  apply vision_updates_frame in H
    as (u1 & u7 & u8 & _ & H8 & _ & _ & Hnone & Heq & _).
  rewrite Heq. eapply image_usable_written; eassumption.
Qed.

Lemma X21_image_usable_comes_from_the_image_quality_section_witness :
  exists updates,
    Enrichment.vision_updates SampleVision.json_dumps SampleVision.unlisted
      SampleVision.answer = Enrichment.Returns updates
    /\ Py.dict_get updates "image_usable" = Some (Enrichment.JBool true)
    /\ exists section,
         Enrichment.get SampleVision.answer "image_quality"
         = Enrichment.Returns section
         /\ (Enrichment.truthy section = false ->
             Py.dict_get updates "image_usable" = None)
         /\ (Enrichment.truthy section = true ->
             exists v,
               Enrichment.get_default section "usable_for_reference"
                 (Enrichment.JBool false) = Enrichment.Returns v
               /\ Py.dict_get updates "image_usable" = Some v).
Proof.
  eexists. split; [vm_compute; reflexivity |].
  split; [reflexivity |].
  apply (@X21_image_usable_comes_from_the_image_quality_section
           SampleVision.json_dumps SampleVision.unlisted SampleVision.answer).
  vm_compute. reflexivity.
Defined.

(** X22. When the answer has a category section that names no
    [detected_category] and the row has a category, the enrichment does not
    return: comparing the missing name with the row's category sends it into
    the branch that reads [cv["detected_category"]].  Nothing is written
    then, so the row stays unenriched. *)
Theorem X22_category_section_without_a_name_raises :
  forall (json_dumps : Enrichment.Json -> string)
         (product : list (string * Enrichment.Json))
         (vision_data : Enrichment.Json)
         (cv : list (string * Enrichment.Json)),
    Enrichment.get vision_data "category_verification"
    = Enrichment.Returns (Enrichment.JObj cv) ->
    cv <> [] ->
    Py.dict_get cv "detected_category" = None ->
    Enrichment.py_eq Enrichment.JNull (Enrichment.row_get product "category") = false ->
    exists e,
      Enrichment.enrich_product_from_vision json_dumps product vision_data
      = Enrichment.Raises e.
Proof.
  intros json_dumps product vision_data cv Hg Hne Hmiss Hcat.
  unfold Enrichment.enrich_product_from_vision.
  destruct (Enrichment.vision_updates json_dumps product vision_data)
    as [u | e] eqn:Hu; [| exists e; reflexivity].
  exfalso.
  apply vision_updates_steps in Hu
    as (u1 & u2 & u3 & u4 & u5 & u6 & u7 & u8 & _ & _ & _ & _ & _ & _ & H7 & _).
  erewrite category_without_name_raises in H7 by eassumption.
  discriminate H7.
Qed.

Lemma X22_category_section_without_a_name_raises_witness :
  Enrichment.enrich_product_from_vision SampleVision.json_dumps
    SampleVision.unlisted SampleVision.answer_without_category
  = Enrichment.Raises (Enrichment.KeyError "detected_category")
  /\ exists e,
       Enrichment.enrich_product_from_vision SampleVision.json_dumps
         SampleVision.unlisted SampleVision.answer_without_category
       = Enrichment.Raises e.
Proof.
  split; [vm_compute; reflexivity |].
  apply (@X22_category_section_without_a_name_raises
           SampleVision.json_dumps SampleVision.unlisted
           SampleVision.answer_without_category
           [("suitable_rooms", Enrichment.JArr [Enrichment.JStr "living room"])]).
  - reflexivity.
  - discriminate.
  - reflexivity.
  - reflexivity.
Defined.

(** ** What the client is shown *)

(** X23. The buy links handed to the design page are one per entry of the
    product list, in the same order, each with a price, and the spending
    shown next to them is the sum of these prices rounded to cents. *)
Theorem X23_listed_prices_add_up_to_the_spending_shown :
  forall (Placement : Type) (place : string -> Room -> Placement) (url : string)
         (table : list Product) (room : Room) (budget_eur : Q) (tier : string)
         (style : option string) (r : MatchResult) (id render sketch : string),
    run (query_supabase_for_matching_on table)
        (match_furniture_for_room place url room budget_eur tier style) = Ok r ->
    let designResult := design_result id render sketch r in
    List.length (design_products designResult) = product_count r
    /\ map bl_name (design_products designResult)
       = map (fun e => p_name (sel_product e)) (products r)
    /\ Forall (fun link => exists x, bl_price link = Some x)
              (design_products designResult)
    /\ design_budget_spent designResult
       = Py.round (Py.sum (map link_price (design_products designResult))) 2.
Proof.
  intros Placement place url table room budget_eur tier style r id render sketch
         Hrun designResult.
  apply match_result_inv in Hrun as (st & Hst & Hz & ->).
  subst designResult. unfold design_result.
  cbn [design_products design_budget_spent buy_links product_count products
       budget_spent].
  pose proof (@match_loops_within_caps _ place _
                (query_on_table_honours_max_price table)
                (query_on_table_honours_min_price table)
                room budget_eur tier style st Hst) as Hcaps.
  pose proof (@match_loops_invariant _ place _
                (query_on_table_honours_max_price table)
                (query_on_table_honours_min_price table)
                room budget_eur tier style (or_introl Hz) st Hst)
    as (_ & Hspent & _).
  split; [apply length_map |].
  split; [rewrite map_map; reflexivity |].
  split.
  - apply Forall_map. eapply Forall_impl; [| exact Hcaps].
    intros e (x & s & Hx & _). exists x. exact Hx.
  - apply round_comp; [| reflexivity].
    rewrite Hspent, prices_sum_as_sum, map_map. reflexivity.
Qed.

Lemma X23_listed_prices_add_up_to_the_spending_shown_witness :
  exists r,
    Sample.match_room Sample.catalog Sample.living_room 2000 "standard" (Some "modern")
    = Ok r
    /\ let designResult := design_result "d1" "render.jpg" "sketch.jpg" r in
       map (fun link => (bl_name link, bl_price link)) (design_products designResult)
       = [("sofa-1", Some 450); ("table-1", Some 150); ("tv-1", Some 120);
          ("rug-1", Some 40)]
       /\ design_budget_spent designResult == 760
       /\ List.length (design_products designResult) = product_count r
       /\ map bl_name (design_products designResult)
          = map (fun e => p_name (sel_product e)) (products r)
       /\ Forall (fun link => exists x, bl_price link = Some x)
                 (design_products designResult)
       /\ design_budget_spent designResult
          = Py.round (Py.sum (map link_price (design_products designResult))) 2.
Proof.
  eexists. split; [vm_compute; reflexivity |].
  split; [vm_compute; reflexivity |].
  split; [vm_compute; reflexivity |].
  apply (@X23_listed_prices_add_up_to_the_spending_shown
           _ Sample.place Sample.url Sample.table Sample.living_room 2000
           "standard" (Some "modern")).
  vm_compute. reflexivity.
Defined.

(** ** The API *)

(** X24. The alternatives [/api/swap] offers for a slot are at most five
    rows of the table, in stock, with a usable image and an R2 key, whose
    category or subcategory is the slot string itself, and priced at most
    [max_price]; a [max_price] that is missing or 0 is replaced by what
    remains of the design's budget plus the price of the current product.
    The slot string is a parameter of the request and is pasted into the
    filter as it comes: this is said of slot strings PostgREST reads as one
    value, not empty, free of its reserved characters and with no blank at
    either end. *)
Theorem X24_swap_alternatives_are_in_the_slot_and_within_the_cap :
  forall (url : string) (get_current_product_price : DesignRow -> string -> Q)
         (table : list Product) (design : DesignRow) (slot : string)
         (max_price : option Q) (alternatives : list Alternative),
    Postgrest.literal slot = true ->
    run (query_supabase_for_matching_on table)
        (swap_product_alternatives url get_current_product_price design slot max_price)
    = Ok alternatives ->
    exists cap rows,
      (forall x, max_price = Some x -> ~ x == 0 -> cap = x)
      /\ (Py.truthy_num max_price = false ->
          exists remaining,
            design_row_budget_remaining design = Some remaining
            /\ cap = remaining + get_current_product_price design slot)
      /\ rows = query_supabase_for_matching_on table (swap_query slot cap)
      /\ map alt_id alternatives = map p_id rows
      /\ map alt_price alternatives = map p_price rows
      /\ (List.length alternatives <= 5)%nat
      /\ Forall (fun a =>
                   In a table
                   /\ in_stock_with_image a
                   /\ category_among [slot] a
                   /\ exists x, p_price a = Some x /\ x <= cap)
                rows.
Proof.
  intros url get_current_product_price table design slot max_price alternatives
         _ Hrun.
  unfold swap_product_alternatives in Hrun.
  apply run_bind_ok in Hrun as (cap & Hcap & Hrun).
  cbn [query_supabase_for_matching bind run] in Hrun. inversion Hrun; subst. clear Hrun.
  exists cap, (query_supabase_for_matching_on table (swap_query slot cap)).
  split; [| split; [| split; [reflexivity | split; [| split; [| split]]]]].
  - intros x -> Hx. cbn [Py.truthy_num] in Hcap.
    destruct (Qeq_bool x 0) eqn:E; [apply Qeq_bool_iff in E; contradiction |].
    cbn in Hcap. inversion Hcap. reflexivity.
  - intros Hfalsy. rewrite Hfalsy in Hcap.
    destruct (design_row_budget_remaining design) as [remaining |];
      [| discriminate Hcap].
    exists remaining. split; [reflexivity |]. cbn in Hcap. inversion Hcap. reflexivity.
  - rewrite map_map. reflexivity.
  - rewrite map_map. reflexivity.
  - rewrite length_map. unfold query_supabase_for_matching_on.
    cbn [swap_query q_limit]. apply firstn_le_length.
  - apply Forall_forall. intros a Ha.
    apply query_on_table_In in Ha as [Hin Hrow].
    apply row_matches_facts in Hrow
      as (Hcat & _ & _ & Hmax & _ & Himg & _ & Hstock & _).
    split; [exact Hin |].
    split; [split; [exact Hstock | apply Himg; reflexivity] |].
    split; [apply Hcat; reflexivity | apply Hmax; reflexivity].
Qed.

Lemma X24_swap_alternatives_are_in_the_slot_and_within_the_cap_witness :
  Postgrest.literal "sofa" = true
  /\ exists alternatives,
    run Sample.catalog
        (swap_product_alternatives Sample.url SampleApi.current_price SampleApi.design
           "sofa" (Some 0))
    = Ok alternatives
    /\ map (fun a => (alt_id a, alt_price a)) alternatives
       = [("sofa-1", Some 450); ("sofa-2", Some 480)]
    /\ exists cap rows,
         (forall x, Some 0 = Some x -> ~ x == 0 -> cap = x)
         /\ (Py.truthy_num (Some 0) = false ->
             exists remaining,
               design_row_budget_remaining SampleApi.design = Some remaining
               /\ cap = remaining + SampleApi.current_price SampleApi.design "sofa")
         /\ rows = query_supabase_for_matching_on Sample.table (swap_query "sofa" cap)
         /\ map alt_id alternatives = map p_id rows
         /\ map alt_price alternatives = map p_price rows
         /\ (List.length alternatives <= 5)%nat
         /\ Forall (fun a =>
                      In a Sample.table
                      /\ in_stock_with_image a
                      /\ category_among ["sofa"] a
                      /\ exists x, p_price a = Some x /\ x <= cap)
                   rows.
Proof.
  split; [reflexivity |].
  eexists. split; [vm_compute; reflexivity |].
  split; [vm_compute; reflexivity |].
  apply (@X24_swap_alternatives_are_in_the_slot_and_within_the_cap
           Sample.url SampleApi.current_price Sample.table SampleApi.design
           "sofa" (Some 0)).
  - reflexivity.
  - vm_compute. reflexivity.
Defined.

(** X25. [/api/furnish] furnishes a room of the analysed sketch: the first
    one with the requested id, and when no room has that id it silently
    falls back to the first room of the sketch. *)
Theorem X25_furnish_room_falls_back_to_the_first_room :
  forall (Placement : Type) (place : string -> Room -> Placement) (url : string)
         (cat : Catalog) (rooms : list Room) (requested : string) (budget : Q)
         (tier style : string) (r : MatchResult),
    run cat (furnish_room_matching place url rooms requested budget tier style)
    = Ok r ->
    In (mr_room r) rooms
    /\ (room_id (mr_room r) = requested
        \/ (Forall (fun room => room_id room <> requested) rooms
            /\ exists rest, rooms = mr_room r :: rest)).
Proof.
  intros Placement place url cat rooms requested budget tier style r Hrun.
  unfold furnish_room_matching in Hrun.
  apply run_bind_ok in Hrun as (room & Hroom & Hrun).
  apply match_result_inv in Hrun as (st & _ & _ & ->). cbn [mr_room].
  unfold select_room in Hroom.
  destruct rooms as [| first rest]; [discriminate Hroom |].
  cbn [run] in Hroom.
  destruct (find (fun r => String.eqb (room_id r) requested) (first :: rest))
    as [found |] eqn:Hfind; inversion Hroom; subst; clear Hroom.
  - apply find_some in Hfind as [Hin Hid]. apply String.eqb_eq in Hid.
    split; [exact Hin | left; exact Hid].
  - split; [left; reflexivity |]. right. split; [| exists rest; reflexivity].
    apply Forall_forall. intros x Hx Hid.
    pose proof (find_none _ _ Hfind x Hx) as Hno. cbn in Hno.
    rewrite Hid, String.eqb_refl in Hno. discriminate Hno.
Qed.

Lemma X25_furnish_room_falls_back_to_the_first_room_witness :
  exists r,
    run Sample.catalog
        (furnish_room_matching Sample.place Sample.url SampleApi.rooms "room_7"
           2000 "standard" "modern")
    = Ok r
    /\ room_id (mr_room r) = "room_1"
    /\ In (mr_room r) SampleApi.rooms
    /\ (room_id (mr_room r) = "room_7"
        \/ (Forall (fun room => room_id room <> "room_7") SampleApi.rooms
            /\ exists rest, SampleApi.rooms = mr_room r :: rest)).
Proof.
  eexists. split; [vm_compute; reflexivity |].
  split; [reflexivity |].
  apply (@X25_furnish_room_falls_back_to_the_first_room
           _ Sample.place Sample.url Sample.catalog SampleApi.rooms "room_7"
           2000 "standard" "modern").
  vm_compute. reflexivity.
Defined.

(** ** Saving scraped products *)

(** X26. The row [save_product] upserts holds no [None]: a field the
    scraper did not find is left out, so the upsert does not touch that
    column.  Every other field of the product is in the row with the
    product's value, also [id], [source_domain] and [updated_at]: a product
    that carries an [id] of its own is stored under that id, while the
    function returns the generated one. *)
Theorem X26_upserted_row_drops_nulls_and_prefers_the_products_fields :
  forall (sha256_hexdigest : string -> string) (py_str : Enrichment.Json -> string)
         (float_of_string : string -> option Q)
         (existing : list (list (string * Enrichment.Json)))
         (product : list (string * Enrichment.Json)) (domain id : string)
         (change : option Supabase.PriceChange)
         (row : list (string * Enrichment.Json)),
    Supabase.save_product sha256_hexdigest py_str float_of_string existing product
      domain = Enrichment.Returns (id, change, row) ->
    NoDup (map fst product) ->
    id = Supabase.generated_id sha256_hexdigest py_str product domain
    /\ Forall (fun entry => snd entry <> Enrichment.JNull) row
    /\ (forall k v,
          Py.dict_get product k = Some v -> v <> Enrichment.JNull ->
          Py.dict_get row k = Some v)
    /\ (Enrichment.row_get product "id" = Enrichment.JNull ->
        Py.dict_get row "id" = Some (Enrichment.JStr id))
    /\ (forall k,
          Enrichment.row_get product k = Enrichment.JNull ->
          ~ In k ["id"; "source_domain"; "updated_at"] ->
          Py.dict_get row k = None).
Proof.
  intros sha256_hexdigest py_str float_of_string existing product domain id change
         row H Hnd.
  unfold Supabase.save_product in H.
  destruct (Supabase.price_change float_of_string existing product _) as [c |];
    cbn [Enrichment.and_then] in H; [| discriminate H].
  inversion H; subst. clear H.
  set (id := Supabase.generated_id sha256_hexdigest py_str product domain).
  split; [reflexivity |].
  unfold Supabase.upsert_row.
  change (fold_left
            (fun (row : list (string * Enrichment.Json))
                 (entry : string * Enrichment.Json) =>
               Py.dict_set row (fst entry) (snd entry))
            (filter (fun entry : string * Enrichment.Json =>
                       match snd entry with
                       | Enrichment.JNull => false
                       | _ => true
                       end) product)
            [("id", Enrichment.JStr id); ("source_domain", Enrichment.JStr domain);
             ("updated_at", Enrichment.JStr "now()")])
    with (Enrichment.updated_row
            [("id", Enrichment.JStr id); ("source_domain", Enrichment.JStr domain);
             ("updated_at", Enrichment.JStr "now()")]
            (filter not_null product)).
  assert (Hget : forall k,
             Py.dict_get
               (Enrichment.updated_row
                  [("id", Enrichment.JStr id); ("source_domain", Enrichment.JStr domain);
                   ("updated_at", Enrichment.JStr "now()")]
                  (filter not_null product)) k
             = match match Py.dict_get product k with
                     | Some Enrichment.JNull => None
                     | other => other
                     end with
               | Some v => Some v
               | None =>
                   Py.dict_get
                     [("id", Enrichment.JStr id);
                      ("source_domain", Enrichment.JStr domain);
                      ("updated_at", Enrichment.JStr "now()")] k
               end).
  { intros k. rewrite updated_row_get by (apply filter_keys_NoDup; exact Hnd).
    rewrite dict_get_not_null by exact Hnd. reflexivity. }
  split; [| split; [| split]].
  - apply (updated_row_Forall (fun v => v <> Enrichment.JNull)).
    + repeat constructor; discriminate.
    + apply Forall_forall. intros e He. apply filter_In in He as [_ He].
      unfold not_null in He. intros E. rewrite E in He. discriminate He.
  - intros k v Hk Hv. rewrite Hget, Hk. destruct v; try reflexivity. contradiction.
  - intros Hid. rewrite Hget. unfold Enrichment.row_get, Py.dict_get_default in Hid.
    destruct (Py.dict_get product "id") as [v |]; [subst v |]; reflexivity.
  - intros k Hk Hnot. rewrite Hget.
    unfold Enrichment.row_get, Py.dict_get_default in Hk.
    assert (Hbase : Py.dict_get
                      [("id", Enrichment.JStr id);
                       ("source_domain", Enrichment.JStr domain);
                       ("updated_at", Enrichment.JStr "now()")] k = None).
    { apply dict_get_absent. exact Hnot. }
    destruct (Py.dict_get product k) as [v |]; [subst v |]; exact Hbase.
Qed.

Lemma X26_upserted_row_drops_nulls_and_prefers_the_products_fields_witness :
  exists id change row,
    Supabase.save_product SampleScrape.sha256_hexdigest SampleScrape.py_str
      SampleScrape.float_of_string SampleScrape.existing SampleScrape.product
      "shop.example" = Enrichment.Returns (id, change, row)
    /\ id = "9f86d081884c7d65"
    /\ map fst row = ["id"; "source_domain"; "updated_at"; "sku"; "name"; "price"]
    /\ Py.dict_get row "id" = Some (Enrichment.JStr "shop-4711")
    /\ Forall (fun entry => snd entry <> Enrichment.JNull) row
    /\ Py.dict_get row "color" = None.
Proof.
  eexists. eexists. eexists.
  split; [vm_compute; reflexivity |].
  split; [reflexivity |]. split; [reflexivity |]. split; [reflexivity |].
  match goal with
  | |- Forall _ ?row /\ _ =>
      destruct (@X26_upserted_row_drops_nulls_and_prefers_the_products_fields
                  SampleScrape.sha256_hexdigest SampleScrape.py_str
                  SampleScrape.float_of_string SampleScrape.existing
                  SampleScrape.product "shop.example" _ _ row
                  ltac:(vm_compute; reflexivity)
                  ltac:(repeat constructor; simpl; intuition discriminate))
        as (_ & Hall & _ & _ & Hnone)
  end.
  split; [exact Hall |].
  apply Hnone; [reflexivity | simpl; intuition discriminate].
Defined.

(** X27. [save_product] records a price change only for a product that is
    already in the table, when the stored and the scraped price are both
    truthy and differ as numbers; the record carries the id it returns.  So
    a price that is [None] or 0 on either side never makes it into the
    price history. *)
Theorem X27_price_change_needs_two_different_truthy_prices :
  forall (sha256_hexdigest : string -> string) (py_str : Enrichment.Json -> string)
         (float_of_string : string -> option Q)
         (existing : list (list (string * Enrichment.Json)))
         (product : list (string * Enrichment.Json)) (domain id : string)
         (c : Supabase.PriceChange) (row : list (string * Enrichment.Json)),
    Supabase.save_product sha256_hexdigest py_str float_of_string existing product
      domain = Enrichment.Returns (id, Some c, row) ->
    Supabase.change_product_id c = id
    /\ exists first rest,
         existing = first :: rest
         /\ Enrichment.truthy (Enrichment.row_get first "price") = true
         /\ Enrichment.truthy (Enrichment.row_get product "price") = true
         /\ Supabase.float float_of_string (Enrichment.row_get first "price")
            = Enrichment.Returns (Supabase.old_price c)
         /\ Supabase.float float_of_string (Enrichment.row_get product "price")
            = Enrichment.Returns (Supabase.new_price c)
         /\ ~ Supabase.old_price c == Supabase.new_price c.
Proof.
  intros sha256_hexdigest py_str float_of_string existing product domain id c row H.
  unfold Supabase.save_product in H.
  destruct (Supabase.price_change float_of_string existing product _)
    as [change |] eqn:Hc; cbn [Enrichment.and_then] in H; [| discriminate H].
  inversion H; subst. clear H.
  unfold Supabase.price_change in Hc.
  destruct existing as [| first rest]; [discriminate Hc |].
  destruct (Enrichment.truthy (Enrichment.row_get first "price")) eqn:Hold;
    [| discriminate Hc].
  destruct (Enrichment.truthy (Enrichment.row_get product "price")) eqn:Hnew;
    [| discriminate Hc].
  cbn [andb] in Hc.
  destruct (Supabase.float float_of_string (Enrichment.row_get first "price"))
    as [o |] eqn:Ho; cbn [Enrichment.and_then] in Hc; [| discriminate Hc].
  destruct (Supabase.float float_of_string (Enrichment.row_get product "price"))
    as [n |] eqn:Hn; cbn [Enrichment.and_then] in Hc; [| discriminate Hc].
  destruct (Qeq_bool o n) eqn:E; cbn [negb] in Hc; [discriminate Hc |].
  inversion Hc; subst. cbn [Supabase.change_product_id Supabase.old_price
                             Supabase.new_price].
  split; [reflexivity |]. exists first, rest.
  repeat (split; [first [reflexivity | assumption] |]).
  intros Heq. apply Qeq_bool_iff in Heq. congruence.
Qed.

Lemma X27_price_change_needs_two_different_truthy_prices_witness :
  exists id c row,
    Supabase.save_product SampleScrape.sha256_hexdigest SampleScrape.py_str
      SampleScrape.float_of_string SampleScrape.existing SampleScrape.product
      "shop.example" = Enrichment.Returns (id, Some c, row)
    /\ Supabase.old_price c == 499 /\ Supabase.new_price c == 449
    /\ Supabase.change_product_id c = id
    /\ (exists id' row',
          Supabase.save_product SampleScrape.sha256_hexdigest SampleScrape.py_str
            SampleScrape.float_of_string SampleScrape.existing SampleScrape.unpriced
            "shop.example" = Enrichment.Returns (id', None, row')).
Proof.
  eexists. eexists. eexists.
  split; [vm_compute; reflexivity |].
  split; [reflexivity |]. split; [reflexivity |].
  split.
  - match goal with
    | |- Supabase.change_product_id ?c = ?id =>
        exact (proj1 (@X27_price_change_needs_two_different_truthy_prices
                        SampleScrape.sha256_hexdigest SampleScrape.py_str
                        SampleScrape.float_of_string SampleScrape.existing
                        SampleScrape.product "shop.example" id c _
                        ltac:(vm_compute; reflexivity)))
    end.
  - eexists. eexists. vm_compute. reflexivity.
Defined.

(** ** The load on the catalog *)

(** X28. Matching a room asks the catalog at most once per slot of the
    room's plan, every query insists on a usable image, and on a snapshot of
    the table no answer has more than five rows. *)
Theorem X28_at_most_one_query_per_slot :
  forall (Placement : Type) (place : string -> Room -> Placement) (url : string)
         (table : list Product) (room : Room) (budget_eur : Q) (tier : string)
         (style : option string),
    let events :=
      trace (query_supabase_for_matching_on table)
            (match_furniture_for_room place url room budget_eur tier style) in
    (List.length events <= List.length (room_plan room))%nat
    /\ Forall (fun ev => q_require_usable_image (fst ev) = true
                         /\ (List.length (snd ev) <= 5)%nat)
              events.
Proof.
  intros Placement place url table room budget_eur tier style events.
  split; [apply match_trace_bound |].
  pose proof (@match_query_limits _ place url (query_supabase_for_matching_on table)
                room budget_eur tier style) as Hlim.
  pose proof (trace_answers (query_supabase_for_matching_on table)
                (match_furniture_for_room place url room budget_eur tier style))
    as Hans.
  unfold queries in Hlim. fold events in Hlim, Hans.
  rewrite Forall_forall in Hlim, Hans. apply Forall_forall. intros ev Hev.
  destruct (Hlim ev Hev) as [Hl Hu]. split; [exact Hu |].
  rewrite (Hans ev Hev). unfold query_supabase_for_matching_on.
  eapply Nat.le_trans; [apply firstn_le_length | exact Hl].
Qed.

(** X29. A requested style is honoured as far as the rows say: the style
    of every selected row that has one matches the pattern [%style%], case
    ignored, in which [_] stands for any one character and [%] or [*] for
    any run of them; for a style without such characters the row's style
    contains the requested one.  Rows without a style pass the filter.  The
    style is pasted into the filter as it comes: this is said of styles
    PostgREST reads as one value, not empty, free of its reserved characters
    and with no blank at either end. *)
Theorem X29_requested_style_is_honoured :
  forall (Placement : Type) (place : string -> Room -> Placement) (url : string)
         (table : list Product) (room : Room) (budget_eur : Q) (tier style : string)
         (r : MatchResult),
    Postgrest.literal style = true ->
    run (query_supabase_for_matching_on table)
        (match_furniture_for_room place url room budget_eur tier (Some style))
    = Ok r ->
    Forall (fun e =>
              forall v, p_style (sel_product e) = Some v ->
                        Sql.ilike ("%" ++ style ++ "%") v = true
                        /\ (Sql.plain style = true ->
                            Py.contains (Py.lower style) (Py.lower v) = true))
           (products r).
Proof.
  intros Placement place url table room budget_eur tier style r Hliteral Hrun.
  assert (Hstyle : style <> "").
  { intros ->. discriminate Hliteral. }
  assert (Hrow : forall a p v,
             row_matches a p = true -> q_style a = Some style ->
             p_style p = Some v ->
             Sql.ilike ("%" ++ style ++ "%") v = true
             /\ (Sql.plain style = true ->
                 Py.contains (Py.lower style) (Py.lower v) = true)).
  { intros a p v Hp Ha Hv.
    pose proof (row_matches_style a p Hp Ha Hstyle Hv) as Hlike.
    split; [exact Hlike |].
    intros Hplain. rewrite <- ilike_plain; assumption. }
  apply result_products in Hrun as (st & Hst & _ & -> & _).
  revert st Hst. apply match_loops_entries.
  - intros cfg s b best _ _ Hin v Hv. cbn [sel_product] in Hv.
    apply query_on_table_In in Hin as [_ Hin].
    eapply Hrow; eauto.
  - intros cfg s b best _ _ Hin v Hv. cbn [sel_product] in Hv.
    apply query_on_table_In in Hin as [_ Hin].
    eapply Hrow; eauto.
Qed.

Lemma X29_requested_style_is_honoured_witness :
  Postgrest.literal "Modern" = true
  /\ exists r,
       Sample.match_room Sample.catalog Sample.living_room 2000 "standard"
         (Some "Modern") = Ok r
       /\ map (fun e => p_style (sel_product e)) (products r)
          = [Some "modern"; Some "modern"; Some "modern"; Some "modern"]
       /\ Forall (fun e =>
                    forall v, p_style (sel_product e) = Some v ->
                              Sql.ilike ("%" ++ "Modern" ++ "%") v = true
                              /\ (Sql.plain "Modern" = true ->
                                  Py.contains (Py.lower "Modern") (Py.lower v)
                                  = true))
                 (products r).
Proof.
  split; [reflexivity |].
  eexists. split; [vm_compute; reflexivity |].
  split; [vm_compute; reflexivity |].
  apply (@X29_requested_style_is_honoured
           _ Sample.place Sample.url Sample.table Sample.living_room 2000
           "standard" "Modern").
  - reflexivity.
  - vm_compute. reflexivity.
Defined.

(** ** Statistics *)

(** X30. [/api/stats] never divides by zero: it returns for all counts,
    also for an empty table, with a percentage between 0 and 100 whenever
    the count of enriched rows is between 0 and the total. *)
Theorem X30_stats_returns_for_an_empty_table :
  forall (cat : Catalog) (total enriched usable : Z),
    exists s,
      run cat (stats total enriched usable) = Ok s
      /\ total_products s = total
      /\ vision_enriched s = enriched
      /\ usable_for_render s = usable
      /\ ((0 <= enriched <= total)%Z ->
          0 <= enrichment_pct s /\ enrichment_pct s <= 100).
Proof.
  intros cat total enriched usable. unfold stats, div.
  assert (Hmax : (1 <= Z.max total 1)%Z) by lia.
  pose proof (inject_Z_positive Hmax) as Hpos.
  destruct (Qeq_bool (inject_Z (Z.max total 1)) 0) eqn:E.
  - apply Qeq_bool_iff in E. exfalso. lra.
  - cbn [bind run]. eexists. split; [reflexivity |].
    cbn [total_products vision_enriched usable_for_render enrichment_pct].
    repeat (split; [reflexivity |]).
    intros [H0 H1].
    assert (He0 : 0 <= inject_Z enriched).
    { change 0 with (inject_Z 0). rewrite <- Zle_Qle. exact H0. }
    assert (He1 : inject_Z enriched <= inject_Z (Z.max total 1)).
    { rewrite <- Zle_Qle. lia. }
    set (e := inject_Z enriched) in *. set (m := inject_Z (Z.max total 1)) in *.
    assert (Hr0 : 0 <= e / m) by (apply Qle_shift_div_l; lra).
    assert (Hr1 : e / m <= 1) by (apply Qle_shift_div_r; lra).
    split.
    + apply round_nonneg. lra.
    + apply (@round_le_Z (e / m * 100) 100%Z 1%nat). change (inject_Z 100) with 100. lra.
Qed.
